(** * Heuristic Dart analyzer ([analyzer/code_analyzer.py]): a shallow embedding

    The five detection passes and the metrics aggregation of
    [code_analyzer.py], written as Rocq functions over Python-like values,
    with the properties of the specification proved about them.

    Python values are modelled as follows.
    - [str] is a sequence of Unicode code points ([list N]); a literal of the
      source is written [py "..."].
    - [int] is [Z]; the float of [comment_density] is a binary64 [float].
    - a [dict] keeps its keys in insertion order: an association list.
    - an operation that can raise returns in the [result] monad. *)

From Stdlib Require Import List ZArith NArith Lia Bool String Ascii.
From Stdlib Require Import DecimalString PrimFloat Uint63 Permutation Sorted.
Import ListNotations.
Open Scope Z_scope.

(** ** Exceptions *)

Inductive exn := IndexError | ZeroDivisionError | AttributeError | OSError.

Inductive result (A : Type) : Type :=
| Ok (a : A)
| Raise (e : exn).
Arguments Ok {A} a.
Arguments Raise {A} e.

Definition bind {A B} (m : result A) (k : A -> result B) : result B :=
  match m with
  | Ok a => k a
  | Raise e => Raise e
  end.

Notation "x <- m ;; k" := (bind m (fun x => k))
  (at level 61, m at next level, right associativity).

(** ** Strings *)

Module Str.

Definition char := N.
Definition str := list char.

Definition py (s : string) : str := map N_of_ascii (list_ascii_of_string s).

(** A one-character literal. *)
Definition ch (a : ascii) : char := N_of_ascii a.
Arguments ch a%_char.

(** The terminator [readlines] leaves at the end of a line. *)
Definition nl : str := [10%N].

Definition eqb (a b : str) : bool :=
  if list_eq_dec N.eq_dec a b then true else false.

Definition in_range (lo hi c : N) : bool := ((lo <=? c) && (c <=? hi))%N.

(** [str.isspace] for one character, which is also the class [\s] of [re] on
    [str] patterns: the code points Unicode marks as white space. *)
Definition isspace (c : char) : bool :=
  in_range 9 13 c || in_range 28 32 c || (c =? 133)%N || (c =? 160)%N
  || (c =? 5760)%N || in_range 8192 8202 c || in_range 8232 8233 c
  || (c =? 8239)%N || (c =? 8287)%N || (c =? 12288)%N.

Definition lstrip (s : str) : str :=
  (fix go (s : str) : str :=
     match s with
     | c :: t => if isspace c then go t else s
     | [] => []
     end) s.

Definition rstrip (s : str) : str := rev (lstrip (rev s)).

(** [s.strip()] *)
Definition strip (s : str) : str := rstrip (lstrip s).

Fixpoint is_prefix (p s : str) : bool :=
  match p, s with
  | [], _ => true
  | a :: p', b :: s' => (a =? b)%N && is_prefix p' s'
  | _ :: _, [] => false
  end.

(** [s.startswith((p1, p2, ...))] *)
Definition startswith (s : str) (ps : list str) : bool :=
  existsb (fun p => is_prefix p s) ps.

(** [sub in s] *)
Fixpoint contains (sub s : str) : bool :=
  is_prefix sub s ||
  match s with
  | [] => false
  | _ :: t => contains sub t
  end.

(** [s.count(c)] for a one-character [c]. *)
Definition count (c : char) (s : str) : Z :=
  Z.of_nat (List.length (filter (N.eqb c) s)).

(** [s.split(sep)] for a one-character [sep]: never empty. *)
Fixpoint split (sep : char) (s : str) : list str :=
  match s with
  | [] => [[]]
  | c :: t =>
      if (c =? sep)%N then [] :: split sep t
      else match split sep t with
           | w :: ws => (c :: w) :: ws
           | [] => [[c]]
           end
  end.

(** [s.split()]: the maximal runs of non-space characters. *)
Fixpoint split_ws (s : str) : list str :=
  match s with
  | [] => []
  | c :: t =>
      if isspace c then split_ws t
      else match t with
           | [] => [[c]]
           | d :: _ =>
               if isspace d then [c] :: split_ws t
               else match split_ws t with
                    | w :: ws => (c :: w) :: ws
                    | [] => [[c]]
                    end
           end
  end.

(** [s.lower()] on ASCII text: the letters [A] to [Z] become [a] to [z].
    Python also maps the capitals outside ASCII, through the Unicode tables;
    these are not modelled and such code points are left alone here, so the
    definition agrees with Python on strings of ASCII characters only.  The
    analyzer applies it to the issue types, which the passes write as ASCII
    literals. *)
Definition lower (s : str) : str :=
  map (fun c => if in_range 65 90 c then (c + 32)%N else c) s.

(** [s.replace(a, b)] for one-character [a] and [b]. *)
Definition replace (a b : char) (s : str) : str :=
  map (fun c => if (c =? a)%N then b else c) s.

(** [str(n)] for an [int]. *)
Definition of_int (n : Z) : str := py (NilZero.string_of_int (Z.to_int n)).

(** [len(s)] *)
Definition len {A} (l : list A) : Z := Z.of_nat (List.length l).

End Str.
Import Str.

(** [xs[i]]: a negative index counts from the end; out of range raises. *)
Definition getitem {A} (xs : list A) (i : Z) : result A :=
  let j := if i <? 0 then len xs + i else i in
  if (0 <=? j) && (j <? len xs) then
    match nth_error xs (Z.to_nat j) with
    | Some x => Ok x
    | None => Raise IndexError
    end
  else Raise IndexError.

(** [enumerate(xs)] *)
Fixpoint enumerate_from {A} (i : Z) (xs : list A) : list (Z * A) :=
  match xs with
  | [] => []
  | x :: t => (i, x) :: enumerate_from (i + 1) t
  end.

Definition enumerate {A} (xs : list A) : list (Z * A) := enumerate_from 0 xs.

(** ** Regular expressions

    The backtracking matcher of [re], as a list of successes: [run] returns
    every way the expression can match at the current position, in the order
    in which the backtracking matcher tries them, so that the head of the list
    is the match [re] reports.  A match state is the text still to be read and
    the groups captured so far. *)

Module Re.

Inductive regex :=
| Eps                                      (* the empty pattern *)
| Bol                                      (* ^ *)
| Cls (p : char -> bool)                   (* a character class *)
| Cat (r1 r2 : regex)                      (* r1 r2 *)
| Alt (r1 r2 : regex)                      (* r1 | r2 *)
| Star (greedy : bool) (r : regex)         (* r* and r*? *)
| Group (n : nat) (r : regex).             (* the n-th capturing group *)

Definition captures := list (nat * str).

Record mstate := MState { rest : str; caps : captures }.

Definition set_cap (n : nat) (v : str) (cs : captures) : captures :=
  (n, v) :: filter (fun kv => negb (Nat.eqb (fst kv) n)) cs.

Definition get_cap (n : nat) (cs : captures) : option str :=
  option_map snd (find (fun kv => Nat.eqb (fst kv) n) cs).

(** Repetition of [step]: an iteration must consume text (an iteration that
    matches the empty string is not repeated); [fuel] bounds the number of
    iterations by the length of the text left. *)
Fixpoint iterate (greedy : bool) (step : mstate -> list mstate)
    (fuel : nat) (st : mstate) : list mstate :=
  match fuel with
  | O => [st]
  | S f =>
      let more :=
        flat_map (iterate greedy step f)
          (filter (fun st' => (List.length (rest st') <? List.length (rest st))%nat)
                  (step st)) in
      if greedy then more ++ [st] else st :: more
  end.

Fixpoint run (input : str) (r : regex) (st : mstate) : list mstate :=
  match r with
  | Eps => [st]
  | Bol => if (List.length (rest st) =? List.length input)%nat then [st] else []
  | Cls p =>
      match rest st with
      | c :: t => if p c then [MState t (caps st)] else []
      | [] => []
      end
  | Cat r1 r2 => flat_map (run input r2) (run input r1 st)
  | Alt r1 r2 => run input r1 st ++ run input r2 st
  | Star g r1 => iterate g (run input r1) (List.length (rest st)) st
  | Group n r1 =>
      map (fun st' =>
             MState (rest st')
               (set_cap n
                  (firstn (List.length (rest st) - List.length (rest st')) (rest st))
                  (caps st')))
          (run input r1 st)
  end.

(** [pattern.match(s)]: the first match that starts at the beginning. *)
Definition re_match (r : regex) (s : str) : option mstate :=
  hd_error (run s r (MState s [])).

(** [pattern.search(s)]: the first match at the leftmost position that has
    one. *)
Definition search_from (input : str) (r : regex) : str -> option mstate :=
  fix go (s : str) : option mstate :=
    match hd_error (run input r (MState s [])) with
    | Some m => Some m
    | None => match s with
              | [] => None
              | _ :: t => go t
              end
    end.

Definition re_search (r : regex) (s : str) : option mstate := search_from s r s.

(** [bool(m)] for the result of [match] or [search]. *)
Definition found (m : option mstate) : bool :=
  match m with Some _ => true | None => false end.

(** [m.group(n)]; a group that took no part in the match is [None]. *)
Definition group (n : nat) (m : mstate) : option str := get_cap n (caps m).

(** Pattern syntax. *)
Definition chr (c : char) : regex := Cls (N.eqb c).
Definition plus (r : regex) : regex := Cat r (Star true r).        (* r+ *)
Definition plus_lazy (r : regex) : regex := Cat r (Star false r).  (* r+? *)
Definition opt (r : regex) : regex := Alt r Eps.                   (* r? *)
Definition lit (s : str) : regex := fold_right (fun c r => Cat (chr c) r) Eps s.
Fixpoint seq (rs : list regex) : regex :=
  match rs with
  | [] => Eps
  | [r] => r
  | r :: t => Cat r (seq t)
  end.

Definition space : regex := Cls isspace.                               (* \s *)
Definition dot : regex := Cls (fun c => negb (c =? 10)%N).            (* . *)
Definition is_alpha (c : char) : bool := in_range 97 122 c || in_range 65 90 c.
Definition alpha : regex := Cls is_alpha.                              (* [a-zA-Z] *)
Definition is_word (c : char) : bool := (c =? 95)%N || is_alpha c.
Definition word : regex := Cls is_word.                                (* [_a-zA-Z] *)
Definition quote : regex := Cls (fun c => (c =? 39)%N || (c =? 34)%N). (* one of the two quotes *)
Definition not_rparen : regex := Cls (fun c => negb (c =? 41)%N).      (* [^)] *)

End Re.
Import Re.

(** ** Dictionaries, in insertion order *)

Section Dict.
Context {V : Type}.

Definition dict := list (str * V).

Fixpoint dict_get (k : str) (d : dict) : option V :=
  match d with
  | [] => None
  | (k', v) :: t => if Str.eqb k' k then Some v else dict_get k t
  end.

(** [d[k] = v]: a key that is present keeps its place. *)
Fixpoint dict_set (k : str) (v : V) (d : dict) : dict :=
  match d with
  | [] => [(k, v)]
  | (k', v') :: t =>
      if Str.eqb k' k then (k', v) :: t else (k', v') :: dict_set k v t
  end.

(** [d[k]] of a [defaultdict] whose factory gives [dflt]. *)
Definition dict_get_default (dflt : V) (k : str) (d : dict) : V :=
  match dict_get k d with
  | Some v => v
  | None => dflt
  end.

End Dict.
Arguments dict V : clear implicits.

(** ** The data model *)

Record CodeIssue := mkCodeIssue {
  line_number : Z;
  issue_type : str;
  description : str;
  code_snippet : str
}.

(** A metric is an [int] or a [float]. *)
Inductive num :=
| Int (z : Z)
| Float (f : float).

Record FileAnalysis := mkFileAnalysis {
  file_path : str;
  issues : list CodeIssue;
  metrics : dict num
}.

(** The comment markers of [startswith(('//', '/*', '*'))]. *)
Definition comment_markers : list str := [py "//"; py "/*"; py "*"].

(** Truth value of a [str]. *)
Definition truthy (s : str) : bool :=
  match s with [] => false | _ :: _ => true end.

(** ** Duplication *)

(** [code_blocks[stripped].append(n)] on a [defaultdict(list)]. *)
Definition blocks_append (k : str) (n : Z) (d : dict (list Z)) : dict (list Z) :=
  dict_set k (dict_get_default [] k d ++ [n]) d.

(** One iteration of the first loop, at index [i] on [line]. *)
Definition collect_step (code_blocks : dict (list Z)) (il : Z * str)
  : dict (list Z) :=
  let '(i, line) := il in
  let stripped := strip line in
  if truthy stripped && negb (startswith stripped comment_markers)
  then blocks_append stripped (i + 1) code_blocks
  else code_blocks.

Definition collect_blocks (content : list str) : dict (list Z) :=
  fold_left collect_step (enumerate content) [].

Definition duplicate_description (n : Z) : str :=
  py "Duplicate code found (appears " ++ of_int n ++ py " times)".

Definition _detect_duplicate_code (content : list str) (file_path : str)
  : list CodeIssue :=
  fold_left
    (fun issues '(code, lines) =>
       if (len lines >? 1) && (len code >? 20)
       then fold_left
              (fun issues line =>
                 issues ++ [mkCodeIssue line (py "Duplication")
                              (duplicate_description (len lines)) code])
              lines issues
       else issues)
    (collect_blocks content) [].

(** ** Unused imports *)

(** [^import\s+['"](.+?)['"]] *)
Definition import_pattern : regex :=
  seq [Bol; lit (py "import"); plus space; quote; Group 1 (plus_lazy dot); quote].

(** A group that did not take part in the match is Python's [None], on which
    [split] is an error. *)
Definition collect_imports (content : list str) : list (Z * option str) :=
  fold_left
    (fun imports '(i, line) =>
       match re_match import_pattern (strip line) with
       | Some m => imports ++ [(i + 1, group 1 m)]
       | None => imports
       end)
    (enumerate content) [].

(** [import_stmt.split('/')[-1].split('.')[0]] *)
Definition import_name (import_stmt : str) : result str :=
  last_segment <- getitem (split (ch "/") import_stmt) (-1) ;;
  getitem (split (ch ".") last_segment) 0.

Definition import_used (import_name : str) (content : list str) : bool :=
  existsb
    (fun line => contains (import_name ++ py ".") line
                 || contains (py " " ++ import_name ++ py "(") line)
    content.

Fixpoint for_each {A S} (xs : list A) (body : S -> A -> result S) (s : S)
  : result S :=
  match xs with
  | [] => Ok s
  | x :: t => s' <- body s x ;; for_each t body s'
  end.

Definition _detect_unused_imports (content : list str) : result (list CodeIssue) :=
  for_each (collect_imports content)
    (fun issues '(line_num, import_stmt) =>
       match import_stmt with
       | None => Raise AttributeError
       | Some import_stmt =>
           name <- import_name import_stmt ;;
           if negb (import_used name content) then
             line <- getitem content (line_num - 1) ;;
             Ok (issues ++ [mkCodeIssue line_num (py "Unused Import")
                              (py "Unused import: " ++ import_stmt)
                              (strip line)])
           else Ok issues
       end)
    [].

(** ** Long methods *)

(** [^\s*(?:@[a-zA-Z]+\s+)*[a-zA-Z]+\s+[a-zA-Z]+\s*\([^)]*\)\s*[a-zA-Z]*\s*\{?] *)
Definition method_pattern : regex :=
  seq [Bol; Star true space;
       Star true (seq [chr (ch "@"); plus alpha; plus space]);
       plus alpha; plus space; plus alpha; Star true space;
       chr (ch "("); Star true not_rparen; chr (ch ")"); Star true space;
       Star true alpha; Star true space; opt (chr (ch "{"))].

(** The locals of the loop: [issues], [method_start] and [brace_count]. *)
Record scan := mkScan {
  scan_issues : list CodeIssue;
  method_start : option Z;
  brace_count : Z
}.

Definition long_method_description (method_length : Z) : str :=
  py "Method is too long (" ++ of_int method_length ++ py " lines)".

(** [i + 1 - method_start], with the loop at index [i]. *)
Definition method_length (i start : Z) : Z := i + 1 - start.

(** One iteration of the loop, at index [i] on [line]. *)
Definition long_method_step (content : list str) (s : scan) (il : Z * str)
  : result scan :=
  let '(i, line) := il in
  let line_text := strip line in
  let s :=
    match method_start s with
    | None =>
        if found (re_match method_pattern line_text)
        then mkScan (scan_issues s) (Some (i + 1)) 0
        else s
    | Some _ => s
    end in
  match method_start s with
  | Some start =>
      let brace_count :=
        brace_count s + count (ch "{") line_text - count (ch "}") line_text in
      if brace_count <=? 0 then
        let method_length := method_length i start in
        if method_length >? 20 then
          first <- getitem content (start - 1) ;;
          Ok (mkScan
                (scan_issues s ++
                   [mkCodeIssue start (py "Long Method")
                      (long_method_description method_length) (strip first)])
                None brace_count)
        else Ok (mkScan (scan_issues s) None brace_count)
      else Ok (mkScan (scan_issues s) (Some start) brace_count)
  | None => Ok s
  end.

Definition long_method_scan (content : list str) (lines : list (Z * str))
    (s : scan) : result scan :=
  for_each lines (long_method_step content) s.

Definition _detect_long_methods (content : list str) : result (list CodeIssue) :=
  s <- long_method_scan content (enumerate content) (mkScan [] None 0) ;;
  Ok (scan_issues s).

(** ** Dead code *)

(** [^\s*[_a-zA-Z]+\s+_[a-zA-Z]+\s*\([^)]*\)\s*\{?] *)
Definition private_method_pattern : regex :=
  seq [Bol; Star true space; plus word; plus space;
       chr (ch "_"); plus alpha; Star true space;
       chr (ch "("); Star true not_rparen; chr (ch ")"); Star true space;
       opt (chr (ch "{"))].

(** [line_text.split('(')[0].split()[-1]] *)
Definition method_name (line_text : str) : result str :=
  head <- getitem (split (ch "(") line_text) 0 ;;
  getitem (split_ws head) (-1).

Definition method_called (method_name line : str) (content : list str) : bool :=
  existsb
    (fun other_line =>
       contains (method_name ++ py "(") other_line
       && negb (Str.eqb other_line line))
    content.

Definition dead_code_description (method_name : str) : str :=
  py "Private method '" ++ method_name ++ py "' is never called".

Definition dead_code_step (content : list str) (issues : list CodeIssue)
    (il : Z * str) : result (list CodeIssue) :=
  let '(i, line) := il in
  let line_text := strip line in
  if found (re_match private_method_pattern line_text) then
    name <- method_name line_text ;;
    if negb (method_called name line content) then
      Ok (issues ++ [mkCodeIssue (i + 1) (py "Dead Code")
                       (dead_code_description name) line_text])
    else Ok issues
  else Ok issues.

Definition _detect_dead_code (content : list str) : result (list CodeIssue) :=
  for_each (enumerate content) (dead_code_step content) [].

(** ** Potential bugs *)

(** [!\s*=\s*null] *)
Definition null_check_pattern : regex :=
  seq [chr (ch "!"); Star true space; chr (ch "="); Star true space;
       lit (py "null")].

(** [catch\s*\([^)]*\)\s*\{\s*\}] *)
Definition empty_catch_pattern : regex :=
  seq [lit (py "catch"); Star true space;
       chr (ch "("); Star true not_rparen; chr (ch ")"); Star true space;
       chr (ch "{"); Star true space; chr (ch "}")].

Definition null_check_description : str :=
  py "Null check without null-aware operator (?.)".

Definition empty_catch_description : str :=
  py "Empty catch block - exceptions should be handled properly".

Definition null_check_fires (line_text : str) : bool :=
  found (re_search null_check_pattern line_text)
  && negb (contains (py "?") line_text).

Definition empty_catch_fires (line_text : str) : bool :=
  found (re_search empty_catch_pattern line_text).

Definition potential_bug_step (issues : list CodeIssue) (il : Z * str)
  : list CodeIssue :=
  let '(i, line) := il in
  let line_text := strip line in
  let issues :=
    if null_check_fires line_text
    then issues ++ [mkCodeIssue (i + 1) (py "Potential Bug")
                      null_check_description line_text]
    else issues in
  if empty_catch_fires line_text
  then issues ++ [mkCodeIssue (i + 1) (py "Potential Bug")
                    empty_catch_description line_text]
  else issues.

Definition _detect_potential_bugs (content : list str) : list CodeIssue :=
  fold_left potential_bug_step (enumerate content) [].

(** ** Metrics *)

Definition is_code_line (line : str) : bool :=
  truthy (strip line) && negb (startswith (strip line) comment_markers).

Definition is_comment_line (line : str) : bool :=
  startswith (strip line) comment_markers.

(** [float(n)] for a count: exact below [2^53], which the number of lines of
    a file never reaches. *)
Definition float_of_int (n : Z) : float := PrimFloat.of_uint63 (Uint63.of_Z n).

(** [a / b] on [int]s: the correctly rounded quotient, an error for a zero
    divisor. *)
Definition truediv (a b : Z) : result float :=
  if b =? 0 then Raise ZeroDivisionError
  else Ok (PrimFloat.div (float_of_int a) (float_of_int b)).

(** [comment_lines / code_lines * 100 if code_lines else 0] *)
Definition comment_density (comment_lines code_lines : Z) : result num :=
  if negb (code_lines =? 0) then
    q <- truediv comment_lines code_lines ;;
    Ok (Float (PrimFloat.mul q (float_of_int 100)))
  else Ok (Int 0).

(** [issue_counts[issue.issue_type] += 1] on a [defaultdict(int)]. *)
Definition count_step (issue_counts : dict Z) (issue : CodeIssue) : dict Z :=
  dict_set (issue_type issue)
    (dict_get_default 0 (issue_type issue) issue_counts + 1) issue_counts.

Definition count_issues (issues : list CodeIssue) : dict Z :=
  fold_left count_step issues [].

(** [f'{issue_type.lower().replace(" ", "_")}_count'] *)
Definition count_key (issue_type : str) : str :=
  replace (ch " ") (ch "_") (lower issue_type) ++ py "_count".

(** [metrics[f'{issue_type...}_count'] = count] *)
Definition add_count_step (metrics : dict num) (entry : str * Z) : dict num :=
  let '(issue_type, count) := entry in
  dict_set (count_key issue_type) (Int count) metrics.

Definition add_issue_counts (issue_counts : dict Z) (metrics : dict num)
  : dict num :=
  fold_left add_count_step issue_counts metrics.

Definition code_lines (content : list str) : Z :=
  len (filter is_code_line content).

Definition comment_lines (content : list str) : Z :=
  len (filter is_comment_line content).

Definition _calculate_metrics (content : list str) (issues : list CodeIssue)
  : result (dict num) :=
  let total_lines := len content in
  let code_lines := code_lines content in
  let comment_lines := comment_lines content in
  let issue_counts := count_issues issues in
  density <- comment_density comment_lines code_lines ;;
  let metrics :=
    [(py "total_lines", Int total_lines);
     (py "code_lines", Int code_lines);
     (py "comment_lines", Int comment_lines);
     (py "comment_density", density)] in
  Ok (add_issue_counts issue_counts metrics).

(** ** The project *)

(** The five passes on the lines of one file, in the order of the source. *)
Definition detect_all (content : list str) (file_path : str)
  : result (list CodeIssue) :=
  let issues := _detect_duplicate_code content file_path in
  unused <- _detect_unused_imports content ;;
  let issues := issues ++ unused in
  long <- _detect_long_methods content ;;
  let issues := issues ++ long in
  dead <- _detect_dead_code content ;;
  let issues := issues ++ dead in
  Ok (issues ++ _detect_potential_bugs content).

Definition analyze_file (content : list str) (file_path : str)
  : result FileAnalysis :=
  issues <- detect_all content file_path ;;
  metrics <- _calculate_metrics content issues ;;
  Ok (mkFileAnalysis file_path issues metrics).

(** The file system as [open(...).readlines()] sees it: the lines of a file,
    or an error. *)
Definition filesystem := str -> result (list str).

Definition analyze_flutter_project (fs : filesystem) (file_paths : list str)
  : result (dict FileAnalysis) :=
  for_each file_paths
    (fun results file_path =>
       content <- fs file_path ;;
       analysis <- analyze_file content file_path ;;
       Ok (dict_set file_path analysis results))
    [].

(** ** Vocabulary of the statements *)

(** [sub] occurs in [s] as a contiguous run of characters. *)
Definition infix (sub s : str) : Prop :=
  exists pre post, s = pre ++ sub ++ post.

(** Every character of [s] is white space. *)
Definition blank (s : str) : Prop := Forall (fun c => isspace c = true) s.

(** The words a pattern matches, whatever the order in which the matcher
    finds them.  A repetition is made of non-empty iterations. *)
Inductive Matches : regex -> str -> Prop :=
| MEps : Matches Eps []
| MBol : Matches Bol []
| MCls p c : p c = true -> Matches (Cls p) [c]
| MCat r1 r2 w1 w2 :
    Matches r1 w1 -> Matches r2 w2 -> Matches (Cat r1 r2) (w1 ++ w2)
| MAltL r1 r2 w : Matches r1 w -> Matches (Alt r1 r2) w
| MAltR r1 r2 w : Matches r2 w -> Matches (Alt r1 r2) w
| MStarNil g r : Matches (Star g r) []
| MStarApp g r w1 w2 :
    w1 <> [] -> Matches r w1 -> Matches (Star g r) w2 ->
    Matches (Star g r) (w1 ++ w2)
| MGroup n r w : Matches r w -> Matches (Group n r) w.

(** Patterns without [^], whose matches do not depend on the position. *)
Fixpoint bol_free (r : regex) : bool :=
  match r with
  | Bol => false
  | Eps | Cls _ => true
  | Cat r1 r2 | Alt r1 r2 => bol_free r1 && bol_free r2
  | Star _ r1 | Group _ r1 => bol_free r1
  end.

(** A line of a file as [readlines] returns it: the text and its terminator. *)
Definition ln (s : string) : str := py s ++ nl.

(** What an issue of the Unused-Import pass looks like: it reports the import
    on some line of the file, whose derived name is used nowhere. *)
Definition unused_import_issue (content : list str) (iss : CodeIssue) : Prop :=
  exists i line m path name,
    In (i, line) (enumerate content) /\
    re_match import_pattern (strip line) = Some m /\
    group 1 m = Some path /\
    import_name path = Ok name /\
    import_used name content = false /\
    iss = mkCodeIssue (i + 1) (py "Unused Import")
            (py "Unused import: " ++ path) (strip line).

(** The change of the brace counter on a line. *)
Definition brace_delta (line_text : str) : Z :=
  count (ch "{") line_text - count (ch "}") line_text.

(** Line number [start] holds a signature that leaves the counter positive:
    the only lines at which tracking survives its first iteration. *)
Definition opens_method (content : list str) (start : Z) : Prop :=
  exists line,
    In (start - 1, line) (enumerate content) /\
    found (re_match method_pattern (strip line)) = true /\
    brace_delta (strip line) > 0.

(** What an issue of the Long-Method pass looks like: tracking started at line
    [start] and closed at line [close], more than 20 lines further. *)
Definition long_method_issue (content : list str) (iss : CodeIssue) : Prop :=
  exists start close first,
    opens_method content start /\
    In (start - 1, first) (enumerate content) /\
    start < close <= len content /\
    method_length (close - 1) start > 20 /\
    iss = mkCodeIssue start (py "Long Method")
            (long_method_description (method_length (close - 1) start))
            (strip first).

(** The invariant of the loop after [k] lines. *)
Definition long_method_inv (content : list str) (k : Z) (s : scan) : Prop :=
  (forall start, method_start s = Some start ->
                 start <= k /\ opens_method content start) /\
  Forall (long_method_issue content) (scan_issues s).

(** The number of code lines of the file whose trimmed text is [text]: the
    size of the group of [text]. *)
Definition occurrences (content : list str) (text : str) : Z :=
  len (filter (fun line => is_code_line line && Str.eqb (strip line) text) content).

(** The line numbers, among enumerated lines, of the code lines whose trimmed
    text is [text]. *)
Definition positions (text : str) (lines : list (Z * str)) : list Z :=
  map (fun il => fst il + 1)
      (filter (fun il => is_code_line (snd il) && Str.eqb (strip (snd il)) text)
              lines).

(** No key of the dictionary holds an empty list. *)
Definition no_empty_block (d : dict (list Z)) : Prop :=
  forall k, dict_get k d <> Some [].

(** The issues the second loop of the Duplication pass emits for one group. *)
Definition group_issues (cl : str * list Z) : list CodeIssue :=
  if (len (snd cl) >? 1) && (len (fst cl) >? 20)
  then map (fun line => mkCodeIssue line (py "Duplication")
                          (duplicate_description (len (snd cl))) (fst cl))
           (snd cl)
  else [].

(** The issues the Dead-Code pass emits for one enumerated line. *)
Definition dead_code_issues (content : list str) (il : Z * str) : list CodeIssue :=
  match dead_code_step content [] il with
  | Ok issues => issues
  | Raise _ => []
  end.

(** The text holds [!], [=] and [null] in a row, with nothing but white space
    between them. *)
Definition null_check_shape (s : str) : Prop :=
  exists pre a b post,
    s = pre ++ py "!" ++ a ++ py "=" ++ b ++ py "null" ++ post /\
    blank a /\ blank b.

(** The text holds [catch], a parenthesised list and a pair of braces with
    nothing but white space in between and inside the braces. *)
Definition empty_catch_shape (s : str) : Prop :=
  exists pre a args b c post,
    s = pre ++ py "catch" ++ a ++ py "(" ++ args ++ py ")" ++ b
          ++ py "{" ++ c ++ py "}" ++ post /\
    blank a /\ ~ In (ch ")") args /\ blank b /\ blank c.

(** The issues the Potential-Bug pass emits for one enumerated line. *)
Definition potential_bug_issues (il : Z * str) : list CodeIssue :=
  potential_bug_step [] il.

(** The five issue types of the passes. *)
Definition issue_types : list str :=
  [py "Duplication"; py "Unused Import"; py "Long Method"; py "Dead Code";
   py "Potential Bug"].

(** An issue of a file: its line is a line of the file and its type is one of
    the five. *)
Definition issue_of_file (content : list str) (iss : CodeIssue) : Prop :=
  1 <= line_number iss <= len content /\ In (issue_type iss) issue_types.

(** The distinct categories among the issues. *)
Definition present_categories (issues : list CodeIssue) : list str :=
  nodup (list_eq_dec N.eq_dec) (map issue_type issues).

(** [metrics[f'{cat}_count']], when that entry is there and is an [int]. *)
Definition category_count (metrics : dict num) (cat : str) : option Z :=
  match dict_get (count_key cat) metrics with
  | Some (Int n) => Some n
  | _ => None
  end.

(** [sum(metrics[f'{cat}_count'] for cat in cats)] *)
Fixpoint sum_category_counts (metrics : dict num) (cats : list str) : option Z :=
  match cats with
  | [] => Some 0
  | cat :: cats' =>
      match category_count metrics cat, sum_category_counts metrics cats' with
      | Some n, Some total => Some (n + total)
      | _, _ => None
      end
  end.

(** The number of issues of type [t]. *)
Definition issues_of_type (t : str) (issues : list CodeIssue) : Z :=
  Z.of_nat (count_occ (list_eq_dec N.eq_dec) (map issue_type issues) t).


(** The sum of a list of integers. *)
Definition zsum (l : list Z) : Z := fold_right Z.add 0 l.

(** ** Finding the files of a project ([utils/file_utils.py])

    The directory under the project path is given as a tree: the
    sub-directories by name, in the order in which the system lists them, and
    the names of the files.  An entry of a directory that is a symbolic link
    to a directory is a [Symlink].  Paths are POSIX paths. *)

(** [config.settings.DART_EXTENSIONS] *)
Definition DART_EXTENSIONS : list str := [py ".dart"].

(** [os.sep] *)
Definition sep : char := ch "/".

Definition is_suffix (p s : str) : bool := is_prefix (rev p) (rev s).

(** [s.endswith((p1, p2, ...))] *)
Definition endswith (s : str) (ps : list str) : bool :=
  existsb (fun p => is_suffix p s) ps.

(** [os.path.join(a, b)] *)
Definition path_join (a b : str) : str :=
  if is_prefix [sep] b then b
  else if negb (truthy a) || is_suffix [sep] a then a ++ b
  else a ++ [sep] ++ b.

#[warnings="-register-all"]
Inductive dir :=
| Dir (subdirs : list (str * dir)) (files : list str)
| Symlink (target : dir).

(** [os.walk(top)] with its default [followlinks=False], top down: the
    directory itself, then the walk of each sub-directory under the joined
    path.  A sub-directory that is a symbolic link is named in the list of
    the directory and is not entered ([os.path.islink(new_path)]); the top
    itself is listed through a link. *)
Fixpoint walk (top : str) (d : dir) : list (str * list str * list str) :=
  match d with
  | Dir subdirs files =>
      (top, map fst subdirs, files)
      :: (fix walk_subdirs (l : list (str * dir)) :=
            match l with
            | [] => []
            | (name, sub) :: t =>
                match sub with
                | Symlink _ => walk_subdirs t
                | Dir _ _ => walk (path_join top name) sub ++ walk_subdirs t
                end
            end) subdirs
  | Symlink target => walk top target
  end.

(** A path that is not a directory that can be listed is walked as nothing. *)
Definition os_walk (top : str) (root : option dir)
  : list (str * list str * list str) :=
  match root with
  | Some d => walk top d
  | None => []
  end.

(** [part.startswith('.') or part == 'build'] *)
Definition skipped_part (part : str) : bool :=
  startswith part [py "."] || Str.eqb part (py "build").

(** [any(... for part in root.split(os.sep))] *)
Definition skipped_root (root : str) : bool :=
  existsb skipped_part (split sep root).

(** One iteration of the loop over the walk. *)
Definition project_files_step (dart_files : list str)
    (entry : str * list str * list str) : list str :=
  let '(root, _, files) := entry in
  if skipped_root root then dart_files
  else fold_left
         (fun dart_files file =>
            if endswith file DART_EXTENSIONS
            then dart_files ++ [path_join root file]
            else dart_files)
         files dart_files.

Definition get_flutter_project_files (project_path : str) (root : option dir)
  : list str :=
  fold_left project_files_step (os_walk project_path root) [].

(** ** Preparing the report ([analyzer/visualization.py]) *)

(** The dictionary [_prepare_summary_data] returns, by its three keys. *)
Record Summary := mkSummary {
  total_files : Z;
  total_issues : Z;
  summary_issue_types : dict Z
}.

(** The two counters of the loop: [total_issues] and [issue_types]. *)
Definition summary_step (acc : Z * dict Z) (issue : CodeIssue) : Z * dict Z :=
  let '(total_issues, issue_types) := acc in
  let issue_types := count_step issue_types issue in
  (total_issues + 1, issue_types).

Definition summary_file_step (acc : Z * dict Z) (entry : str * FileAnalysis)
  : Z * dict Z :=
  fold_left summary_step (issues (snd entry)) acc.

Definition _prepare_summary_data (analysis_results : dict FileAnalysis) : Summary :=
  let '(total_issues, issue_types) :=
    fold_left summary_file_step analysis_results (0, []) in
  mkSummary (len analysis_results) total_issues issue_types.

(** [os.path.basename(p)]: the text after the last separator. *)
Definition basename (p : str) : str :=
  rev ((fix until_sep (s : str) : str :=
          match s with
          | [] => []
          | c :: t => if (c =? sep)%N then [] else c :: until_sep t
          end) (rev p)).

(** A row of [_prepare_file_metrics], by its keys. *)
Record FileMetric := mkFileMetric {
  fm_file_name : str;
  fm_file_path : str;
  fm_total_lines : num;
  fm_code_lines : num;
  fm_comment_lines : num;
  fm_comment_density : num;
  fm_issues : Z;
  fm_issue_types : list str
}.

(** The result of [d[key]] on a plain [dict]. *)
Inductive lookup (A : Type) : Type :=
| Value (a : A)
| KeyError (key : str).
Arguments Value {A} a.
Arguments KeyError {A} key.

Definition getkey {V} (d : dict V) (key : str) : lookup V :=
  match dict_get key d with
  | Some v => Value v
  | None => KeyError key
  end.

Definition lookup_bind {A B} (m : lookup A) (k : A -> lookup B) : lookup B :=
  match m with
  | Value a => k a
  | KeyError key => KeyError key
  end.

(** [{issue.issue_type for issue in issues}]: a set, kept as a list without
    repetition (the order of a set is not observable). *)
Definition issue_type_set (issues : list CodeIssue) : list str :=
  nodup (list_eq_dec N.eq_dec) (map issue_type issues).

(** The row of one file. *)
Definition file_metric (file_path : str) (analysis : FileAnalysis)
  : lookup FileMetric :=
  let metrics := metrics analysis in
  lookup_bind (getkey metrics (py "total_lines")) (fun total_lines =>
  lookup_bind (getkey metrics (py "code_lines")) (fun code_lines =>
  lookup_bind (getkey metrics (py "comment_lines")) (fun comment_lines =>
  lookup_bind (getkey metrics (py "comment_density")) (fun comment_density =>
  Value (mkFileMetric (basename file_path) file_path total_lines code_lines
           comment_lines comment_density (len (issues analysis))
           (issue_type_set (issues analysis))))))).

Fixpoint _prepare_file_metrics_from (entries : dict FileAnalysis)
    (file_metrics : list FileMetric) : lookup (list FileMetric) :=
  match entries with
  | [] => Value file_metrics
  | (file_path, analysis) :: rest =>
      lookup_bind (file_metric file_path analysis) (fun row =>
      _prepare_file_metrics_from rest (file_metrics ++ [row]))
  end.

Definition _prepare_file_metrics (analysis_results : dict FileAnalysis)
  : lookup (list FileMetric) :=
  _prepare_file_metrics_from analysis_results [].

(** ** Vocabulary of the further properties *)

(** The body of the second loop of the Unused-Import pass. *)
Definition unused_import_step (content : list str) (issues : list CodeIssue)
    (entry : Z * option str) : result (list CodeIssue) :=
  let '(line_num, import_stmt) := entry in
  match import_stmt with
  | None => Raise AttributeError
  | Some import_stmt =>
      name <- import_name import_stmt ;;
      if negb (import_used name content) then
        line <- getitem content (line_num - 1) ;;
        Ok (issues ++ [mkCodeIssue line_num (py "Unused Import")
                         (py "Unused import: " ++ import_stmt)
                         (strip line)])
      else Ok issues
  end.

(** The issues the Unused-Import pass emits for one enumerated line. *)
Definition unused_import_issues (content : list str) (il : Z * str)
  : list CodeIssue :=
  match re_match import_pattern (strip (snd il)) with
  | Some m =>
      match unused_import_step content [] (fst il + 1, group 1 m) with
      | Ok issues => issues
      | Raise _ => []
      end
  | None => []
  end.

(** The method of issue [iss] closes on line [k] or above: its description
    gives a length [n], more than 20, and the line [n] lines below its anchor
    (the line on which the loop closed it) is not below line [k]. *)
Definition closed_by (k : Z) (iss : CodeIssue) : Prop :=
  exists n, description iss = long_method_description n /\
            20 < n /\ line_number iss + n <= k.

(** Issue [b] is anchored below the line on which the method of issue [a]
    closes. *)
Definition apart (a b : CodeIssue) : Prop :=
  closed_by (line_number b - 1) a.

(** The order the Long-Method loop keeps after [k] lines: every issue is of
    a method closed within these lines, and above the start of the method
    being tracked; each issue is anchored below the closing line of the ones
    before it. *)
Definition long_method_order (k : Z) (s : scan) : Prop :=
  StronglySorted apart (scan_issues s) /\
  (forall iss, In iss (scan_issues s) -> closed_by k iss) /\
  (forall start, method_start s = Some start ->
     start <= k /\
     forall iss, In iss (scan_issues s) -> closed_by (start - 1) iss).

(** The brace counter after a run of lines, started from zero. *)
Definition running_braces (lines : list str) : Z :=
  zsum (map (fun line => brace_delta (strip line)) lines).

(** The lines whose trimmed text is empty. *)
Definition blank_lines (content : list str) : Z :=
  len (filter (fun line => negb (truthy (strip line))) content).

(** The four keys of the size entries. *)
Definition size_keys : list str :=
  [py "total_lines"; py "code_lines"; py "comment_lines"; py "comment_density"].

(** The body of the loop over the files of the project. *)
Definition project_step (fs : filesystem) (results : dict FileAnalysis)
    (file_path : str) : result (dict FileAnalysis) :=
  content <- fs file_path ;;
  analysis <- analyze_file content file_path ;;
  Ok (dict_set file_path analysis results).

(** All the issues of a result, file after file. *)
Definition all_issues (analysis_results : dict FileAnalysis) : list CodeIssue :=
  flat_map (fun entry => issues (snd entry)) analysis_results.

(** The metrics of an entry hold the four size keys. *)
Definition has_size_metrics (entry : str * FileAnalysis) : Prop :=
  forall key, In key size_keys ->
              exists v, dict_get key (metrics (snd entry)) = Some v.

(** No directory of the tree has a name that starts with the separator (a
    name is a single component of a path). *)
Fixpoint names_ok (d : dir) : bool :=
  match d with
  | Dir subdirs _ =>
      (fix all_ok (l : list (str * dir)) : bool :=
         match l with
         | [] => true
         | (name, sub) :: t =>
             negb (is_prefix [sep] name) && names_ok sub && all_ok t
         end) subdirs
  | Symlink target => names_ok target
  end.

(** The files of one directory that the loop keeps. *)
Definition dart_files_of (root : str) (files : list str) : list str :=
  if skipped_root root then []
  else map (path_join root)
           (filter (fun file => endswith file DART_EXTENSIONS) files).

(** No file of the tree has a name that starts with the separator. *)
Fixpoint file_names_ok (d : dir) : bool :=
  match d with
  | Dir subdirs files =>
      forallb (fun file => negb (is_prefix [sep] file)) files
      && (fix all_ok (l : list (str * dir)) : bool :=
            match l with
            | [] => true
            | (_, sub) :: t => file_names_ok sub && all_ok t
            end) subdirs
  | Symlink target => file_names_ok target
  end.

(** The sub-directory is a symbolic link. *)
Definition is_link (d : dir) : bool :=
  match d with
  | Symlink _ => true
  | Dir _ _ => false
  end.

(** [entered root names d]: the walk of [root] lists the directory [d], which
    it reaches through the sub-directories [names], none of them a symbolic
    link (the top apart). *)
Inductive entered : dir -> list str -> dir -> Prop :=
| entered_top subdirs files :
    entered (Dir subdirs files) [] (Dir subdirs files)
| entered_sub subdirs files name sub names d :
    In (name, sub) subdirs -> is_link sub = false ->
    entered sub names d ->
    entered (Dir subdirs files) (name :: names) d
| entered_link target names d :
    entered target names d -> entered (Symlink target) names d.

(** * Properties *)

(** ** Loops *)

Lemma fold_left_app_flat_map {A B} (f : A -> list B) (xs : list A) (acc : list B) :
  fold_left (fun acc x => acc ++ f x) xs acc = acc ++ flat_map f xs.
Proof.
  revert acc. induction xs as [|x xs IH]; intros acc; simpl.
  - now rewrite app_nil_r.
  - rewrite IH. now rewrite app_assoc.
Qed.

Lemma fold_left_ext_in {A S} (f g : S -> A -> S) (xs : list A) (s : S) :
  (forall s x, In x xs -> f s x = g s x) ->
  fold_left f xs s = fold_left g xs s.
Proof.
  revert s. induction xs as [|x xs IH]; intros s H; simpl; [reflexivity|].
  rewrite H by now left. apply IH. intros; apply H; now right.
Qed.

(** A loop whose body only appends to its accumulator, and never raises on the
    elements it is run on, returns the accumulated appends. *)
Lemma for_each_appends {A B} (body : list B -> A -> result (list B))
    (g : A -> list B) (xs : list A) (acc : list B) :
  (forall acc x, In x xs -> body acc x = Ok (acc ++ g x)) ->
  for_each xs body acc = Ok (acc ++ flat_map g xs).
Proof.
  revert acc. induction xs as [|x xs IH]; intros acc H; simpl.
  - now rewrite app_nil_r.
  - rewrite H by now left. simpl. rewrite IH.
    + now rewrite app_assoc.
    + intros; apply H; now right.
Qed.

(** ** [enumerate] *)

Lemma in_enumerate_from {A} (xs : list A) (k i : Z) (x : A) :
  In (i, x) (enumerate_from k xs) <->
  k <= i /\ nth_error xs (Z.to_nat (i - k)) = Some x.
Proof.
  revert k. induction xs as [|y xs IH]; intros k; simpl.
  - split; [tauto|]. intros [_ H]. now destruct (Z.to_nat (i - k)).
  - rewrite IH. split.
    + intros [H|[H1 H2]].
      * inversion H; subst. split; [lia|]. now replace (i - i) with 0 by lia.
      * split; [lia|]. replace (Z.to_nat (i - k)) with (S (Z.to_nat (i - (k + 1)))) by lia.
        exact H2.
    + intros [H1 H2]. destruct (Z.eq_dec i k) as [->|Hne].
      * left. replace (k - k) with 0 in H2 by lia. simpl in H2. congruence.
      * right. split; [lia|].
        replace (Z.to_nat (i - k)) with (S (Z.to_nat (i - (k + 1)))) in H2 by lia.
        exact H2.
Qed.

Lemma in_enumerate {A} (xs : list A) (i : Z) (x : A) :
  In (i, x) (enumerate xs) <-> 0 <= i /\ nth_error xs (Z.to_nat i) = Some x.
Proof.
  unfold enumerate. rewrite in_enumerate_from. now rewrite Z.sub_0_r.
Qed.

Lemma in_enumerate_nat {A} (xs : list A) (k : nat) (x : A) :
  nth_error xs k = Some x -> In (Z.of_nat k, x) (enumerate xs).
Proof.
  intros H. apply in_enumerate. split; [lia|]. now rewrite Nat2Z.id.
Qed.

Lemma in_enumerate_bound {A} (xs : list A) (i : Z) (x : A) :
  In (i, x) (enumerate xs) -> 0 <= i < len xs /\ In x xs.
Proof.
  intros H. apply in_enumerate in H. destruct H as [H0 H].
  split.
  - assert (Z.to_nat i < List.length xs)%nat by (apply nth_error_Some; congruence).
    unfold len. lia.
  - eapply nth_error_In; eauto.
Qed.

Lemma in_enumerate_fun {A} (xs : list A) (i : Z) (x y : A) :
  In (i, x) (enumerate xs) -> In (i, y) (enumerate xs) -> x = y.
Proof.
  intros Hx Hy. apply in_enumerate in Hx, Hy. destruct Hx, Hy. congruence.
Qed.

Lemma getitem_enumerate {A} (xs : list A) (i : Z) (x : A) :
  In (i, x) (enumerate xs) -> getitem xs i = Ok x.
Proof.
  intros H. pose proof (in_enumerate_bound _ _ _ H) as [Hb _].
  apply in_enumerate in H. destruct H as [_ H].
  unfold getitem. replace (i <? 0) with false by lia.
  replace ((0 <=? i) && (i <? len xs)) with true by lia.
  now rewrite H.
Qed.

(** ** Strings *)

Lemma str_eqb_eq a b : Str.eqb a b = true <-> a = b.
Proof. unfold Str.eqb. destruct (list_eq_dec N.eq_dec a b); split; congruence. Qed.

Lemma str_eqb_refl a : Str.eqb a a = true.
Proof. now apply str_eqb_eq. Qed.

Lemma str_eqb_neq a b : Str.eqb a b = false <-> a <> b.
Proof. unfold Str.eqb. destruct (list_eq_dec N.eq_dec a b); split; congruence. Qed.

Lemma is_prefix_spec p s : is_prefix p s = true <-> exists t, s = p ++ t.
Proof.
  revert s. induction p as [|a p IH]; intros s; simpl.
  - split; eauto.
  - destruct s as [|b s].
    + split; [discriminate|]. intros [t H]. discriminate.
    + rewrite andb_true_iff, N.eqb_eq, IH. split.
      * intros [-> [t ->]]. now exists t.
      * intros [t H]. inversion H; subst. split; eauto.
Qed.

Lemma contains_spec sub s : contains sub s = true <-> infix sub s.
Proof.
  unfold infix. induction s as [|c s IH]; simpl.
  - rewrite orb_false_r, is_prefix_spec. split.
    + intros [t H]. now exists [], t.
    + intros [pre [post H]]. destruct pre; [|discriminate]. now exists post.
  - rewrite orb_true_iff, is_prefix_spec, IH. split.
    + intros [[t H]|[pre [post H]]].
      * now exists [], t.
      * exists (c :: pre), post. now rewrite H.
    + intros [pre [post H]]. destruct pre as [|d pre].
      * left. now exists post.
      * right. inversion H; subst. now exists pre, post.
Qed.

Lemma infix_refl s : infix s s.
Proof. exists [], []. now rewrite app_nil_r. Qed.

Lemma infix_trans a b c : infix a b -> infix b c -> infix a c.
Proof.
  intros [p1 [q1 ->]] [p2 [q2 ->]]. exists (p2 ++ p1), (q1 ++ q2).
  now rewrite <- !app_assoc.
Qed.

Lemma infix_app_l a b : infix a (a ++ b).
Proof. now exists [], b. Qed.

Lemma infix_app_r a b : infix b (a ++ b).
Proof. exists a, []. now rewrite app_nil_r. Qed.

Lemma lstrip_spec s : exists ws, s = ws ++ lstrip s /\ blank ws.
Proof.
  induction s as [|c s [ws [IH1 IH2]]].
  - exists []. split; [reflexivity|constructor].
  - change (lstrip (c :: s)) with (if isspace c then lstrip s else c :: s).
    destruct (isspace c) eqn:Hc.
    + exists (c :: ws). split; [simpl; congruence|now constructor].
    + exists []. split; [reflexivity|constructor].
Qed.

Lemma rstrip_spec s : exists ws, s = rstrip s ++ ws /\ blank ws.
Proof.
  unfold rstrip. destruct (lstrip_spec (rev s)) as [ws [H1 H2]].
  exists (rev ws). split.
  - rewrite <- rev_app_distr, <- H1. now rewrite rev_involutive.
  - now apply Forall_rev.
Qed.

Lemma strip_spec s :
  exists a b, s = a ++ strip s ++ b /\ blank a /\ blank b.
Proof.
  destruct (lstrip_spec s) as [a [Ha Hba]].
  destruct (rstrip_spec (lstrip s)) as [b [Hb Hbb]].
  exists a, b. unfold strip. split; [|tauto]. now rewrite <- Hb.
Qed.

Lemma strip_infix s : infix (strip s) s.
Proof. destruct (strip_spec s) as [a [b [H _]]]. now exists a, b. Qed.

(** ** Indexing and splitting *)

Lemma getitem_ok {A} (xs : list A) (i j : Z) (x : A) :
  j = (if i <? 0 then len xs + i else i) -> 0 <= j ->
  nth_error xs (Z.to_nat j) = Some x -> getitem xs i = Ok x.
Proof.
  intros Hj H0 H. unfold getitem. rewrite <- Hj. cbv zeta.
  assert (Z.to_nat j < List.length xs)%nat by (apply nth_error_Some; congruence).
  replace ((0 <=? j) && (j <? len xs)) with true by (unfold len; lia).
  now rewrite H.
Qed.

Lemma getitem_first {A} (x : A) (xs : list A) : getitem (x :: xs) 0 = Ok x.
Proof. now apply getitem_ok with (j := 0). Qed.

Lemma getitem_last {A} (xs : list A) (x : A) : getitem (xs ++ [x]) (-1) = Ok x.
Proof.
  apply getitem_ok with (j := Z.of_nat (List.length xs)).
  - unfold len. rewrite length_app. simpl. lia.
  - lia.
  - rewrite Nat2Z.id, nth_error_app2 by lia. now rewrite Nat.sub_diag.
Qed.

Lemma getitem_last_nonempty {A} (xs : list A) :
  xs <> [] -> exists x, getitem xs (-1) = Ok x /\ exists ini, xs = ini ++ [x].
Proof.
  intros H. destruct (exists_last H) as [ini [x ->]].
  exists x. split; [apply getitem_last|now exists ini].
Qed.

Lemma split_nonempty sep s : split sep s <> [].
Proof.
  destruct s as [|c s]; simpl; [discriminate|].
  destruct (c =? sep)%N; [discriminate|].
  destruct (split sep s); discriminate.
Qed.

(** The first field of a split: the text before the first separator. *)
Lemma split_first sep s :
  exists h t, split sep s = h :: t /\ ~ In sep h /\
              (s = h \/ exists s', s = h ++ sep :: s').
Proof.
  induction s as [|c s [h [t [IH1 [IH2 IH3]]]]]; simpl.
  - exists [], []. repeat split; auto.
  - destruct (c =? sep)%N eqn:Hc.
    + apply N.eqb_eq in Hc. subst c. exists [], (split sep s).
      repeat split; auto. right. now exists s.
    + apply N.eqb_neq in Hc. rewrite IH1. exists (c :: h), t.
      repeat split.
      * intros [H|H]; [congruence|tauto].
      * destruct IH3 as [->|[s' ->]]; [now left|right; now exists s'].
Qed.

Lemma split_single sep s w : split sep s = [w] -> s = w.
Proof.
  revert w. induction s as [|c s IH]; simpl; intros w H.
  - now inversion H.
  - destruct (c =? sep)%N.
    + inversion H. exfalso. eapply split_nonempty; eauto.
    + destruct (split sep s) as [|v vs] eqn:Hs;
        [exfalso; eapply split_nonempty; eauto|].
      inversion H; subst. f_equal. now apply IH.
Qed.

(** The last field of a split is the end of the text. *)
Lemma split_last sep s :
  forall ini x, split sep s = ini ++ [x] -> exists pre, s = pre ++ x.
Proof.
  induction s as [|c s IH]; simpl; intros ini x H.
  - destruct ini as [|? [|? ?]]; inversion H; subst. now exists [].
  - destruct (c =? sep)%N.
    + destruct ini as [|i ini].
      * exfalso. inversion H. eapply split_nonempty; eauto.
      * injection H as _ H2. destruct (IH _ _ H2) as [pre ->].
        now exists (c :: pre).
    + destruct (split sep s) as [|w ws] eqn:Hs;
        [exfalso; eapply split_nonempty; eauto|].
      destruct ini as [|i ini].
      * inversion H; subst. exists []. simpl. f_equal.
        now apply split_single with (sep := sep).
      * injection H as _ H2. subst ws.
        destruct (IH (w :: ini) x eq_refl) as [pre ->].
        now exists (c :: pre).
Qed.

(** ** The matcher against the words of a pattern *)

Lemma in_flat_map_iff {A B} (f : A -> list B) (l : list A) (y : B) :
  In y (flat_map f l) <-> exists x, In x l /\ In y (f x).
Proof. apply in_flat_map. Qed.

Lemma flat_map_ext_on {A B} (f g : A -> list B) (l : list A) :
  (forall x, In x l -> f x = g x) -> flat_map f l = flat_map g l.
Proof.
  induction l as [|x l IH]; intros H; simpl; [reflexivity|].
  rewrite H by now left. f_equal. apply IH. intros; apply H; now right.
Qed.

Lemma in_iterate (g : bool) (step : mstate -> list mstate) (f : nat)
    (st st' : mstate) :
  In st' (iterate g step (S f) st) <->
  st' = st \/
  exists st1, In st1 (step st) /\
              (List.length (rest st1) < List.length (rest st))%nat /\
              In st' (iterate g step f st1).
Proof.
  simpl. assert (E : forall l : list mstate,
            In st' (if g then l ++ [st] else st :: l) <-> st' = st \/ In st' l).
  { intros l. destruct g; simpl; [rewrite in_app_iff; simpl|]; intuition. }
  rewrite E, in_flat_map_iff. apply or_iff_compat_l. split.
  - intros [st1 [H1 H2]]. apply filter_In in H1. destruct H1 as [H1 H3].
    apply Nat.ltb_lt in H3. eauto.
  - intros [st1 [H1 [H3 H2]]]. exists st1. split; [|assumption].
    apply filter_In. split; [assumption|now apply Nat.ltb_lt].
Qed.

Lemma iterate_sound (g : bool) (r : regex) (step : mstate -> list mstate) :
  (forall st st', In st' (step st) ->
                  exists w, rest st = w ++ rest st' /\ Matches r w) ->
  forall f st st', In st' (iterate g step f st) ->
                   exists w, rest st = w ++ rest st' /\ Matches (Star g r) w.
Proof.
  intros Hstep f. induction f as [|f IH]; intros st st' H.
  - destruct H as [<-|[]]. exists []. split; [reflexivity|constructor].
  - apply in_iterate in H. destruct H as [->|[st1 [H1 [Hlt H2]]]].
    + exists []. split; [reflexivity|constructor].
    + destruct (Hstep _ _ H1) as [w1 [E1 M1]].
      destruct (IH _ _ H2) as [w2 [E2 M2]].
      exists (w1 ++ w2). split.
      * now rewrite E1, E2, app_assoc.
      * constructor; auto. intros ->. simpl in E1. rewrite E1 in Hlt. lia.
Qed.

(** Every result of the matcher is a match of the pattern on the text it
    consumed. *)
Lemma run_sound input r : forall st st',
  In st' (run input r st) -> exists w, rest st = w ++ rest st' /\ Matches r w.
Proof.
  induction r as [| |p|r1 IH1 r2 IH2|r1 IH1 r2 IH2|g r1 IH1|n r1 IH1];
    intros st st' H; simpl in H.
  - destruct H as [<-|[]]. exists []. split; [reflexivity|constructor].
  - destruct (_ =? _)%nat; [|contradiction].
    destruct H as [<-|[]]. exists []. split; [reflexivity|constructor].
  - destruct (rest st) as [|c t] eqn:E; [contradiction|].
    destruct (p c) eqn:Hp; [|contradiction].
    destruct H as [<-|[]]. exists [c]. split; [reflexivity|now constructor].
  - apply in_flat_map_iff in H. destruct H as [st1 [H1 H2]].
    destruct (IH1 _ _ H1) as [w1 [E1 M1]]. destruct (IH2 _ _ H2) as [w2 [E2 M2]].
    exists (w1 ++ w2). split; [now rewrite E1, E2, app_assoc|now constructor].
  - apply in_app_iff in H. destruct H as [H|H].
    + destruct (IH1 _ _ H) as [w [E M]]. exists w. split; [assumption|now apply MAltL].
    + destruct (IH2 _ _ H) as [w [E M]]. exists w. split; [assumption|now apply MAltR].
  - eapply iterate_sound; eauto.
  - apply in_map_iff in H. destruct H as [st1 [<- H1]]. simpl.
    destruct (IH1 _ _ H1) as [w [E M]]. exists w. split; [assumption|now constructor].
Qed.

Lemma in_iterate_self (g : bool) (step : mstate -> list mstate) (f : nat)
    (st : mstate) :
  In st (iterate g step f st).
Proof.
  destruct f; [now left|]. apply in_iterate. now left.
Qed.

Lemma iterate_complete (g : bool) (r : regex) (step : mstate -> list mstate) :
  (forall w, Matches r w -> forall st tl, rest st = w ++ tl ->
             exists st', In st' (step st) /\ rest st' = tl) ->
  forall w, Matches (Star g r) w ->
  forall f st tl, rest st = w ++ tl -> (List.length (rest st) <= f)%nat ->
                  exists st', In st' (iterate g step f st) /\ rest st' = tl.
Proof.
  intros Hstep w M. remember (Star g r) as sr eqn:Esr.
  induction M as [| | | | | |g' r'|g' r' w1 w2 Hne M1 _ M2 IH2|];
    try discriminate; inversion Esr; subst g' r'; intros f st tl E Hf.
  - exists st. split; [apply in_iterate_self|assumption].
  - rewrite <- app_assoc in E.
    destruct (Hstep _ M1 _ _ E) as [st1 [H1 E1]].
    assert (Hlen : (List.length (rest st1) < List.length (rest st))%nat).
    { rewrite E, E1, !length_app. destruct w1; [congruence|simpl; lia]. }
    destruct f as [|f]; [lia|].
    destruct (IH2 eq_refl f st1 tl E1) as [st' [H' E']]; [lia|].
    exists st'. split; [|assumption]. apply in_iterate. right. eauto.
Qed.

Lemma Matches_eps_inv w : Matches Eps w -> w = [].
Proof. intros M. now inversion M. Qed.

Lemma Matches_cls_inv p w : Matches (Cls p) w -> exists c, w = [c] /\ p c = true.
Proof. intros M. inversion M; subst. eauto. Qed.

Lemma Matches_cat_inv r1 r2 w :
  Matches (Cat r1 r2) w ->
  exists w1 w2, w = w1 ++ w2 /\ Matches r1 w1 /\ Matches r2 w2.
Proof. intros M. inversion M; subst. eauto. Qed.

Lemma Matches_alt_inv r1 r2 w :
  Matches (Alt r1 r2) w -> Matches r1 w \/ Matches r2 w.
Proof. intros M. inversion M; subst; auto. Qed.

Lemma Matches_group_inv n r w : Matches (Group n r) w -> Matches r w.
Proof. intros M. now inversion M. Qed.

(** Every match of a pattern without [^] is found by the matcher. *)
Lemma run_complete input r : bol_free r = true ->
  forall w, Matches r w -> forall st tl, rest st = w ++ tl ->
            exists st', In st' (run input r st) /\ rest st' = tl.
Proof.
  induction r as [| |p|r1 IH1 r2 IH2|r1 IH1 r2 IH2|g r1 IH1|n r1 IH1];
    simpl; intros Hb w M st tl E; try discriminate.
  - apply Matches_eps_inv in M. subst. exists st. split; [now left|assumption].
  - apply Matches_cls_inv in M. destruct M as [c [-> Hp]].
    simpl in E. rewrite E, Hp.
    eexists. split; [now left|reflexivity].
  - apply andb_true_iff in Hb. destruct Hb as [Hb1 Hb2].
    apply Matches_cat_inv in M. destruct M as [w1 [w2 [-> [M1 M2]]]].
    rewrite <- app_assoc in E.
    destruct (IH1 Hb1 _ M1 _ _ E) as [st1 [H1' E1]].
    destruct (IH2 Hb2 _ M2 _ _ E1) as [st2 [H2' E2]].
    exists st2. split; [|assumption]. apply in_flat_map_iff. eauto.
  - apply andb_true_iff in Hb. destruct Hb as [Hb1 Hb2].
    apply Matches_alt_inv in M. destruct M as [M|M].
    + destruct (IH1 Hb1 _ M _ _ E) as [st1 [H1' E1]].
      exists st1. split; [|assumption]. apply in_app_iff. now left.
    + destruct (IH2 Hb2 _ M _ _ E) as [st1 [H1' E1]].
      exists st1. split; [|assumption]. apply in_app_iff. now right.
  - eapply iterate_complete; eauto.
  - apply Matches_group_inv in M.
    destruct (IH1 Hb _ M _ _ E) as [st1 [H1' E1]].
    eexists. split; [apply in_map; eassumption|assumption].
Qed.

Lemma found_hd_error {A} (l : list A) (x : A) :
  In x l -> exists y, hd_error l = Some y /\ In y l.
Proof. destruct l as [|y l]; [contradiction|]. intros _. exists y. split; [reflexivity|now left]. Qed.

(** [match] finds a match exactly when a prefix of the text is a word of the
    pattern. *)
Lemma re_match_sound r s m :
  re_match r s = Some m -> exists w, s = w ++ rest m /\ Matches r w.
Proof.
  unfold re_match. intros H.
  destruct (run s r (MState s [])) as [|y l] eqn:E; [discriminate|].
  inversion H; subst y.
  apply (run_sound s r (MState s []) m). rewrite E. now left.
Qed.

Lemma re_match_complete r s w tl :
  bol_free r = true -> Matches r w -> s = w ++ tl ->
  found (re_match r s) = true.
Proof.
  intros Hb M E. unfold re_match.
  destruct (run_complete s r Hb _ M (MState s []) tl E) as [st' [H _]].
  destruct (found_hd_error _ _ H) as [y [-> _]]. reflexivity.
Qed.

(** A pattern that starts with [^], under [match]. *)
Lemma re_match_bol r s : re_match (Cat Bol r) s = re_match r s.
Proof.
  unfold re_match. simpl. rewrite Nat.eqb_refl. simpl. now rewrite app_nil_r.
Qed.

(** [search] finds a match exactly when the text contains a word of the
    pattern. *)
Lemma search_from_spec input r : bol_free r = true -> forall s,
  found (search_from input r s) = true <->
  exists pre w post, s = pre ++ w ++ post /\ Matches r w.
Proof.
  intros Hb. induction s as [|c s IH].
  - simpl. destruct (hd_error (run input r (MState [] []))) as [m|] eqn:E.
    + split; [intros _|reflexivity].
      destruct (run input r (MState [] [])) as [|y l] eqn:E'; [discriminate|].
      destruct (run_sound input r (MState [] []) y) as [w [Ew M]];
        [rewrite E'; now left|].
      simpl in Ew. exists [], w, (rest y). split; assumption.
    + split; [discriminate|]. intros [pre [w [post [Es M]]]].
      destruct pre; [|discriminate]. simpl in Es.
      destruct (run_complete input r Hb _ M (MState [] []) post Es) as [st' [H _]].
      destruct (found_hd_error _ _ H) as [y [Hy _]]. congruence.
  - simpl. destruct (hd_error (run input r (MState (c :: s) []))) as [m|] eqn:E.
    + split; [intros _|reflexivity].
      destruct (run input r (MState (c :: s) [])) as [|y l] eqn:E'; [discriminate|].
      destruct (run_sound input r (MState (c :: s) []) y) as [w [Ew M]];
        [rewrite E'; now left|].
      simpl in Ew. exists [], w, (rest y). split; assumption.
    + fold (search_from input r s). rewrite IH. split.
      * intros [pre [w [post [Es M]]]]. exists (c :: pre), w, post.
        split; [now rewrite Es|assumption].
      * intros [pre [w [post [Es M]]]]. destruct pre as [|d pre].
        -- simpl in Es.
           destruct (run_complete input r Hb _ M (MState (c :: s) []) post Es)
             as [st' [H _]].
           destruct (found_hd_error _ _ H) as [y [Hy _]]. congruence.
        -- inversion Es; subst. eauto.
Qed.

Lemma re_search_spec r s : bol_free r = true ->
  found (re_search r s) = true <->
  exists pre w post, s = pre ++ w ++ post /\ Matches r w.
Proof. intros Hb. now apply search_from_spec. Qed.

(** ** Words of the pattern pieces *)

Lemma Matches_star_cls g p w :
  Matches (Star g (Cls p)) w <-> Forall (fun c => p c = true) w.
Proof.
  split.
  - intros M. remember (Star g (Cls p)) as r eqn:Er.
    induction M as [| | | | | |g' r'|g' r' w1 w2 Hne M1 _ M2 IH2|];
      try discriminate; inversion Er; subst g' r'.
    + constructor.
    + apply Matches_cls_inv in M1. destruct M1 as [c [-> Hp]].
      simpl. constructor; auto.
  - induction 1 as [|c w Hp _ IH].
    + constructor.
    + change (c :: w) with ([c] ++ w). constructor; [discriminate| |assumption].
      now constructor.
Qed.

Lemma Matches_plus_cls g p w :
  Matches (Cat (Cls p) (Star g (Cls p))) w <->
  exists c t, w = c :: t /\ p c = true /\ Forall (fun c => p c = true) t.
Proof.
  split.
  - intros M. apply Matches_cat_inv in M. destruct M as [w1 [w2 [-> [M1 M2]]]].
    apply Matches_cls_inv in M1. destruct M1 as [c [-> Hp]].
    apply Matches_star_cls in M2. now exists c, w2.
  - intros [c [t [-> [Hp Ht]]]]. change (c :: t) with ([c] ++ t).
    constructor; [now constructor|now apply Matches_star_cls].
Qed.

Lemma Matches_chr c w : Matches (chr c) w <-> w = [c].
Proof.
  unfold chr. split.
  - intros M. apply Matches_cls_inv in M. destruct M as [d [-> Hd]].
    apply N.eqb_eq in Hd. now subst.
  - intros ->. constructor. apply N.eqb_refl.
Qed.

Lemma Matches_lit s w : Matches (lit s) w <-> w = s.
Proof.
  revert w. induction s as [|c s IH]; intros w; simpl.
  - split; [apply Matches_eps_inv|intros ->; constructor].
  - split.
    + intros M. apply Matches_cat_inv in M. destruct M as [w1 [w2 [-> [M1 M2]]]].
      apply Matches_chr in M1. apply IH in M2. now subst.
    + intros ->. change (c :: s) with ([c] ++ s).
      constructor; [now apply Matches_chr|now apply IH].
Qed.

Lemma Matches_cat r1 r2 w :
  Matches (Cat r1 r2) w <->
  exists w1 w2, w = w1 ++ w2 /\ Matches r1 w1 /\ Matches r2 w2.
Proof.
  split; [apply Matches_cat_inv|].
  intros [w1 [w2 [-> [M1 M2]]]]. now constructor.
Qed.

Lemma Matches_opt r w : Matches (opt r) w <-> Matches r w \/ w = [].
Proof.
  unfold opt. split.
  - intros M. apply Matches_alt_inv in M. destruct M as [M|M]; [now left|].
    right. now apply Matches_eps_inv.
  - intros [M| ->]; [now apply MAltL|apply MAltR; constructor].
Qed.

(** ** Captured groups *)

Lemma get_set_cap n v cs : get_cap n (set_cap n v cs) = Some v.
Proof. unfold get_cap, set_cap. simpl. now rewrite Nat.eqb_refl. Qed.

Lemma in_run_cat input r1 r2 st st' :
  In st' (run input (Cat r1 r2) st) <->
  exists st1, In st1 (run input r1 st) /\ In st' (run input r2 st1).
Proof. simpl. apply in_flat_map_iff. Qed.

Lemma in_run_cls input p st st' :
  In st' (run input (Cls p) st) -> caps st' = caps st.
Proof.
  simpl. destruct (rest st) as [|c t]; [contradiction|].
  destruct (p c); [|contradiction]. now intros [<-|[]].
Qed.

(** The group of a result is the text the group's pattern consumed. *)
Lemma in_run_group input n r st st' :
  In st' (run input (Group n r) st) ->
  exists w, rest st = w ++ rest st' /\ Matches r w /\ get_cap n (caps st') = Some w.
Proof.
  simpl. intros H. apply in_map_iff in H. destruct H as [x [<- Hx]].
  destruct (run_sound _ _ _ _ Hx) as [w [E M]].
  exists w. simpl. repeat split; try assumption.
  rewrite get_set_cap. f_equal.
  rewrite E, length_app, Nat.add_sub.
  rewrite firstn_app, Nat.sub_diag, firstn_all. simpl. now rewrite app_nil_r.
Qed.

Lemma hd_error_in {A} (l : list A) (x : A) : hd_error l = Some x -> In x l.
Proof. destruct l; [discriminate|]. intros H; inversion H. now left. Qed.

(** ** The patterns on sample lines *)

Example import_pattern_examples :
  option_map (group 1)
    (re_match import_pattern (py "import 'package:app/widgets/button.dart';"))
  = Some (Some (py "package:app/widgets/button.dart"))
  /\ option_map (group 1) (re_match import_pattern (py "import   'a'b'"))
     = Some (Some (py "a"))
  /\ found (re_match import_pattern (py "  import 'a';")) = false
  /\ found (re_match import_pattern (py "import a;")) = false.
Proof. repeat split; vm_compute; reflexivity. Qed.

Example method_pattern_examples :
  found (re_match method_pattern (py "void foo() {")) = true
  /\ found (re_match method_pattern
              (py "@override Widget build(BuildContext context) {")) = true
  /\ found (re_match method_pattern (py "Future load(int id) async {")) = true
  /\ found (re_match method_pattern (py "return foo(x);")) = true
  /\ found (re_match method_pattern (py "if (x) {")) = false
  /\ found (re_match method_pattern (py "}")) = false.
Proof. repeat split; vm_compute; reflexivity. Qed.

Example private_method_pattern_examples :
  found (re_match private_method_pattern (py "void _helper() {")) = true
  /\ found (re_match private_method_pattern (py "void helper() {")) = false
  /\ method_name (py "void _helper() {") = Ok (py "_helper").
Proof. repeat split; vm_compute; reflexivity. Qed.

(** ** Unused imports *)

(** A matched import line reads [import], spaces, a quote, the captured
    path, a quote, and anything after that. *)
Lemma import_match s m :
  re_match import_pattern s = Some m ->
  exists sp q1 path q2,
    s = py "import" ++ sp ++ [q1] ++ path ++ [q2] ++ rest m /\
    group 1 m = Some path /\ path <> [].
Proof.
  unfold import_pattern. simpl seq. rewrite re_match_bol.
  unfold re_match. intros H. apply hd_error_in in H.
  apply in_run_cat in H. destruct H as [s1 [H1 H]].
  apply in_run_cat in H. destruct H as [s2 [H2 H]].
  apply in_run_cat in H. destruct H as [s3 [H3 H]].
  apply in_run_cat in H. destruct H as [s4 [H4 H5]].
  apply run_sound in H1. destruct H1 as [w1 [E1 M1]].
  apply (proj1 (Matches_lit (py "import") w1)) in M1.
  apply run_sound in H2. destruct H2 as [w2 [E2 _]].
  pose proof (in_run_cls _ _ _ _ H5) as C5.
  apply run_sound in H3. destruct H3 as [w3 [E3 M3]].
  apply Matches_cls_inv in M3. destruct M3 as [q1 [-> _]].
  apply in_run_group in H4. destruct H4 as [w4 [E4 [M4 G4]]].
  apply run_sound in H5. destruct H5 as [w5 [E5 M5]].
  apply Matches_cls_inv in M5. destruct M5 as [q2 [-> _]].
  exists w2, q1, w4, q2. simpl in E1. subst w1. repeat split.
  - now rewrite E1, E2, E3, E4, E5.
  - unfold group. now rewrite C5.
  - apply Matches_plus_cls in M4. destruct M4 as [c [t [-> _]]]. discriminate.
Qed.

Lemma import_match_infix s m path :
  re_match import_pattern s = Some m -> group 1 m = Some path -> infix path s.
Proof.
  intros H G. destruct (import_match _ _ H) as [sp [q1 [p [q2 [E [G' _]]]]]].
  assert (p = path) by congruence. subst p.
  exists (py "import" ++ sp ++ [q1]), ([q2] ++ rest m).
  rewrite E. now rewrite <- !app_assoc.
Qed.

Lemma fold_left_appends {A B} (step : list B -> A -> list B) (f : A -> list B)
    (xs : list A) (acc : list B) :
  (forall acc x, step acc x = acc ++ f x) ->
  fold_left step xs acc = acc ++ flat_map f xs.
Proof.
  intros H. rewrite <- fold_left_app_flat_map.
  apply fold_left_ext_in. intros; apply H.
Qed.

(** A loop that keeps an invariant, and does not raise while it holds,
    returns a state that satisfies it. *)
Lemma for_each_invariant {A S} (P : S -> Prop) (body : S -> A -> result S)
    (xs : list A) (s : S) :
  P s ->
  (forall s x, In x xs -> P s -> exists s', body s x = Ok s' /\ P s') ->
  exists s', for_each xs body s = Ok s' /\ P s'.
Proof.
  revert s. induction xs as [|x xs IH]; intros s Hs Hbody; simpl.
  - eauto.
  - destruct (Hbody s x (or_introl eq_refl) Hs) as [s1 [-> H1]]. simpl.
    apply IH; [assumption|]. intros s2 y Hy. apply Hbody. now right.
Qed.

Lemma collect_imports_spec content n o :
  In (n, o) (collect_imports content) <->
  exists i line m,
    In (i, line) (enumerate content) /\
    re_match import_pattern (strip line) = Some m /\
    n = i + 1 /\ o = group 1 m.
Proof.
  unfold collect_imports.
  rewrite fold_left_appends with
    (f := fun il : Z * str =>
            match re_match import_pattern (strip (snd il)) with
            | Some m => [(fst il + 1, group 1 m)]
            | None => []
            end).
  - simpl. rewrite in_flat_map_iff. split.
    + intros [[i line] [Hin H]]. simpl in H.
      destruct (re_match import_pattern (strip line)) as [m|] eqn:E; [|contradiction].
      destruct H as [H|[]]. inversion H; subst. exists i, line, m. auto.
    + intros [i [line [m [Hin [E [-> ->]]]]]]. exists (i, line). split; [assumption|].
      simpl. rewrite E. now left.
  - intros acc [i line]. simpl.
    destruct (re_match import_pattern (strip line)); [reflexivity|].
    now rewrite app_nil_r.
Qed.

Lemma import_name_total path : exists name, import_name path = Ok name.
Proof.
  unfold import_name.
  destruct (getitem_last_nonempty _ (split_nonempty (ch "/") path)) as [seg [-> _]].
  unfold bind. destruct (split_first (ch ".") seg) as [h [t [-> _]]].
  exists h. apply getitem_first.
Qed.

(** When the last segment of the path has a dot, the derived name followed by
    a dot occurs in the path. *)
Lemma import_name_dot path seg ident ext name :
  getitem (split (ch "/") path) (-1) = Ok seg ->
  seg = ident ++ py "." ++ ext ->
  import_name path = Ok name ->
  infix (name ++ py ".") path.
Proof.
  intros Hseg Eseg. unfold import_name. rewrite Hseg. unfold bind.
  destruct (getitem_last_nonempty _ (split_nonempty (ch "/") path))
    as [seg' [Hseg' [ini Hini]]].
  assert (seg' = seg) by congruence. subst seg'.
  destruct (split_last _ _ _ _ Hini) as [pre Hpre].
  destruct (split_first (ch ".") seg) as [h [t [Eh [Hnot Hform]]]].
  rewrite Eh, getitem_first. intros H. inversion H; subst name.
  destruct Hform as [Hh|[s' Hs']].
  - exfalso. apply Hnot. rewrite <- Hh, Eseg. apply in_or_app. right. now left.
  - exists pre, s'. rewrite Hpre at 1. rewrite Hs' at 1.
    now rewrite <- app_assoc.
Qed.

Lemma import_used_true name line content :
  In line content -> infix (name ++ py ".") line ->
  import_used name content = true.
Proof.
  intros Hin Hinf. unfold import_used. apply existsb_exists.
  exists line. split; [assumption|]. apply orb_true_iff. left.
  now apply contains_spec.
Qed.

(** The pass never raises, and each issue it returns reports an import whose
    name is used nowhere. *)
Lemma _detect_unused_imports_spec content :
  exists issues,
    _detect_unused_imports content = Ok issues /\
    Forall (unused_import_issue content) issues.
Proof.
  unfold _detect_unused_imports. apply for_each_invariant; [constructor|].
  intros acc [n o] Hin Hacc.
  apply collect_imports_spec in Hin.
  destruct Hin as [i [line [m [Hil [Hm [-> ->]]]]]].
  destruct (import_match _ _ Hm) as [sp [q1 [path [q2 [_ [Hg _]]]]]].
  rewrite Hg. destruct (import_name_total path) as [name Hname].
  rewrite Hname. unfold bind at 1.
  destruct (import_used name content) eqn:Hused; cbn [negb].
  - eauto.
  - replace (i + 1 - 1) with i by lia.
    rewrite (getitem_enumerate _ _ _ Hil). unfold bind.
    eexists. split; [reflexivity|].
    apply Forall_app. split; [assumption|]. constructor; [|constructor].
    exists i, line, m, path, name. auto 10.
Qed.

(** C1.  On a file whose only line is
    [import 'package:app/widgets/button.dart';] the Unused-Import pass returns
    no issue, where the specification expects one at that line: the scan for
    a use reads the import line itself, where [button.] occurs.  With a second
    line that holds [button.onTap()] the pass returns no issue either, as
    expected. *)
Theorem unused_import_button_example :
  _detect_unused_imports [ln "import 'package:app/widgets/button.dart';"]
    = Ok []
  /\ _detect_unused_imports
       [ln "import 'package:app/widgets/button.dart';"; ln "  button.onTap();"]
     = Ok [].
Proof. split; vm_compute; reflexivity. Qed.

(** C9.  An import whose path ends in a segment of the form
    identifier-dot-extension is never reported: the derived name followed by
    a dot occurs in the import line itself, which the usage scan reads like
    every other line, so the import counts as used and the pass returns no
    issue at its line. *)
Theorem unused_import_own_line_is_a_use
    (content : list str) (k : nat) (line : str) (m : mstate)
    (path seg ident ext : str) :
  nth_error content k = Some line ->
  re_match import_pattern (strip line) = Some m ->
  group 1 m = Some path ->
  getitem (split (ch "/") path) (-1) = Ok seg ->
  seg = ident ++ py "." ++ ext ->
  exists name issues,
    import_name path = Ok name /\
    contains (name ++ py ".") line = true /\
    import_used name content = true /\
    _detect_unused_imports content = Ok issues /\
    forall iss, In iss issues -> line_number iss <> Z.of_nat k + 1.
Proof.
  intros Hk Hm Hg Hseg Eseg.
  destruct (import_name_total path) as [name Hname].
  destruct (_detect_unused_imports_spec content) as [issues [Hok Hall]].
  assert (Hinf : infix (name ++ py ".") line).
  { eapply infix_trans; [eapply import_name_dot; eauto|].
    eapply infix_trans; [eapply import_match_infix; eauto|apply strip_infix]. }
  assert (Hused : import_used name content = true).
  { eapply import_used_true; [eapply nth_error_In; eauto|assumption]. }
  exists name, issues. repeat split; try assumption.
  - now apply contains_spec.
  - intros iss Hin Hline. rewrite Forall_forall in Hall.
    destruct (Hall _ Hin) as [i [line' [m' [path' [name' [Hil [Hm' [Hg' [Hn' [Hu' ->]]]]]]]]]].
    simpl in Hline. assert (i = Z.of_nat k) by lia. subst i.
    pose proof (in_enumerate_nat _ _ _ Hk) as Hil'.
    pose proof (in_enumerate_fun _ _ _ _ Hil Hil'). subst line'.
    assert (path' = path) by congruence. subst path'.
    assert (name' = name) by congruence. subst name'. congruence.
Qed.

Lemma unused_import_own_line_is_a_use_witness :
  exists name issues,
    import_name (py "package:app/widgets/button.dart") = Ok name /\
    contains (name ++ py ".") (ln "import 'package:app/widgets/button.dart';") = true /\
    import_used name [ln "import 'package:app/widgets/button.dart';"] = true /\
    _detect_unused_imports [ln "import 'package:app/widgets/button.dart';"] = Ok issues /\
    forall iss, In iss issues -> line_number iss <> Z.of_nat 0 + 1.
Proof.
  apply (unused_import_own_line_is_a_use
           [ln "import 'package:app/widgets/button.dart';"] 0%nat
           (ln "import 'package:app/widgets/button.dart';")
           (MState (py ";") [(1%nat, py "package:app/widgets/button.dart")])
           (py "package:app/widgets/button.dart")
           (py "button.dart") (py "button") (py "dart")).
  - reflexivity.
  - vm_compute. reflexivity.
  - reflexivity.
  - vm_compute. reflexivity.
  - reflexivity.
Defined.

(** ** Long methods *)

(** The iteration on a line at which tracking starts or goes on, and the
    counter falls to zero or below: tracking stops, and an issue is appended
    exactly when [method_length] exceeds 20. *)
Lemma long_method_step_close content issues start bc i line first :
  let bc' := bc + brace_delta (strip line) in
  bc' <= 0 ->
  getitem content (start - 1) = Ok first ->
  long_method_step content (mkScan issues (Some start) bc) (i, line) =
  Ok (mkScan
        (if method_length i start >? 20
         then issues ++ [mkCodeIssue start (py "Long Method")
                           (long_method_description (method_length i start))
                           (strip first)]
         else issues)
        None bc').
Proof.
  intros bc' Hle Hfirst. unfold long_method_step. cbn [method_start brace_count scan_issues].
  fold (brace_delta (strip line)).
  replace (bc + count (ch "{") (strip line) - count (ch "}") (strip line))
    with bc' by (unfold bc', brace_delta; lia).
  replace (bc' <=? 0) with true by lia.
  destruct (method_length i start >? 20); [|reflexivity].
  rewrite Hfirst. reflexivity.
Qed.

(** The iteration on a line at which the counter stays positive. *)
Lemma long_method_step_open content issues start bc i line :
  let bc' := bc + brace_delta (strip line) in
  0 < bc' ->
  long_method_step content (mkScan issues (Some start) bc) (i, line) =
  Ok (mkScan issues (Some start) bc').
Proof.
  intros bc' Hlt. unfold long_method_step. cbn [method_start brace_count scan_issues].
  replace (bc + count (ch "{") (strip line) - count (ch "}") (strip line))
    with bc' by (unfold bc', brace_delta; lia).
  now replace (bc' <=? 0) with false by lia.
Qed.

(** The iteration on a line while no method is tracked. *)
Lemma long_method_step_idle content issues bc i line :
  long_method_step content (mkScan issues None bc) (i, line) =
  if found (re_match method_pattern (strip line))
  then long_method_step content (mkScan issues (Some (i + 1)) 0) (i, line)
  else Ok (mkScan issues None bc).
Proof.
  unfold long_method_step. cbn [method_start brace_count scan_issues].
  destruct (found (re_match method_pattern (strip line))); reflexivity.
Qed.

Lemma long_method_step_inv content s i line :
  In (i, line) (enumerate content) ->
  long_method_inv content i s ->
  exists s', long_method_step content s (i, line) = Ok s' /\
             long_method_inv content (i + 1) s'.
Proof.
  intros Hil [Hstart Hiss]. pose proof (in_enumerate_bound _ _ _ Hil) as [Hb _].
  destruct s as [issues [start|] bc]; cbn [method_start scan_issues] in *.
  - destruct (Hstart start eq_refl) as [Hle Hopen].
    destruct (Z_le_gt_dec (bc + brace_delta (strip line)) 0) as [Hc|Hc].
    + destruct Hopen as [first [Hfirst Hprop]].
      rewrite (long_method_step_close content issues start bc i line first Hc
                 (getitem_enumerate _ _ _ Hfirst)).
      eexists. split; [reflexivity|]. split; [discriminate|].
      cbn [scan_issues]. destruct (method_length i start >? 20) eqn:Hlen; [|assumption].
      apply Forall_app. split; [assumption|]. constructor; [|constructor].
      exists start, (i + 1), first. replace (i + 1 - 1) with i by lia.
      unfold method_length in *. repeat split; try assumption; try lia.
      exists first. tauto.
    + rewrite long_method_step_open by lia.
      eexists. split; [reflexivity|]. split; [|assumption].
      cbn [method_start]. intros st E. inversion E; subst st. split; [lia|assumption].
  - rewrite long_method_step_idle.
    destruct (found (re_match method_pattern (strip line))) eqn:Hm.
    + destruct (Z_le_gt_dec (0 + brace_delta (strip line)) 0) as [Hc|Hc].
      * rewrite (long_method_step_close content issues (i + 1) 0 i line line Hc).
        -- eexists. split; [reflexivity|]. split; [discriminate|].
           cbn [scan_issues]. unfold method_length.
           now replace (i + 1 - (i + 1) >? 20) with false by lia.
        -- replace (i + 1 - 1) with i by lia. now apply getitem_enumerate.
      * rewrite long_method_step_open by lia.
        eexists. split; [reflexivity|]. split; [|assumption].
        cbn [method_start]. intros st E. inversion E; subst st. split; [lia|].
        exists line. replace (i + 1 - 1) with i by lia. repeat split; try assumption; lia.
    + eexists. split; [reflexivity|]. split; [discriminate|assumption].
Qed.

Lemma long_method_scan_inv content : forall suffix prefix s,
  content = prefix ++ suffix ->
  long_method_inv content (len prefix) s ->
  exists s', long_method_scan content (enumerate_from (len prefix) suffix) s = Ok s' /\
             long_method_inv content (len content) s'.
Proof.
  unfold long_method_scan.
  induction suffix as [|line suffix IH]; intros prefix s E Hinv.
  - simpl. exists s. split; [reflexivity|]. rewrite app_nil_r in E. now subst.
  - cbn [enumerate_from for_each].
    assert (Hil : In (len prefix, line) (enumerate content)).
    { apply in_enumerate. unfold len. split; [lia|].
      rewrite Nat2Z.id, E, nth_error_app2, Nat.sub_diag by lia. reflexivity. }
    destruct (long_method_step_inv _ _ _ _ Hil Hinv) as [s1 [-> H1]]. unfold bind.
    replace (len prefix + 1) with (len (prefix ++ [line])) in *
      by (unfold len; rewrite length_app; simpl; lia).
    apply (IH (prefix ++ [line]) s1); [|assumption].
    rewrite E. now rewrite <- app_assoc.
Qed.

(** The pass never raises, and each issue it returns reports a method that was
    tracked for more than 20 lines. *)
Lemma _detect_long_methods_spec content :
  exists issues,
    _detect_long_methods content = Ok issues /\
    Forall (long_method_issue content) issues.
Proof.
  unfold _detect_long_methods, enumerate.
  destruct (long_method_scan_inv content content [] (mkScan [] None 0) eq_refl)
    as [s [Hs [_ Hiss]]].
  - split; [discriminate|constructor].
  - change (len []) with 0 in Hs. rewrite Hs. unfold bind. eauto.
Qed.

(** C2.  A method that runs from line 1 to line 21 spans 21 lines, more than
    the threshold, and the specification expects an issue for it; the pass
    computes its length as the closing line minus the start line, 20, and
    returns none.  One line more and the issue appears, its description
    counting 21 lines for the 22 the method spans. *)
Theorem long_method_of_21_lines_is_missed :
  len (ln "void run() {" :: repeat (ln "  step();") 19 ++ [ln "}"]) = 21
  /\ _detect_long_methods
       (ln "void run() {" :: repeat (ln "  step();") 19 ++ [ln "}"])
     = Ok []
  /\ _detect_long_methods
       (ln "void run() {" :: repeat (ln "  step();") 20 ++ [ln "}"])
     = Ok [mkCodeIssue 1 (py "Long Method")
             (py "Method is too long (21 lines)") (py "void run() {")].
Proof. repeat split; vm_compute; reflexivity. Qed.

(** C10.  A line that matches the signature pattern while no method is
    tracked, and whose opening braces do not outnumber its closing ones, opens
    and closes tracking in the same iteration: the computed length is 0, no
    issue is appended, and the pass as a whole returns no issue anchored at
    that line.  A method whose opening brace is on a later line than its
    signature is therefore never reported. *)
Theorem signature_without_open_brace_closes_at_once
    (content : list str) (k : nat) (line : str)
    (issues : list CodeIssue) (bc : Z) :
  nth_error content k = Some line ->
  found (re_match method_pattern (strip line)) = true ->
  brace_delta (strip line) <= 0 ->
  long_method_step content (mkScan issues None bc) (Z.of_nat k, line)
    = Ok (mkScan issues None (brace_delta (strip line)))
  /\ method_length (Z.of_nat k) (Z.of_nat k + 1) = 0
  /\ exists out,
       _detect_long_methods content = Ok out /\
       forall iss, In iss out -> line_number iss <> Z.of_nat k + 1.
Proof.
  intros Hk Hm Hd. pose proof (in_enumerate_nat _ _ _ Hk) as Hil.
  assert (Hlen : method_length (Z.of_nat k) (Z.of_nat k + 1) = 0)
    by (unfold method_length; lia).
  split; [|split; [assumption|]].
  - rewrite long_method_step_idle, Hm.
    rewrite (long_method_step_close content issues (Z.of_nat k + 1) 0
               (Z.of_nat k) line line).
    + now rewrite Hlen.
    + simpl. lia.
    + replace (Z.of_nat k + 1 - 1) with (Z.of_nat k) by lia.
      now apply getitem_enumerate.
  - destruct (_detect_long_methods_spec content) as [out [Hout Hall]].
    exists out. split; [assumption|]. intros iss Hin Hline.
    rewrite Forall_forall in Hall.
    destruct (Hall _ Hin) as [start [close [first [Hopen [_ [_ [_ ->]]]]]]].
    simpl in Hline. subst start.
    destruct Hopen as [line' [Hil' [_ Hpos]]].
    replace (Z.of_nat k + 1 - 1) with (Z.of_nat k) in Hil' by lia.
    pose proof (in_enumerate_fun _ _ _ _ Hil Hil'). subst line'. lia.
Qed.

Lemma signature_without_open_brace_closes_at_once_witness :
  long_method_step
    (ln "Widget build(BuildContext context)" :: ln "{"
       :: repeat (ln "  step();") 25 ++ [ln "}"])
    (mkScan [] None 0) (Z.of_nat 0, ln "Widget build(BuildContext context)")
    = Ok (mkScan [] None
            (brace_delta (strip (ln "Widget build(BuildContext context)"))))
  /\ method_length (Z.of_nat 0) (Z.of_nat 0 + 1) = 0
  /\ exists out,
       _detect_long_methods
         (ln "Widget build(BuildContext context)" :: ln "{"
            :: repeat (ln "  step();") 25 ++ [ln "}"]) = Ok out /\
       forall iss, In iss out -> line_number iss <> Z.of_nat 0 + 1.
Proof.
  apply (signature_without_open_brace_closes_at_once
           (ln "Widget build(BuildContext context)" :: ln "{"
              :: repeat (ln "  step();") 25 ++ [ln "}"])
           0%nat (ln "Widget build(BuildContext context)") [] 0).
  - reflexivity.
  - vm_compute. reflexivity.
  - vm_compute. discriminate.
Defined.

(** ** Dictionaries *)

Section DictFacts.
Context {V : Type}.
Implicit Types (d : dict V) (k : str) (v : V).

Lemma dict_get_set_eq k v d : dict_get k (dict_set k v d) = Some v.
Proof.
  induction d as [|[k' v'] d IH]; simpl.
  - now rewrite str_eqb_refl.
  - destruct (Str.eqb k' k) eqn:E; simpl; rewrite E; [reflexivity|assumption].
Qed.

Lemma dict_get_set_neq k k' v d :
  k <> k' -> dict_get k' (dict_set k v d) = dict_get k' d.
Proof.
  intros Hne. induction d as [|[k0 v0] d IH]; simpl.
  - apply str_eqb_neq in Hne. now rewrite Hne.
  - destruct (Str.eqb k0 k) eqn:E; simpl.
    + apply str_eqb_eq in E. subst k0.
      apply str_eqb_neq in Hne. now rewrite Hne.
    + destruct (Str.eqb k0 k'); [reflexivity|assumption].
Qed.

Lemma dict_get_in k v d : dict_get k d = Some v -> In (k, v) d.
Proof.
  induction d as [|[k' v'] d IH]; simpl; [discriminate|].
  destruct (Str.eqb k' k) eqn:E.
  - apply str_eqb_eq in E. intros H; inversion H; subst. now left.
  - intros H. right. now apply IH.
Qed.

Lemma dict_get_none k d : dict_get k d = None <-> ~ In k (map fst d).
Proof.
  induction d as [|[k' v'] d IH]; simpl; [tauto|].
  destruct (Str.eqb k' k) eqn:E.
  - apply str_eqb_eq in E. split; [discriminate|]. intros H. exfalso. auto.
  - apply str_eqb_neq in E. rewrite IH. tauto.
Qed.

Lemma dict_in_get k v d : NoDup (map fst d) -> In (k, v) d -> dict_get k d = Some v.
Proof.
  induction d as [|[k' v'] d IH]; simpl; [tauto|].
  intros Hnd [H|H].
  - inversion H; subst. now rewrite str_eqb_refl.
  - inversion Hnd; subst. destruct (Str.eqb k' k) eqn:E.
    + apply str_eqb_eq in E. subst k'. exfalso. apply H2.
      change k with (fst (k, v)). now apply in_map.
    + now apply IH.
Qed.

Lemma dict_set_keys k v d :
  map fst (dict_set k v d) =
  match dict_get k d with
  | Some _ => map fst d
  | None => map fst d ++ [k]
  end.
Proof.
  induction d as [|[k' v'] d IH]; simpl; [reflexivity|].
  destruct (Str.eqb k' k) eqn:E; simpl; [reflexivity|].
  rewrite IH. now destruct (dict_get k d).
Qed.

Lemma dict_set_nodup k v d :
  NoDup (map fst d) -> NoDup (map fst (dict_set k v d)).
Proof.
  intros H. rewrite dict_set_keys. destruct (dict_get k d) eqn:E; [assumption|].
  apply dict_get_none in E. apply NoDup_app; [assumption|repeat constructor; auto| ].
  intros x Hx [<-|[]]. contradiction.
Qed.

End DictFacts.

(** ** Duplication *)

Lemma positions_cons text i line lines :
  positions text ((i, line) :: lines) =
  (if is_code_line line && Str.eqb (strip line) text then [i + 1] else [])
  ++ positions text lines.
Proof.
  unfold positions. simpl.
  now destruct (is_code_line line && Str.eqb (strip line) text).
Qed.

Lemma in_positions text lines n :
  In n (positions text lines) <->
  exists i line, In (i, line) lines /\ is_code_line line = true /\
                 strip line = text /\ n = i + 1.
Proof.
  unfold positions. rewrite in_map_iff. split.
  - intros [[i line] [<- H]]. apply filter_In in H. destruct H as [Hin H].
    simpl in H. apply andb_true_iff in H. destruct H as [H1 H2].
    apply str_eqb_eq in H2. exists i, line. auto.
  - intros [i [line [Hin [H1 [H2 ->]]]]]. exists (i, line). split; [reflexivity|].
    apply filter_In. split; [assumption|]. simpl.
    apply andb_true_iff. split; [assumption|now apply str_eqb_eq].
Qed.

Lemma positions_enumerate_length text : forall content k,
  len (positions text (enumerate_from k content)) = occurrences content text.
Proof.
  unfold occurrences, len. induction content as [|line content IH]; intros k.
  - reflexivity.
  - simpl enumerate_from. rewrite positions_cons, length_app. simpl filter.
    specialize (IH (k + 1)).
    destruct (is_code_line line && Str.eqb (strip line) text); simpl List.length; lia.
Qed.

Lemma positions_enumerate_nodup text : forall content k,
  NoDup (positions text (enumerate_from k content)).
Proof.
  induction content as [|line content IH]; intros k.
  - constructor.
  - simpl enumerate_from. rewrite positions_cons.
    destruct (is_code_line line && Str.eqb (strip line) text); simpl; [|apply IH].
    constructor; [|apply IH]. intros H. apply in_positions in H.
    destruct H as [i [l [Hin [_ [_ E]]]]]. apply in_enumerate_from in Hin. lia.
Qed.

Lemma collect_step_get text d i line :
  dict_get_default [] text (collect_step d (i, line)) =
  dict_get_default [] text d ++ positions text [(i, line)].
Proof.
  unfold collect_step, positions. simpl filter. fold (is_code_line line).
  destruct (is_code_line line); simpl andb.
  - unfold blocks_append, dict_get_default.
    destruct (Str.eqb (strip line) text) eqn:E.
    + apply str_eqb_eq in E. subst text. now rewrite dict_get_set_eq.
    + apply str_eqb_neq in E. rewrite dict_get_set_neq by assumption.
      simpl. now rewrite app_nil_r.
  - simpl. now rewrite app_nil_r.
Qed.

Lemma collect_step_inv d il :
  NoDup (map fst d) /\ no_empty_block d ->
  NoDup (map fst (collect_step d il)) /\ no_empty_block (collect_step d il).
Proof.
  destruct il as [i line]. intros [Hnd Hne]. unfold collect_step.
  destruct (truthy (strip line) && negb (startswith (strip line) comment_markers));
    [|tauto].
  unfold blocks_append. split; [now apply dict_set_nodup|].
  intros k. destruct (list_eq_dec N.eq_dec (strip line) k) as [<-|Hk].
  - rewrite dict_get_set_eq. intros H. inversion H as [H1].
    now destruct (dict_get_default [] (strip line) d).
  - rewrite dict_get_set_neq by assumption. apply Hne.
Qed.

Lemma collect_fold text : forall lines d,
  dict_get_default [] text (fold_left collect_step lines d) =
  dict_get_default [] text d ++ positions text lines.
Proof.
  induction lines as [|[i line] lines IH]; intros d; cbn [fold_left].
  - unfold positions. simpl. now rewrite app_nil_r.
  - rewrite IH, collect_step_get, <- app_assoc. f_equal.
    rewrite (positions_cons text i line lines), (positions_cons text i line []).
    change (positions text []) with (@nil Z). now rewrite app_nil_r.
Qed.

Lemma collect_fold_inv : forall lines d,
  NoDup (map fst d) /\ no_empty_block d ->
  NoDup (map fst (fold_left collect_step lines d)) /\
  no_empty_block (fold_left collect_step lines d).
Proof.
  induction lines as [|il lines IH]; intros d H; simpl; [assumption|].
  apply IH. now apply collect_step_inv.
Qed.

(** The groups the first loop builds: every trimmed code text, with the line
    numbers of its occurrences. *)
Lemma collect_blocks_spec content code lines :
  In (code, lines) (collect_blocks content) <->
  lines = positions code (enumerate content) /\ lines <> [].
Proof.
  unfold collect_blocks.
  destruct (collect_fold_inv (enumerate content) []) as [Hnd Hne].
  { split; [constructor|]. intros k. discriminate. }
  pose proof (collect_fold code (enumerate content) []) as Hget.
  unfold dict_get_default at 2 in Hget. simpl in Hget.
  unfold dict_get_default in Hget. split.
  - intros Hin. apply dict_in_get in Hin; [|assumption].
    rewrite Hin in Hget. split; [assumption|]. intros ->. now apply (Hne code).
  - intros [-> Hpos]. apply dict_get_in.
    destruct (dict_get code _) as [vs|]; [now rewrite Hget|].
    now rewrite <- Hget in Hpos.
Qed.

Lemma collect_blocks_nodup content : NoDup (map fst (collect_blocks content)).
Proof.
  unfold collect_blocks. apply collect_fold_inv.
  split; [constructor|]. intros k. discriminate.
Qed.

Lemma duplicate_code_groups content file_path :
  _detect_duplicate_code content file_path =
  flat_map group_issues (collect_blocks content).
Proof.
  unfold _detect_duplicate_code.
  rewrite fold_left_appends with (f := group_issues); [reflexivity|].
  intros acc [code lines]. unfold group_issues. simpl fst. simpl snd.
  destruct ((len lines >? 1) && (len code >? 20)); [|now rewrite app_nil_r].
  rewrite fold_left_app_flat_map with
    (f := fun line => [mkCodeIssue line (py "Duplication")
                         (duplicate_description (len lines)) code]).
  f_equal.
Qed.

Lemma NoDup_flat_map {A B} (f : A -> list B) (l : list A) :
  NoDup l ->
  (forall x, In x l -> NoDup (f x)) ->
  (forall x y z, In x l -> In y l -> In z (f x) -> In z (f y) -> x = y) ->
  NoDup (flat_map f l).
Proof.
  induction l as [|x l IH]; intros Hnd Hf Hdisj; simpl; [constructor|].
  inversion Hnd as [|? ? Hx Hl]; subst.
  apply NoDup_app.
  - apply Hf. now left.
  - apply IH; [assumption| |].
    + intros y Hy. apply Hf. now right.
    + intros y1 y2 z H1 H2. apply Hdisj; now right.
  - intros z Hz1 Hz2. apply in_flat_map_iff in Hz2. destruct Hz2 as [y [Hy Hz2]].
    assert (x = y) by (eapply Hdisj; eauto; [now left|now right]).
    subst y. contradiction.
Qed.

Lemma group_issues_lines cl :
  map line_number (group_issues cl) =
  if (len (snd cl) >? 1) && (len (fst cl) >? 20) then snd cl else [].
Proof.
  unfold group_issues. destruct ((len (snd cl) >? 1) && (len (fst cl) >? 20));
    [|reflexivity].
  rewrite map_map. simpl. apply map_id.
Qed.

Lemma map_flat_map {A B C} (g : B -> C) (f : A -> list B) (l : list A) :
  map g (flat_map f l) = flat_map (fun x => map g (f x)) l.
Proof.
  induction l as [|x l IH]; simpl; [reflexivity|].
  now rewrite map_app, IH.
Qed.

(** C3.  The Duplication pass groups the code lines of the file (trimmed text
    not empty and not starting with a comment marker) by trimmed text.  Its
    issues are exactly these: for every code line whose group has more than
    one member and whose trimmed text is longer than 20 characters, one issue
    at that line's number, described as "Duplicate code found (appears N
    times)" with N the size of the group.  No line gets two issues, and no
    other line gets any. *)
Theorem duplication_findings (content : list str) (file_path : str) :
  (forall iss,
     In iss (_detect_duplicate_code content file_path) <->
     exists (k : nat) (line : str),
       nth_error content k = Some line /\
       is_code_line line = true /\
       occurrences content (strip line) > 1 /\
       len (strip line) > 20 /\
       iss = mkCodeIssue (Z.of_nat k + 1) (py "Duplication")
               (py "Duplicate code found (appears "
                  ++ of_int (occurrences content (strip line)) ++ py " times)")
               (strip line))
  /\ NoDup (map line_number (_detect_duplicate_code content file_path)).
Proof.
  rewrite duplicate_code_groups. split.
  - intros iss. rewrite in_flat_map_iff. split.
    + intros [[code lines] [Hin Hiss]]. apply collect_blocks_spec in Hin.
      destruct Hin as [Hlines _]. unfold group_issues in Hiss. simpl fst in Hiss.
      simpl snd in Hiss.
      destruct ((len lines >? 1) && (len code >? 20)) eqn:Hc; [|contradiction].
      apply andb_true_iff in Hc. destruct Hc as [Hc1 Hc2].
      apply in_map_iff in Hiss. destruct Hiss as [n [<- Hn]].
      rewrite Hlines in Hn. apply in_positions in Hn.
      destruct Hn as [i [line [Hil [Hcode [Hstrip ->]]]]].
      pose proof (positions_enumerate_length code content 0) as Hocc.
      fold (enumerate content) in Hocc. rewrite <- Hlines in Hocc.
      apply in_enumerate in Hil. destruct Hil as [Hi Hnth].
      exists (Z.to_nat i), line. subst code. rewrite <- Hocc.
      rewrite Z2Nat.id by assumption.
      repeat split; try assumption; lia.
    + intros [k [line [Hnth [Hcode [Hocc [Hlen ->]]]]]].
      pose proof (positions_enumerate_length (strip line) content 0) as Hpos.
      fold (enumerate content) in Hpos.
      exists (strip line, positions (strip line) (enumerate content)). split.
      * apply collect_blocks_spec. split; [reflexivity|].
        intros E. rewrite E in Hpos. unfold len in Hpos. simpl in Hpos. lia.
      * unfold group_issues. simpl fst. simpl snd. rewrite Hpos.
        replace ((occurrences content (strip line) >? 1) && (len (strip line) >? 20))
          with true by lia.
        apply in_map_iff. exists (Z.of_nat k + 1). split; [reflexivity|].
        apply in_positions. exists (Z.of_nat k), line.
        repeat split; try assumption. now apply in_enumerate_nat.
  - rewrite map_flat_map. apply NoDup_flat_map.
    + apply (NoDup_map_inv fst). apply collect_blocks_nodup.
    + intros [code lines] Hin. rewrite group_issues_lines. simpl.
      destruct ((len lines >? 1) && (len code >? 20)); [|constructor].
      apply collect_blocks_spec in Hin. destruct Hin as [-> _].
      apply positions_enumerate_nodup.
    + intros [c1 l1] [c2 l2] n H1 H2 Hn1 Hn2.
      rewrite group_issues_lines in Hn1, Hn2. simpl in Hn1, Hn2.
      destruct ((len l1 >? 1) && (len c1 >? 20)); [|contradiction].
      destruct ((len l2 >? 1) && (len c2 >? 20)); [|contradiction].
      apply collect_blocks_spec in H1, H2. destruct H1 as [-> _], H2 as [-> _].
      apply in_positions in Hn1, Hn2.
      destruct Hn1 as [i1 [x1 [Hi1 [_ [E1 ->]]]]].
      destruct Hn2 as [i2 [x2 [Hi2 [_ [E2 E]]]]].
      assert (i2 = i1) by lia. subst i2.
      pose proof (in_enumerate_fun _ _ _ _ Hi1 Hi2). subst x2.
      now rewrite <- E1, <- E2.
Qed.

(** A repeated line of 24 characters is reported at both of its lines, with
    the count 2; the repeated line [foo.bar(baz, qux);] has 18 characters and
    is not reported. *)
Example duplication_examples :
  _detect_duplicate_code
    [ln "  foo.bar(baz, qux, quux);"; ln "x"; ln "  foo.bar(baz, qux, quux);"]
    (py "lib/main.dart")
  = [mkCodeIssue 1 (py "Duplication")
       (py "Duplicate code found (appears 2 times)")
       (py "foo.bar(baz, qux, quux);");
     mkCodeIssue 3 (py "Duplication")
       (py "Duplicate code found (appears 2 times)")
       (py "foo.bar(baz, qux, quux);")]
  /\ _detect_duplicate_code
       [ln "  foo.bar(baz, qux);"; ln "x"; ln "  foo.bar(baz, qux);"]
       (py "lib/main.dart")
     = []
  /\ len (py "foo.bar(baz, qux);") = 18.
Proof. repeat split; vm_compute; reflexivity. Qed.

(** ** Dead code *)

Lemma is_word_not_space c : is_word c = true -> isspace c = false.
Proof.
  unfold is_word, is_alpha, isspace, in_range. intros H.
  repeat (apply orb_true_iff in H; destruct H as [H|H]);
    repeat (apply andb_true_iff in H; destruct H as [? H]);
    repeat match goal with
           | H : (_ <=? _)%N = true |- _ => apply N.leb_le in H
           | H : (_ =? _)%N = true |- _ => apply N.eqb_eq in H
           end;
    repeat (apply orb_false_iff; split);
    try (apply andb_false_iff;
         first [left; apply N.leb_gt; lia | right; apply N.leb_gt; lia]);
    try (apply N.eqb_neq; lia).
Qed.

Lemma is_word_not_lparen c : is_word c = true -> c <> ch "(".
Proof. intros H ->. vm_compute in H. discriminate. Qed.

Lemma blank_not_lparen ws : blank ws -> ~ In (ch "(") ws.
Proof.
  intros H Hin. unfold blank in H. rewrite Forall_forall in H.
  apply H in Hin. vm_compute in Hin. discriminate.
Qed.

(** A matched declaration starts, after white space, with a letter or an
    underscore. *)
Lemma private_method_match_head s :
  found (re_match private_method_pattern s) = true ->
  exists ws c t, s = ws ++ c :: t /\ blank ws /\ is_word c = true.
Proof.
  unfold private_method_pattern. cbn [seq]. rewrite re_match_bol.
  destruct (re_match _ s) as [m|] eqn:Hm; [intros _|discriminate].
  apply re_match_sound in Hm. destruct Hm as [w [Es M]].
  apply Matches_cat_inv in M. destruct M as [w1 [w' [-> [M1 M]]]].
  apply Matches_cat_inv in M. destruct M as [w2 [w3 [-> [M2 _]]]].
  apply Matches_star_cls in M1.
  apply (proj1 (Matches_plus_cls _ _ _)) in M2. destruct M2 as [c [t [-> [Hc _]]]].
  exists w1, c, (t ++ w3 ++ rest m). repeat split; try assumption.
  rewrite Es. now rewrite <- !app_assoc.
Qed.

Lemma split_keeps_prefix sep pre : ~ In sep pre -> forall s,
  exists h t, split sep (pre ++ s) = (pre ++ h) :: t.
Proof.
  induction pre as [|c pre IH]; intros Hnot s.
  - simpl. destruct (split_first sep s) as [h [t [-> _]]]. eauto.
  - simpl. destruct (c =? sep)%N eqn:E.
    + apply N.eqb_eq in E. exfalso. apply Hnot. now left.
    + destruct (IH (fun H => Hnot (or_intror H)) s) as [h [t ->]].
      now exists h, t.
Qed.

Lemma split_ws_nonempty s :
  (exists c, In c s /\ isspace c = false) -> split_ws s <> [].
Proof.
  induction s as [|c s IH]; intros [d [Hin Hd]]; [contradiction|].
  simpl. destruct (isspace c) eqn:Hc.
  - apply IH. destruct Hin as [->|Hin]; [congruence|eauto].
  - destruct s as [|e s]; [discriminate|].
    destruct (isspace e); [discriminate|].
    destruct (split_ws (e :: s)); discriminate.
Qed.

Lemma method_name_total s :
  found (re_match private_method_pattern s) = true ->
  exists name, method_name s = Ok name.
Proof.
  intros H. destruct (private_method_match_head _ H) as [ws [c [t [-> [Hws Hc]]]]].
  unfold method_name.
  destruct (split_keeps_prefix (ch "(") (ws ++ [c])) with (s := t) as [h [tl E]].
  { intros Hin. apply in_app_iff in Hin. destruct Hin as [Hin|[Hin|[]]].
    - now apply (blank_not_lparen ws).
    - now apply (is_word_not_lparen c). }
  rewrite <- app_assoc in E. change ([c] ++ t) with (c :: t) in E.
  rewrite E, getitem_first. unfold bind.
  destruct (getitem_last_nonempty (split_ws ((ws ++ [c]) ++ h))) as [name [Hn _]].
  - apply split_ws_nonempty. exists c. split; [|now apply is_word_not_space].
    apply in_app_iff. left. apply in_app_iff. right. now left.
  - eauto.
Qed.

Lemma method_called_false name line content :
  method_called name line content = false <->
  forall other, In other content -> other <> line ->
                contains (name ++ py "(") other = false.
Proof.
  unfold method_called. split.
  - intros H other Hin Hne.
    destruct (contains (name ++ py "(") other) eqn:E; [|reflexivity].
    rewrite <- H. symmetry. apply existsb_exists. exists other.
    split; [assumption|]. rewrite E. simpl. apply negb_true_iff.
    now apply str_eqb_neq.
  - intros H. apply not_true_is_false. intros Hex. apply existsb_exists in Hex.
    destruct Hex as [other [Hin Hc]]. apply andb_true_iff in Hc.
    destruct Hc as [Hc Hne]. apply negb_true_iff, str_eqb_neq in Hne.
    rewrite (H other Hin Hne) in Hc. discriminate.
Qed.

(** What the step emits on a matched line. *)
Lemma dead_code_issues_matched content i line name :
  found (re_match private_method_pattern (strip line)) = true ->
  method_name (strip line) = Ok name ->
  dead_code_issues content (i, line) =
  if method_called name line content then []
  else [mkCodeIssue (i + 1) (py "Dead Code")
          (dead_code_description name) (strip line)].
Proof.
  intros Hm Hn. unfold dead_code_issues, dead_code_step. rewrite Hm, Hn.
  unfold bind. now destruct (method_called name line content).
Qed.

Lemma dead_code_issues_unmatched content i line :
  found (re_match private_method_pattern (strip line)) = false ->
  dead_code_issues content (i, line) = [].
Proof.
  intros Hm. unfold dead_code_issues, dead_code_step. now rewrite Hm.
Qed.

(** The pass never raises: it returns, line by line, the issues of the
    lines. *)
Lemma _detect_dead_code_spec content :
  _detect_dead_code content =
  Ok (flat_map (dead_code_issues content) (enumerate content)).
Proof.
  unfold _detect_dead_code.
  rewrite for_each_appends with (g := dead_code_issues content); [reflexivity|].
  intros acc [i line] _. unfold dead_code_issues, dead_code_step.
  destruct (found (re_match private_method_pattern (strip line))) eqn:Hm.
  - destruct (method_name_total _ Hm) as [name ->]. unfold bind.
    destruct (method_called name line content); simpl;
      [now rewrite app_nil_r|reflexivity].
  - now rewrite app_nil_r.
Qed.

Lemma dead_code_issues_line content i line iss :
  In iss (dead_code_issues content (i, line)) -> line_number iss = i + 1.
Proof.
  destruct (found (re_match private_method_pattern (strip line))) eqn:Hm.
  - destruct (method_name_total _ Hm) as [name Hn].
    rewrite (dead_code_issues_matched content i line name Hm Hn).
    destruct (method_called name line content); [contradiction|].
    now intros [<-|[]].
  - now rewrite dead_code_issues_unmatched.
Qed.

Lemma enumerate_from_nodup {A} (xs : list A) : forall k,
  NoDup (enumerate_from k xs).
Proof.
  induction xs as [|x xs IH]; intros k; simpl; constructor; [|apply IH].
  intros H. apply in_enumerate_from in H. lia.
Qed.

Lemma dead_code_issues_short content il :
  (List.length (dead_code_issues content il) <= 1)%nat.
Proof.
  destruct il as [i line].
  destruct (found (re_match private_method_pattern (strip line))) eqn:Hm.
  - destruct (method_name_total _ Hm) as [name Hn].
    rewrite (dead_code_issues_matched content i line name Hm Hn).
    destruct (method_called name line content); simpl; lia.
  - rewrite dead_code_issues_unmatched by assumption. simpl. lia.
Qed.

Lemma NoDup_short {A} (l : list A) : (List.length l <= 1)%nat -> NoDup l.
Proof.
  destruct l as [|x [|y l]]; simpl; intros H.
  - constructor.
  - constructor; [intros []|constructor].
  - lia.
Qed.

Lemma split_at_first c pre rest :
  ~ In c pre -> split c (pre ++ c :: rest) = pre :: split c rest.
Proof.
  induction pre as [|d pre IH]; intros Hnot; simpl.
  - now rewrite N.eqb_refl.
  - destruct (d =? c)%N eqn:E.
    + apply N.eqb_eq in E. exfalso. apply Hnot. now left.
    + rewrite IH; [reflexivity|]. intros H. apply Hnot. now right.
Qed.

Lemma split_ws_blank s : blank s -> split_ws s = [].
Proof.
  induction 1 as [|c s Hc _ IH]; [reflexivity|]. simpl. now rewrite Hc.
Qed.

Lemma split_ws_skip_blank ws r : blank ws -> split_ws (ws ++ r) = split_ws r.
Proof.
  induction 1 as [|c ws Hc _ IH]; [reflexivity|]. simpl. now rewrite Hc.
Qed.

Lemma split_ws_token tok post :
  tok <> [] -> Forall (fun c => isspace c = false) tok -> blank post ->
  split_ws (tok ++ post) = [tok].
Proof.
  intros Hne Htok Hpost. induction Htok as [|c tok Hc Htok IH]; [congruence|].
  destruct tok as [|d tok].
  - simpl. rewrite Hc. destruct post as [|e post]; [reflexivity|].
    inversion Hpost as [|? ? He Hp]; subst. rewrite He.
    now rewrite (split_ws_blank (e :: post)) by assumption.
  - inversion Htok as [|? ? Hd _]; subst.
    change (split_ws ((c :: d :: tok) ++ post))
      with (if isspace c then split_ws ((d :: tok) ++ post)
            else if isspace d then [c] :: split_ws ((d :: tok) ++ post)
                 else match split_ws ((d :: tok) ++ post) with
                      | w :: ws => (c :: w) :: ws
                      | [] => [[c]]
                      end).
    rewrite Hc, Hd, IH by discriminate. reflexivity.
Qed.

Lemma split_ws_cons c t :
  split_ws (c :: t) =
  if isspace c then split_ws t
  else match t with
       | [] => [[c]]
       | d :: _ =>
           if isspace d then [c] :: split_ws t
           else match split_ws t with
                | w :: ws => (c :: w) :: ws
                | [] => [[c]]
                end
       end.
Proof. reflexivity. Qed.

(** Splitting at a white-space character splits the list of tokens. *)
Lemma split_ws_at_space pre sp r :
  isspace sp = true ->
  split_ws (pre ++ sp :: r) = split_ws pre ++ split_ws r.
Proof.
  intros Hsp. induction pre as [|c pre IH].
  - change ([] ++ sp :: r) with (sp :: r). now rewrite split_ws_cons, Hsp.
  - change ((c :: pre) ++ sp :: r) with (c :: (pre ++ sp :: r)).
    rewrite (split_ws_cons c (pre ++ sp :: r)), (split_ws_cons c pre).
    destruct (isspace c) eqn:Hc; [assumption|].
    destruct pre as [|d pre].
    + change ([] ++ sp :: r) with (sp :: r) in *. cbv beta iota.
      now rewrite Hsp, IH.
    + change ((d :: pre) ++ sp :: r) with (d :: (pre ++ sp :: r)) in *.
      cbv beta iota. destruct (isspace d) eqn:Hd.
      * now rewrite IH.
      * rewrite IH.
        destruct (split_ws (d :: pre)) as [|w ws] eqn:E; [|reflexivity].
        exfalso. apply (split_ws_nonempty (d :: pre)); [|assumption].
        exists d. split; [now left|assumption].
Qed.

Lemma is_alpha_is_word c : is_alpha c = true -> is_word c = true.
Proof. unfold is_word. intros ->. apply orb_true_r. Qed.

(** The text of a matched declaration: white space, a first word, white
    space, an underscore and letters, white space, and the parenthesis. *)
Lemma private_method_match_shape s :
  found (re_match private_method_pattern s) = true ->
  exists ws w1 sp1 sp letters ws2 tl,
    s = ws ++ w1 ++ (sp1 :: sp) ++ (ch "_" :: letters) ++ ws2 ++ ch "(" :: tl /\
    blank ws /\ Forall (fun c => is_word c = true) w1 /\
    isspace sp1 = true /\ blank sp /\
    letters <> [] /\ Forall (fun c => is_alpha c = true) letters /\ blank ws2.
Proof.
  unfold private_method_pattern. cbn [seq]. rewrite re_match_bol.
  destruct (re_match _ s) as [m|] eqn:Hm; [intros _|discriminate].
  apply re_match_sound in Hm. destruct Hm as [w [Es M]].
  apply Matches_cat_inv in M. destruct M as [ws [w' [-> [Mws M]]]].
  apply Matches_cat_inv in M. destruct M as [w1 [w'' [-> [M1 M]]]].
  apply Matches_cat_inv in M. destruct M as [sps [w3 [-> [Msp M]]]].
  apply Matches_cat_inv in M. destruct M as [us [w4 [-> [Mus M]]]].
  apply Matches_cat_inv in M. destruct M as [letters [w5 [-> [Ml M]]]].
  apply Matches_cat_inv in M. destruct M as [ws2 [w6 [-> [Mws2 M]]]].
  apply Matches_cat_inv in M. destruct M as [lp [w7 [-> [Mlp _]]]].
  apply Matches_star_cls in Mws, Mws2.
  apply (proj1 (Matches_plus_cls _ _ _)) in M1, Msp, Ml.
  destruct M1 as [c1 [t1 [-> [Hc1 Ht1]]]].
  destruct Msp as [sp1 [sp [-> [Hsp1 Hsp]]]].
  destruct Ml as [l1 [lt [-> [Hl1 Hlt]]]].
  apply Matches_chr in Mus, Mlp. subst us lp.
  exists ws, (c1 :: t1), sp1, sp, (l1 :: lt), ws2, (w7 ++ rest m).
  rewrite Es. repeat split; try assumption; try (now constructor); try discriminate.
  now rewrite <- !app_assoc.
Qed.

(** On a matched declaration the name is the token in front of the first
    parenthesis: white space before it, an underscore and letters, and
    nothing but white space between it and the parenthesis. *)
Lemma method_name_token s :
  found (re_match private_method_pattern s) = true ->
  exists before sp letters gap rest,
    s = before ++ sp :: (ch "_" :: letters) ++ gap ++ ch "(" :: rest /\
    ~ In (ch "(") before /\ isspace sp = true /\
    letters <> [] /\ Forall (fun c => is_alpha c = true) letters /\
    blank gap /\
    method_name s = Ok (ch "_" :: letters).
Proof.
  intros Hm. destruct (private_method_match_shape _ Hm)
    as [ws [w1 [sp1 [sp [letters [ws2 [tl [-> [Hws [Hw1 [Hsp1 [Hsp [Hne [Hl Hws2]]]]]]]]]]]]]].
  assert (Hsps : blank (sp1 :: sp)) by now constructor.
  destruct (exists_last (l := sp1 :: sp)) as [init [lst Esp]]; [discriminate|].
  rewrite Esp in *. clear Esp Hsp1 Hsp sp1 sp.
  apply Forall_app in Hsps. destruct Hsps as [Hinit Hlst].
  apply Forall_inv in Hlst.
  assert (Hbefore : ~ In (ch "(") (ws ++ w1 ++ init)).
  { intros Hin. repeat (apply in_app_iff in Hin; destruct Hin as [Hin|Hin]).
    - now apply (blank_not_lparen ws).
    - rewrite Forall_forall in Hw1. now apply (is_word_not_lparen _ (Hw1 _ Hin)).
    - now apply (blank_not_lparen init). }
  assert (Hnolp : ~ In (ch "(")
            ((ws ++ w1 ++ init) ++ lst :: (ch "_" :: letters) ++ ws2)).
  { intros Hin. apply in_app_iff in Hin. destruct Hin as [Hin|[Hin|Hin]].
    - now apply Hbefore.
    - subst lst. discriminate Hlst.
    - apply in_app_iff in Hin. destruct Hin as [[Hin|Hin]|Hin].
      + discriminate Hin.
      + rewrite Forall_forall in Hl.
        now apply (is_word_not_lparen _ (is_alpha_is_word _ (Hl _ Hin))).
      + now apply (blank_not_lparen ws2). }
  exists (ws ++ w1 ++ init), lst, letters, ws2, tl.
  assert (E : ws ++ w1 ++ (init ++ [lst]) ++ (ch "_" :: letters) ++ ws2 ++ ch "(" :: tl
              = (ws ++ w1 ++ init) ++ lst :: (ch "_" :: letters) ++ ws2 ++ ch "(" :: tl).
  { rewrite <- !app_assoc. reflexivity. }
  rewrite E. repeat split; try assumption.
  unfold method_name.
  replace ((ws ++ w1 ++ init) ++ lst :: (ch "_" :: letters) ++ ws2 ++ ch "(" :: tl)
    with (((ws ++ w1 ++ init) ++ lst :: (ch "_" :: letters) ++ ws2) ++ ch "(" :: tl)
    by (rewrite <- !app_assoc; simpl; now rewrite <- !app_assoc).
  rewrite (split_at_first _ _ tl Hnolp), getitem_first. unfold bind.
  rewrite (split_ws_at_space _ _ _ Hlst).
  rewrite (split_ws_token (ch "_" :: letters) ws2);
    [apply getitem_last|discriminate| |assumption].
  constructor; [reflexivity|].
  eapply Forall_impl; [|exact Hl]. intros c Hc.
  now apply is_word_not_space, is_alpha_is_word.
Qed.

(** C4.  For a line whose trimmed text matches the private-member shape, the
    member name is the token immediately before the first parenthesis: the
    trimmed text is some text without a parenthesis, a white-space character,
    the name (an underscore and letters), white space if any, and the
    parenthesis.  The Dead-Code pass returns an issue at that line's number
    exactly when no line of the file with a different raw text contains the
    name followed by an opening parenthesis.  That issue is the only one at
    that line. *)
Theorem dead_code_findings (content : list str) (k : nat) (line : str) :
  nth_error content k = Some line ->
  found (re_match private_method_pattern (strip line)) = true ->
  exists name out,
    (exists before sp letters gap rest,
       strip line = before ++ sp :: name ++ gap ++ ch "(" :: rest /\
       ~ In (ch "(") before /\ isspace sp = true /\
       name = ch "_" :: letters /\
       letters <> [] /\ Forall (fun c => is_alpha c = true) letters /\
       blank gap) /\
    method_name (strip line) = Ok name /\
    _detect_dead_code content = Ok out /\
    ((exists iss, In iss out /\ line_number iss = Z.of_nat k + 1) <->
     (forall other, In other content -> other <> line ->
                    contains (name ++ py "(") other = false)) /\
    (forall iss, In iss out -> line_number iss = Z.of_nat k + 1 ->
                 iss = mkCodeIssue (Z.of_nat k + 1) (py "Dead Code")
                         (py "Private method '" ++ name ++ py "' is never called")
                         (strip line)) /\
    NoDup (map line_number out).
Proof.
  intros Hk Hm.
  destruct (method_name_token _ Hm)
    as [before [sp [letters [gap [rest [Es [Hb [Hsp [Hne [Hl [Hgap Hn]]]]]]]]]]].
  pose proof (in_enumerate_nat _ _ _ Hk) as Hil.
  exists (ch "_" :: letters),
         (flat_map (dead_code_issues content) (enumerate content)).
  split; [exists before, sp, letters, gap, rest; auto 10|].
  remember (ch "_" :: letters) as name eqn:En. clear Es En.
  split; [assumption|]. split; [apply _detect_dead_code_spec|].
  assert (Hat : forall iss,
            In iss (flat_map (dead_code_issues content) (enumerate content)) ->
            line_number iss = Z.of_nat k + 1 ->
            In iss (dead_code_issues content (Z.of_nat k, line))).
  { intros iss Hin Hline. apply in_flat_map_iff in Hin.
    destruct Hin as [[i l] [Hil' Hin]].
    pose proof (dead_code_issues_line _ _ _ _ Hin) as E.
    assert (i = Z.of_nat k) by lia. subst i.
    now rewrite (in_enumerate_fun _ _ _ _ Hil Hil'). }
  rewrite (dead_code_issues_matched content (Z.of_nat k) line name Hm Hn) in Hat.
  split; [|split].
  - rewrite <- method_called_false. split.
    + intros [iss [Hin Hline]]. specialize (Hat iss Hin Hline).
      now destruct (method_called name line content).
    + intros Hc. eexists. split.
      * apply in_flat_map_iff. exists (Z.of_nat k, line). split; [assumption|].
        rewrite (dead_code_issues_matched content (Z.of_nat k) line name Hm Hn), Hc.
        now left.
      * reflexivity.
  - intros iss Hin Hline. specialize (Hat iss Hin Hline).
    destruct (method_called name line content); [contradiction|].
    now destruct Hat as [<-|[]].
  - rewrite map_flat_map. apply NoDup_flat_map.
    + apply enumerate_from_nodup.
    + intros il _. apply NoDup_short. rewrite length_map.
      apply dead_code_issues_short.
    + intros [i1 l1] [i2 l2] n H1 H2 Hn1 Hn2.
      apply in_map_iff in Hn1, Hn2.
      destruct Hn1 as [x1 [E1 Hx1]], Hn2 as [x2 [E2 Hx2]].
      apply dead_code_issues_line in Hx1, Hx2.
      assert (i2 = i1) by lia. subst i2.
      now rewrite (in_enumerate_fun _ _ _ _ H1 H2).
Qed.

Lemma dead_code_findings_witness :
  exists name out,
    (exists before sp letters gap rest,
       strip (ln "void _helper() {")
         = before ++ sp :: name ++ gap ++ ch "(" :: rest /\
       ~ In (ch "(") before /\ isspace sp = true /\
       name = ch "_" :: letters /\
       letters <> [] /\ Forall (fun c => is_alpha c = true) letters /\
       blank gap) /\
    method_name (strip (ln "void _helper() {")) = Ok name /\
    _detect_dead_code [ln "void _helper() {"; ln "}"] = Ok out /\
    ((exists iss, In iss out /\ line_number iss = Z.of_nat 0 + 1) <->
     (forall other, In other [ln "void _helper() {"; ln "}"] ->
                    other <> ln "void _helper() {" ->
                    contains (name ++ py "(") other = false)) /\
    (forall iss, In iss out -> line_number iss = Z.of_nat 0 + 1 ->
                 iss = mkCodeIssue (Z.of_nat 0 + 1) (py "Dead Code")
                         (py "Private method '" ++ name ++ py "' is never called")
                         (strip (ln "void _helper() {"))) /\
    NoDup (map line_number out).
Proof.
  apply (dead_code_findings [ln "void _helper() {"; ln "}"] 0%nat
           (ln "void _helper() {")).
  - reflexivity.
  - vm_compute. reflexivity.
Defined.

(** The two files of the specification's example: the declaration alone is
    reported, under the name [_helper]; with a call on another line it is
    not. *)
Example dead_code_helper_example :
  _detect_dead_code [ln "void _helper() {"; ln "}"]
    = Ok [mkCodeIssue 1 (py "Dead Code")
            (py "Private method '_helper' is never called")
            (py "void _helper() {")]
  /\ _detect_dead_code [ln "void _helper() {"; ln "}"; ln "  x = _helper(1);"]
     = Ok [].
Proof. split; vm_compute; reflexivity. Qed.

(** ** Potential bugs *)

Lemma Matches_null_check w :
  Matches null_check_pattern w <->
  exists a b, w = py "!" ++ a ++ py "=" ++ b ++ py "null" /\ blank a /\ blank b.
Proof.
  unfold null_check_pattern. cbn [seq].
  rewrite Matches_cat. split.
  - intros [w1 [w' [-> [M1 M]]]]. apply Matches_chr in M1. subst w1.
    apply Matches_cat in M. destruct M as [a [w'' [-> [Ma M]]]].
    apply Matches_star_cls in Ma.
    apply Matches_cat in M. destruct M as [w3 [w4 [-> [M3 M]]]].
    apply Matches_chr in M3. subst w3.
    apply Matches_cat in M. destruct M as [b [w5 [-> [Mb M5]]]].
    apply Matches_star_cls in Mb. apply Matches_lit in M5. subst w5.
    now exists a, b.
  - intros [a [b [-> [Ha Hb]]]]. exists (py "!"), (a ++ py "=" ++ b ++ py "null").
    split; [reflexivity|]. split; [now apply Matches_chr|].
    constructor; [now apply Matches_star_cls|].
    constructor; [now apply Matches_chr|].
    constructor; [now apply Matches_star_cls|now apply Matches_lit].
Qed.

Lemma Matches_empty_catch w :
  Matches empty_catch_pattern w <->
  exists a args b c,
    w = py "catch" ++ a ++ py "(" ++ args ++ py ")" ++ b ++ py "{" ++ c ++ py "}" /\
    blank a /\ ~ In (ch ")") args /\ blank b /\ blank c.
Proof.
  assert (Hargs : forall args,
            Forall (fun c => negb (c =? 41)%N = true) args <-> ~ In (ch ")") args).
  { intros args. rewrite Forall_forall. split.
    - intros H Hin. apply H in Hin. vm_compute in Hin. discriminate.
    - intros H c Hin. apply negb_true_iff, N.eqb_neq. intros ->. now apply H. }
  unfold empty_catch_pattern. cbn [seq]. rewrite Matches_cat. split.
  - intros [w1 [w' [-> [M1 M]]]]. apply Matches_lit in M1. subst w1.
    apply Matches_cat in M. destruct M as [a [w'' [-> [Ma M]]]].
    apply Matches_star_cls in Ma.
    apply Matches_cat in M. destruct M as [w3 [w4 [-> [M3 M]]]].
    apply Matches_chr in M3. subst w3.
    apply Matches_cat in M. destruct M as [args [w5 [-> [Margs M]]]].
    apply Matches_star_cls, Hargs in Margs.
    apply Matches_cat in M. destruct M as [w6 [w7 [-> [M6 M]]]].
    apply Matches_chr in M6. subst w6.
    apply Matches_cat in M. destruct M as [b [w8 [-> [Mb M]]]].
    apply Matches_star_cls in Mb.
    apply Matches_cat in M. destruct M as [w9 [w10 [-> [M9 M]]]].
    apply Matches_chr in M9. subst w9.
    apply Matches_cat in M. destruct M as [c [w11 [-> [Mc M]]]].
    apply Matches_star_cls in Mc. apply Matches_chr in M. subst w11.
    exists a, args, b, c. split; [reflexivity|auto].
  - intros [a [args [b [c [-> [Ha [Hargs' [Hb Hc]]]]]]]].
    exists (py "catch"), (a ++ py "(" ++ args ++ py ")" ++ b ++ py "{" ++ c ++ py "}").
    split; [reflexivity|]. split; [now apply Matches_lit|].
    constructor; [now apply Matches_star_cls|].
    constructor; [now apply Matches_chr|].
    constructor; [now apply Matches_star_cls, Hargs|].
    constructor; [now apply Matches_chr|].
    constructor; [now apply Matches_star_cls|].
    constructor; [now apply Matches_chr|].
    constructor; [now apply Matches_star_cls|now apply Matches_chr].
Qed.

Lemma contains_char c s : contains [c] s = true <-> In c s.
Proof.
  rewrite contains_spec. split.
  - intros [pre [post ->]]. apply in_app_iff. right. now left.
  - intros H. apply in_split in H. destruct H as [pre [post ->]]. now exists pre, post.
Qed.

Lemma null_check_fires_spec s :
  null_check_fires s = true <-> null_check_shape s /\ ~ In (ch "?") s.
Proof.
  unfold null_check_fires.
  rewrite andb_true_iff, negb_true_iff, re_search_spec by reflexivity.
  assert (H1 : (exists pre w post, s = pre ++ w ++ post /\ Matches null_check_pattern w)
               <-> null_check_shape s).
  { unfold null_check_shape. split.
    - intros [pre [w [post [-> M]]]]. apply Matches_null_check in M.
      destruct M as [a [b [-> [Ha Hb]]]]. exists pre, a, b, post.
      rewrite <- !app_assoc. auto.
    - intros [pre [a [b [post [-> [Ha Hb]]]]]].
      exists pre, (py "!" ++ a ++ py "=" ++ b ++ py "null"), post.
      split; [now rewrite <- !app_assoc|]. apply Matches_null_check. eauto. }
  assert (H2 : contains (py "?") s = false <-> ~ In (ch "?") s).
  { rewrite <- (contains_char (ch "?") s). change [ch "?"] with (py "?").
    destruct (contains (py "?") s); split; intros; congruence. }
  tauto.
Qed.

Lemma empty_catch_fires_spec s :
  empty_catch_fires s = true <-> empty_catch_shape s.
Proof.
  unfold empty_catch_fires, empty_catch_shape.
  rewrite re_search_spec by reflexivity. split.
  - intros [pre [w [post [-> M]]]]. apply Matches_empty_catch in M.
    destruct M as [a [args [b [c [-> H]]]]]. exists pre, a, args, b, c, post.
    rewrite <- !app_assoc. auto.
  - intros [pre [a [args [b [c [post [-> H]]]]]]].
    exists pre,
      (py "catch" ++ a ++ py "(" ++ args ++ py ")" ++ b ++ py "{" ++ c ++ py "}"),
      post.
    split; [now rewrite <- !app_assoc|]. apply Matches_empty_catch. eauto 10.
Qed.

Lemma potential_bug_issues_eq i line :
  potential_bug_issues (i, line) =
  (if null_check_fires (strip line)
   then [mkCodeIssue (i + 1) (py "Potential Bug") null_check_description (strip line)]
   else [])
  ++ (if empty_catch_fires (strip line)
      then [mkCodeIssue (i + 1) (py "Potential Bug") empty_catch_description (strip line)]
      else []).
Proof.
  unfold potential_bug_issues, potential_bug_step.
  destruct (null_check_fires (strip line)), (empty_catch_fires (strip line));
    reflexivity.
Qed.

Lemma _detect_potential_bugs_spec content :
  _detect_potential_bugs content =
  flat_map potential_bug_issues (enumerate content).
Proof.
  unfold _detect_potential_bugs.
  rewrite fold_left_appends with (f := potential_bug_issues); [reflexivity|].
  intros acc [i line]. rewrite potential_bug_issues_eq. unfold potential_bug_step.
  destruct (null_check_fires (strip line)), (empty_catch_fires (strip line));
    simpl; rewrite <- ?app_assoc, ?app_nil_r; reflexivity.
Qed.

Lemma potential_bug_issues_line i line iss :
  In iss (potential_bug_issues (i, line)) -> line_number iss = i + 1.
Proof.
  rewrite potential_bug_issues_eq. intros H. apply in_app_iff in H.
  destruct (null_check_fires (strip line)), (empty_catch_fires (strip line));
    simpl in H; intuition; subst; reflexivity.
Qed.

Lemma filter_none {A} (p : A -> bool) (l : list A) :
  (forall x, In x l -> p x = false) -> filter p l = [].
Proof.
  induction l as [|x l IH]; intros H; simpl; [reflexivity|].
  rewrite (H x) by now left. apply IH. intros; apply H; now right.
Qed.

Lemma filter_all {A} (p : A -> bool) (l : list A) :
  (forall x, In x l -> p x = true) -> filter p l = l.
Proof.
  induction l as [|x l IH]; intros H; simpl; [reflexivity|].
  rewrite (H x) by now left. f_equal. apply IH. intros; apply H; now right.
Qed.

(** The issues at one line number, among those a line-by-line pass emits, are
    the issues of that line. *)
Lemma filter_line_flat_map (g : Z * str -> list CodeIssue) :
  (forall i l iss, In iss (g (i, l)) -> line_number iss = i + 1) ->
  forall xs j k line,
    nth_error xs k = Some line ->
    filter (fun iss => line_number iss =? j + Z.of_nat k + 1)
           (flat_map g (enumerate_from j xs))
    = g (j + Z.of_nat k, line).
Proof.
  intros Hg. induction xs as [|x xs IH]; intros j k line Hk.
  - now destruct k.
  - simpl. rewrite filter_app. destruct k as [|k]; simpl in Hk.
    + inversion Hk; subst x. rewrite Z.add_0_r.
      rewrite filter_all, filter_none; [apply app_nil_r| |].
      * intros iss Hin. apply in_flat_map_iff in Hin.
        destruct Hin as [[i l] [Hil Hin]]. apply Hg in Hin.
        apply in_enumerate_from in Hil. apply Z.eqb_neq. lia.
      * intros iss Hin. apply Hg in Hin. apply Z.eqb_eq. lia.
    + rewrite filter_none.
      * replace (j + Z.of_nat (S k)) with (j + 1 + Z.of_nat k) by lia.
        now apply IH.
      * intros iss Hin. apply Hg in Hin. apply Z.eqb_neq. lia.
Qed.

(** C5.  On every line the Potential-Bug pass makes two checks that do not
    depend on each other, so that the issues at a line number are the
    null-check issue, if that check fires, followed by the empty-catch issue,
    if that one fires.  The null check fires exactly when the trimmed text
    holds [!], [=] and [null] separated by white space only and has no [?]
    anywhere; the empty-catch check fires exactly when the trimmed text holds
    [catch], a parenthesised list and a pair of braces, with white space only
    between them and between the braces. *)
Theorem potential_bug_findings (content : list str) (k : nat) (line : str) :
  nth_error content k = Some line ->
  filter (fun iss => line_number iss =? Z.of_nat k + 1)
         (_detect_potential_bugs content)
  = (if null_check_fires (strip line)
     then [mkCodeIssue (Z.of_nat k + 1) (py "Potential Bug")
             (py "Null check without null-aware operator (?.)") (strip line)]
     else [])
    ++ (if empty_catch_fires (strip line)
        then [mkCodeIssue (Z.of_nat k + 1) (py "Potential Bug")
                (py "Empty catch block - exceptions should be handled properly")
                (strip line)]
        else [])
  /\ (null_check_fires (strip line) = true <->
      null_check_shape (strip line) /\ ~ In (ch "?") (strip line))
  /\ (empty_catch_fires (strip line) = true <->
      empty_catch_shape (strip line)).
Proof.
  intros Hk. split; [|split].
  - rewrite _detect_potential_bugs_spec. unfold enumerate.
    pose proof (filter_line_flat_map potential_bug_issues potential_bug_issues_line
                  content 0 k line Hk) as H.
    rewrite Z.add_0_l in H. rewrite H.
    apply potential_bug_issues_eq.
  - apply null_check_fires_spec.
  - apply empty_catch_fires_spec.
Qed.

Lemma potential_bug_findings_witness :
  filter (fun iss => line_number iss =? Z.of_nat 1 + 1)
         (_detect_potential_bugs
            [ln "try { run(); }"; ln "  catch (e) {  }"; ln "if (value != null) {"])
  = (if null_check_fires (strip (ln "  catch (e) {  }"))
     then [mkCodeIssue (Z.of_nat 1 + 1) (py "Potential Bug")
             (py "Null check without null-aware operator (?.)")
             (strip (ln "  catch (e) {  }"))]
     else [])
    ++ (if empty_catch_fires (strip (ln "  catch (e) {  }"))
        then [mkCodeIssue (Z.of_nat 1 + 1) (py "Potential Bug")
                (py "Empty catch block - exceptions should be handled properly")
                (strip (ln "  catch (e) {  }"))]
        else [])
  /\ (null_check_fires (strip (ln "  catch (e) {  }")) = true <->
      null_check_shape (strip (ln "  catch (e) {  }")) /\
      ~ In (ch "?") (strip (ln "  catch (e) {  }")))
  /\ (empty_catch_fires (strip (ln "  catch (e) {  }")) = true <->
      empty_catch_shape (strip (ln "  catch (e) {  }"))).
Proof.
  apply (potential_bug_findings
           [ln "try { run(); }"; ln "  catch (e) {  }"; ln "if (value != null) {"]
           1%nat (ln "  catch (e) {  }")).
  reflexivity.
Defined.

(** The three lines of the specification's example, and a line on which both
    checks fire. *)
Example potential_bug_examples :
  _detect_potential_bugs [ln "if (value != null) {"]
    = [mkCodeIssue 1 (py "Potential Bug")
         (py "Null check without null-aware operator (?.)")
         (py "if (value != null) {")]
  /\ _detect_potential_bugs [ln "if (value?.x != null)"] = []
  /\ _detect_potential_bugs [ln "catch (e) {  }"]
     = [mkCodeIssue 1 (py "Potential Bug")
          (py "Empty catch block - exceptions should be handled properly")
          (py "catch (e) {  }")]
  /\ List.length
       (_detect_potential_bugs [ln "if (a != null) try { } catch (e) { }"]) = 2%nat.
Proof. repeat split; vm_compute; reflexivity. Qed.

(** ** Every issue belongs to its file *)

Lemma enumerate_line_bound {A} (xs : list A) i x :
  In (i, x) (enumerate xs) -> 1 <= i + 1 <= len xs.
Proof. intros H. apply in_enumerate_bound in H. lia. Qed.

Lemma duplicate_code_of_file content file_path :
  Forall (issue_of_file content) (_detect_duplicate_code content file_path).
Proof.
  rewrite duplicate_code_groups. apply Forall_forall. intros iss Hin.
  apply in_flat_map_iff in Hin. destruct Hin as [[code lines] [Hb Hin]].
  apply collect_blocks_spec in Hb. destruct Hb as [-> _].
  unfold group_issues in Hin. destruct (_ && _); [|contradiction].
  apply in_map_iff in Hin. destruct Hin as [n [<- Hn]]. simpl in Hn.
  apply in_positions in Hn. destruct Hn as [i [line [Hil [_ [_ ->]]]]].
  split; [now apply (enumerate_line_bound content i line)|now left].
Qed.

Lemma unused_imports_of_file content :
  exists issues, _detect_unused_imports content = Ok issues /\
                 Forall (issue_of_file content) issues.
Proof.
  destruct (_detect_unused_imports_spec content) as [issues [H Hall]].
  exists issues. split; [assumption|]. eapply Forall_impl; [|exact Hall].
  intros iss [i [line [m [path [name [Hil [_ [_ [_ [_ ->]]]]]]]]]].
  split; [now apply (enumerate_line_bound content i line)|right; now left].
Qed.

Lemma long_methods_of_file content :
  exists issues, _detect_long_methods content = Ok issues /\
                 Forall (issue_of_file content) issues.
Proof.
  destruct (_detect_long_methods_spec content) as [issues [H Hall]].
  exists issues. split; [assumption|]. eapply Forall_impl; [|exact Hall].
  intros iss [start [close [first [_ [Hil [_ [_ ->]]]]]]].
  split; [|right; right; now left]. simpl.
  apply enumerate_line_bound in Hil. lia.
Qed.

Lemma dead_code_of_file content :
  exists issues, _detect_dead_code content = Ok issues /\
                 Forall (issue_of_file content) issues.
Proof.
  eexists. split; [apply _detect_dead_code_spec|].
  apply Forall_forall. intros iss Hin. apply in_flat_map_iff in Hin.
  destruct Hin as [[i line] [Hil Hin]].
  destruct (found (re_match private_method_pattern (strip line))) eqn:Hm.
  - destruct (method_name_total _ Hm) as [name Hn].
    rewrite (dead_code_issues_matched content i line name Hm Hn) in Hin.
    destruct (method_called name line content); [contradiction|].
    destruct Hin as [<-|[]].
    split; [now apply (enumerate_line_bound content i line)|].
    right; right; right; now left.
  - now rewrite dead_code_issues_unmatched in Hin.
Qed.

Lemma potential_bugs_of_file content :
  Forall (issue_of_file content) (_detect_potential_bugs content).
Proof.
  rewrite _detect_potential_bugs_spec. apply Forall_forall. intros iss Hin.
  apply in_flat_map_iff in Hin. destruct Hin as [[i line] [Hil Hin]].
  pose proof (enumerate_line_bound content i line Hil) as Hb.
  rewrite potential_bug_issues_eq in Hin.
  assert (E : line_number iss = i + 1 /\ issue_type iss = py "Potential Bug").
  { apply in_app_iff in Hin.
    destruct Hin as [Hin|Hin];
      [destruct (null_check_fires (strip line))
      |destruct (empty_catch_fires (strip line))];
      try contradiction; destruct Hin as [<-|[]]; auto. }
  destruct E as [E1 E2]. split; [now rewrite E1|].
  rewrite E2. right; right; right; right; now left.
Qed.

(** The five passes never raise, and all their issues belong to the file. *)
Lemma detect_all_of_file content file_path :
  exists issues, detect_all content file_path = Ok issues /\
                 Forall (issue_of_file content) issues.
Proof.
  unfold detect_all.
  destruct (unused_imports_of_file content) as [u [-> Hu]].
  destruct (long_methods_of_file content) as [l [-> Hl]].
  destruct (dead_code_of_file content) as [d [-> Hd]].
  unfold bind. eexists. split; [reflexivity|].
  repeat (apply Forall_app; split); try assumption.
  - apply duplicate_code_of_file.
  - apply potential_bugs_of_file.
Qed.

(** ** Metrics *)

Lemma count_key_last t : exists body, count_key t = body ++ py "_count".
Proof. unfold count_key. eauto. Qed.

(** No count entry takes the place of one of the four size entries. *)
Lemma count_key_not_base t :
  count_key t <> py "total_lines" /\ count_key t <> py "code_lines" /\
  count_key t <> py "comment_lines" /\ count_key t <> py "comment_density".
Proof.
  destruct (count_key_last t) as [body ->].
  repeat split; intros H; apply (f_equal (@rev char)) in H;
    rewrite rev_app_distr in H; discriminate H.
Qed.

Lemma add_issue_counts_other k : forall counts m,
  (forall c v, In (c, v) counts -> count_key c <> k) ->
  dict_get k (add_issue_counts counts m) = dict_get k m.
Proof.
  unfold add_issue_counts.
  induction counts as [|[c v] counts IH]; intros m H; simpl; [reflexivity|].
  rewrite IH by (intros; eapply H; right; eauto).
  apply dict_get_set_neq. apply (H c v). now left.
Qed.

Lemma code_lines_nonneg content : 0 <= code_lines content.
Proof. unfold code_lines, len. lia. Qed.

(** The metrics mapping: the four size entries, then the counts. *)
Lemma _calculate_metrics_eq content issues :
  _calculate_metrics content issues =
  Ok (add_issue_counts (count_issues issues)
        [(py "total_lines", Int (len content));
         (py "code_lines", Int (code_lines content));
         (py "comment_lines", Int (comment_lines content));
         (py "comment_density",
          if code_lines content =? 0 then Int 0
          else Float (PrimFloat.mul
                        (PrimFloat.div (float_of_int (comment_lines content))
                                       (float_of_int (code_lines content)))
                        (float_of_int 100)))]).
Proof.
  unfold _calculate_metrics, comment_density, truediv.
  destruct (code_lines content =? 0); reflexivity.
Qed.

(** C6.  The metrics are computed without error for every file and every
    list of issues, so the division is never reached with a zero divisor; the
    entry [comment_density] is the integer 0 when there is no code line, and
    the float [comment_lines / code_lines * 100] otherwise. *)
Theorem comment_density_metric (content : list str) (issues : list CodeIssue) :
  exists metrics,
    _calculate_metrics content issues = Ok metrics /\
    0 <= code_lines content /\
    dict_get (py "comment_density") metrics =
    Some (if code_lines content =? 0 then Int 0
          else Float (PrimFloat.mul
                        (PrimFloat.div (float_of_int (comment_lines content))
                                       (float_of_int (code_lines content)))
                        (float_of_int 100))).
Proof.
  rewrite _calculate_metrics_eq. eexists. split; [reflexivity|].
  split; [apply code_lines_nonneg|].
  rewrite add_issue_counts_other; [reflexivity|].
  intros c v _. apply count_key_not_base.
Qed.

Example comment_density_examples :
  (m <- _calculate_metrics [ln "// note"; ln "x = 1;"; ln ""] [] ;;
   Ok (dict_get (py "comment_density") m)) = Ok (Some (Float 100%float))
  /\ (m <- _calculate_metrics [ln "// note"; ln ""] [] ;;
      Ok (dict_get (py "comment_density") m)) = Ok (Some (Int 0)).
Proof. split; vm_compute; reflexivity. Qed.

Lemma analyze_file_of_file content file_path :
  exists fa,
    analyze_file content file_path = Ok fa /\
    detect_all content file_path = Ok (issues fa) /\
    _calculate_metrics content (issues fa) = Ok (metrics fa) /\
    Forall (issue_of_file content) (issues fa).
Proof.
  unfold analyze_file.
  destruct (detect_all_of_file content file_path) as [iss [Hd Hall]].
  rewrite Hd. unfold bind. rewrite _calculate_metrics_eq.
  eexists. split; [reflexivity|]. cbn [issues metrics].
  split; [reflexivity|]. split; [apply _calculate_metrics_eq|assumption].
Qed.

(** ** The project *)

Lemma total_lines_metric content issues metrics :
  _calculate_metrics content issues = Ok metrics ->
  dict_get (py "total_lines") metrics = Some (Int (len content)).
Proof.
  rewrite _calculate_metrics_eq. intros H. inversion H.
  rewrite add_issue_counts_other; [reflexivity|].
  intros c v _. apply count_key_not_base.
Qed.

(** C7.  When the files of the project can be read, the analysis returns a
    result, and in it every issue of every file has a line number between 1
    and the number of lines of that file, which is the file's [total_lines]
    metric. *)
Theorem finding_lines_within_file (fs : filesystem) (file_paths : list str) :
  (forall p, In p file_paths -> exists content, fs p = Ok content) ->
  exists results,
    analyze_flutter_project fs file_paths = Ok results /\
    forall p fa,
      dict_get p results = Some fa ->
      exists content,
        fs p = Ok content /\
        dict_get (py "total_lines") (metrics fa) = Some (Int (len content)) /\
        forall iss, In iss (issues fa) -> 1 <= line_number iss <= len content.
Proof.
  intros Hfs. unfold analyze_flutter_project.
  apply for_each_invariant.
  - intros p fa H. discriminate.
  - intros results file_path Hin Hres.
    destruct (Hfs _ Hin) as [content Hc].
    destruct (analyze_file_of_file content file_path) as [fa [Hfa [_ [Hm Hall]]]].
    rewrite Hc. unfold bind. rewrite Hfa. eexists. split; [reflexivity|].
    intros p fa' Hget.
    destruct (list_eq_dec N.eq_dec file_path p) as [<-|Hne].
    + rewrite dict_get_set_eq in Hget. inversion Hget; subst fa'.
      exists content. split; [assumption|].
      split; [eapply total_lines_metric; eauto|].
      intros iss Hiss. rewrite Forall_forall in Hall. now apply Hall.
    + rewrite dict_get_set_neq in Hget by assumption. now apply Hres.
Qed.

Lemma finding_lines_within_file_witness :
  exists results,
    analyze_flutter_project
      (fun p => if Str.eqb p (py "lib/main.dart")
                then Ok [ln "import 'dart:io';"; ln "void _unused() {"; ln "}"]
                else Raise OSError)
      [py "lib/main.dart"] = Ok results /\
    forall p fa,
      dict_get p results = Some fa ->
      exists content,
        (if Str.eqb p (py "lib/main.dart")
         then Ok [ln "import 'dart:io';"; ln "void _unused() {"; ln "}"]
         else Raise OSError) = Ok content /\
        dict_get (py "total_lines") (metrics fa) = Some (Int (len content)) /\
        forall iss, In iss (issues fa) -> 1 <= line_number iss <= len content.
Proof.
  apply (finding_lines_within_file
           (fun p => if Str.eqb p (py "lib/main.dart")
                     then Ok [ln "import 'dart:io';"; ln "void _unused() {"; ln "}"]
                     else Raise OSError)
           [py "lib/main.dart"]).
  intros p [<-|[]]. eexists. reflexivity.
Defined.

Example analyze_project_example :
  (results <- analyze_flutter_project
                (fun p => if Str.eqb p (py "lib/main.dart")
                          then Ok [ln "import 'dart:io';"; ln "void _unused() {"; ln "}"]
                          else Raise OSError)
                [py "lib/main.dart"] ;;
   Ok (map (fun kv => map line_number (issues (snd kv))) results))
  = Ok [[1; 2]].
Proof. vm_compute. reflexivity. Qed.

(** ** Counting the issues by category *)

Lemma issues_of_type_cons t iss issues :
  issues_of_type t (iss :: issues) =
  (if Str.eqb (issue_type iss) t then 1 else 0) + issues_of_type t issues.
Proof.
  unfold issues_of_type, Str.eqb. simpl.
  destruct (list_eq_dec N.eq_dec (issue_type iss) t); lia.
Qed.

Lemma count_step_get t d iss :
  dict_get_default 0 t (count_step d iss) =
  dict_get_default 0 t d + (if Str.eqb (issue_type iss) t then 1 else 0).
Proof.
  unfold count_step, dict_get_default.
  destruct (Str.eqb (issue_type iss) t) eqn:E.
  - apply str_eqb_eq in E. subst t. now rewrite dict_get_set_eq.
  - apply str_eqb_neq in E. rewrite dict_get_set_neq by assumption. lia.
Qed.

Lemma count_fold t : forall issues d,
  dict_get_default 0 t (fold_left count_step issues d) =
  dict_get_default 0 t d + issues_of_type t issues.
Proof.
  intros issues. induction issues as [|iss issues IH]; intros d; cbn [fold_left].
  - unfold issues_of_type. simpl. lia.
  - rewrite IH, count_step_get, issues_of_type_cons. lia.
Qed.

Lemma count_fold_keys : forall issues d,
  NoDup (map fst d) ->
  NoDup (map fst (fold_left count_step issues d)) /\
  forall t, In t (map fst (fold_left count_step issues d)) <->
            In t (map fst d) \/ In t (map issue_type issues).
Proof.
  intros issues. induction issues as [|iss issues IH]; intros d Hnd; cbn [fold_left].
  - split; [assumption|]. simpl. tauto.
  - destruct (IH (count_step d iss)) as [H1 H2].
    { now apply dict_set_nodup. }
    split; [assumption|]. intros t. rewrite H2. unfold count_step.
    rewrite dict_set_keys. simpl.
    destruct (dict_get (issue_type iss) d) eqn:E.
    + apply dict_get_in in E. apply (in_map fst) in E. simpl in E.
      split; [tauto|]. intros [H|[<-|H]]; auto.
    + rewrite in_app_iff. simpl. tauto.
Qed.

(** The counting loop: one entry per category present, holding the number of
    issues of that category. *)
Lemma count_issues_spec issues :
  NoDup (map fst (count_issues issues)) /\
  (forall t, In t (map fst (count_issues issues)) <->
             In t (map issue_type issues)) /\
  (forall t v, In (t, v) (count_issues issues) -> v = issues_of_type t issues).
Proof.
  unfold count_issues.
  destruct (count_fold_keys issues []) as [H1 H2]; [constructor|].
  split; [assumption|]. split.
  - intros t. rewrite H2. simpl. tauto.
  - intros t v Hin. apply dict_in_get in Hin; [|assumption].
    pose proof (count_fold t issues []) as H. unfold dict_get_default in H.
    rewrite Hin in H. simpl in H. assumption.
Qed.

Lemma zsum_map_add {A} (f g : A -> Z) (l : list A) :
  zsum (map (fun x => f x + g x) l) = zsum (map f l) + zsum (map g l).
Proof. induction l as [|x l IH]; simpl; lia. Qed.

Lemma zsum_map_ext {A} (f g : A -> Z) (l : list A) :
  (forall x, In x l -> f x = g x) -> zsum (map f l) = zsum (map g l).
Proof.
  induction l as [|x l IH]; intros H; simpl; [reflexivity|].
  rewrite (H x) by now left. rewrite IH; [reflexivity|].
  intros; apply H; now right.
Qed.

Lemma zsum_indicator (x : str) (l : list str) :
  NoDup l ->
  zsum (map (fun c => if Str.eqb x c then 1 else 0) l) =
  if in_dec (list_eq_dec N.eq_dec) x l then 1 else 0.
Proof.
  induction 1 as [|y l Hy Hnd IH]; simpl; [reflexivity|].
  rewrite IH. destruct (list_eq_dec N.eq_dec y x) as [->|Hne].
  - rewrite str_eqb_refl.
    destruct (in_dec (list_eq_dec N.eq_dec) x l); [contradiction|reflexivity].
  - assert (E : Str.eqb x y = false) by (apply str_eqb_neq; congruence).
    rewrite E. now destruct (in_dec (list_eq_dec N.eq_dec) x l).
Qed.

(** Summed over the distinct categories, the numbers of issues per category
    give the number of issues. *)
Lemma issues_of_type_sum issues :
  zsum (map (fun t => issues_of_type t issues) (present_categories issues)) =
  len issues.
Proof.
  unfold present_categories, len.
  induction issues as [|iss issues IH]; [reflexivity|].
  rewrite (zsum_map_ext _ (fun t => (if Str.eqb (issue_type iss) t then 1 else 0)
                                    + issues_of_type t issues))
    by (intros; apply issues_of_type_cons).
  rewrite zsum_map_add. simpl map. simpl nodup.
  destruct (in_dec (list_eq_dec N.eq_dec) (issue_type iss) (map issue_type issues))
    as [Hin|Hnot].
  - rewrite IH, zsum_indicator by apply NoDup_nodup.
    destruct (in_dec _ _ _) as [_|Hn]; [simpl List.length; lia|].
    exfalso. apply Hn. now apply nodup_In.
  - simpl. rewrite str_eqb_refl, IH, zsum_indicator by apply NoDup_nodup.
    destruct (in_dec _ _ _) as [Hy|_]; [exfalso; apply Hnot; now apply nodup_In in Hy|].
    assert (E : issues_of_type (issue_type iss) issues = 0).
    { unfold issues_of_type. rewrite (proj1 (count_occ_not_In _ _ _) Hnot). reflexivity. }
    rewrite E. lia.
Qed.

(** The five issue types have five different metric keys. *)
Lemma count_key_injective a b :
  In a issue_types -> In b issue_types -> count_key a = count_key b -> a = b.
Proof.
  unfold issue_types. simpl.
  intros [<-|[<-|[<-|[<-|[<-|[]]]]]] [<-|[<-|[<-|[<-|[<-|[]]]]]] H;
    try reflexivity; vm_compute in H; discriminate H.
Qed.

Lemma add_issue_counts_get : forall counts m c v,
  NoDup (map fst counts) ->
  (forall a, In a (map fst counts) -> In a issue_types) ->
  In (c, v) counts ->
  dict_get (count_key c) (add_issue_counts counts m) = Some (Int v).
Proof.
  unfold add_issue_counts.
  induction counts as [|[c0 v0] counts IH]; intros m c v Hnd Hty Hin;
    [contradiction|].
  simpl in Hnd. inversion Hnd as [|? ? Hc0 Hnd']; subst.
  cbn [fold_left add_count_step]. destruct Hin as [Hin|Hin].
  - inversion Hin; subst c0 v0.
    fold (add_issue_counts counts (dict_set (count_key c) (Int v) m)).
    rewrite add_issue_counts_other; [apply dict_get_set_eq|].
    intros c' v' Hin' E. apply Hc0.
    assert (c' = c).
    { apply count_key_injective; [| |assumption].
      - apply Hty. right. change c' with (fst (c', v')). now apply in_map.
      - apply Hty. now left. }
    subst c'. change c with (fst (c, v')). now apply in_map.
  - apply IH; [assumption| |assumption]. intros a Ha. apply Hty. now right.
Qed.

Lemma dict_set_new_length {V} k (v : V) (d : dict V) :
  dict_get k d = None ->
  map fst (dict_set k v d) = map fst d ++ [k].
Proof. intros H. rewrite dict_set_keys. now rewrite H. Qed.

Lemma add_issue_counts_keys : forall counts m,
  NoDup (map fst m ++ map count_key (map fst counts)) ->
  map fst (add_issue_counts counts m) =
  map fst m ++ map count_key (map fst counts).
Proof.
  unfold add_issue_counts.
  induction counts as [|[c v] counts IH]; intros m Hnd; cbn [fold_left add_count_step].
  - simpl. now rewrite app_nil_r.
  - simpl map in *.
    assert (Hnew : dict_get (count_key c) m = None).
    { apply dict_get_none. intros Hin. apply NoDup_remove_2 in Hnd.
      apply Hnd. apply in_or_app. now left. }
    rewrite IH; rewrite (dict_set_new_length _ _ _ Hnew), <- app_assoc;
      [reflexivity|assumption].
Qed.

Lemma NoDup_map_on {A B} (f : A -> B) (l : list A) :
  (forall a b, In a l -> In b l -> f a = f b -> a = b) ->
  NoDup l -> NoDup (map f l).
Proof.
  intros Hinj. induction 1 as [|x l Hx Hnd IH]; simpl; constructor.
  - intros Hin. apply in_map_iff in Hin. destruct Hin as [y [E Hy]].
    apply Hx. assert (y = x) by (apply Hinj; [now right|now left|assumption]).
    now subst.
  - apply IH. intros a b Ha Hb. apply Hinj; now right.
Qed.

(** The issues of the passes are of the five types. *)
Lemma issue_types_of_file content issues :
  Forall (issue_of_file content) issues ->
  forall t, In t (map issue_type issues) -> In t issue_types.
Proof.
  intros Hall t Hin. apply in_map_iff in Hin. destruct Hin as [iss [<- Hiss]].
  rewrite Forall_forall in Hall. now apply Hall.
Qed.

Lemma sum_category_counts_eq metrics (f : str -> Z) cats :
  (forall c, In c cats -> category_count metrics c = Some (f c)) ->
  sum_category_counts metrics cats = Some (zsum (map f cats)).
Proof.
  induction cats as [|c cats IH]; intros H; simpl; [reflexivity|].
  rewrite (H c) by now left. rewrite IH; [reflexivity|].
  intros; apply H; now right.
Qed.

Lemma add_issue_counts_key_set k : forall counts m,
  In k (map fst (add_issue_counts counts m)) <->
  In k (map fst m) \/ In k (map count_key (map fst counts)).
Proof.
  unfold add_issue_counts.
  induction counts as [|[c v] counts IH]; intros m; cbn [fold_left add_count_step].
  - simpl. tauto.
  - rewrite IH, dict_set_keys. simpl map.
    destruct (dict_get (count_key c) m) eqn:E.
    + apply dict_get_in in E. apply (in_map fst) in E. simpl in E.
      simpl. split; [tauto|]. intros [H|[<-|H]]; auto.
    + rewrite in_app_iff. simpl. tauto.
Qed.

(** Summed over a list of categories that holds every category present, the
    numbers of issues per category give the number of issues. *)
Lemma issues_of_type_sum_over (cats : list str) : forall issues,
  NoDup cats ->
  (forall t, In t (map issue_type issues) -> In t cats) ->
  zsum (map (fun t => issues_of_type t issues) cats) = len issues.
Proof.
  intros issues. induction issues as [|iss issues IH]; intros Hnd Hin.
  - unfold issues_of_type, len. simpl. clear. induction cats; simpl; auto.
  - rewrite (zsum_map_ext _ (fun t => (if Str.eqb (issue_type iss) t then 1 else 0)
                                      + issues_of_type t issues))
      by (intros; apply issues_of_type_cons).
    rewrite zsum_map_add, zsum_indicator by assumption.
    rewrite IH; [|assumption|intros t Ht; apply Hin; now right].
    destruct (in_dec _ _ _) as [_|Hn].
    + unfold len. simpl List.length. lia.
    + exfalso. apply Hn, Hin. now left.
Qed.

(** The count entry of one of the five categories: there when the category
    has an issue, and then the number of its issues. *)
Lemma category_entry content issues metrics cat :
  Forall (issue_of_file content) issues ->
  _calculate_metrics content issues = Ok metrics ->
  In cat issue_types ->
  dict_get (count_key cat) metrics =
  if issues_of_type cat issues =? 0 then None
  else Some (Int (issues_of_type cat issues)).
Proof.
  intros Hall Hm Hcat. rewrite _calculate_metrics_eq in Hm. injection Hm as <-.
  destruct (count_issues_spec issues) as [Hnd [Hkeys Hvals]].
  pose proof (issue_types_of_file content issues Hall) as Hty.
  destruct (in_dec (list_eq_dec N.eq_dec) cat (map issue_type issues)) as [Hin|Hnot].
  - assert (Hpos : issues_of_type cat issues > 0).
    { unfold issues_of_type.
      apply (count_occ_In (list_eq_dec N.eq_dec)) in Hin. lia. }
    destruct (Z.eqb_spec (issues_of_type cat issues) 0) as [E|_]; [lia|].
    apply Hkeys, in_map_iff in Hin. destruct Hin as [[c v] [E Hin]].
    simpl in E. subst c. rewrite <- (Hvals cat v Hin).
    apply add_issue_counts_get; try assumption.
    intros a Ha. now apply Hty, Hkeys.
  - assert (E : issues_of_type cat issues = 0).
    { unfold issues_of_type.
      rewrite (proj1 (count_occ_not_In _ _ _) Hnot). reflexivity. }
    rewrite E. cbn [Z.eqb]. apply dict_get_none.
    rewrite add_issue_counts_key_set. intros [Hbase|Hcount].
    + destruct (count_key_not_base cat) as [H1 [H2 [H3 H4]]].
      simpl in Hbase. intuition congruence.
    + apply in_map_iff in Hcount. destruct Hcount as [t [Et Ht]].
      apply Hkeys in Ht. apply Hnot.
      now rewrite <- (count_key_injective t cat (Hty t Ht) Hcat Et).
Qed.

Lemma entry_value n :
  match (if n =? 0 then None else Some (Int n)) with
  | Some (Int v) => v
  | _ => 0
  end = n.
Proof. destruct (Z.eqb_spec n 0); congruence. Qed.

(** C8.  For every file the metrics hold, besides the four size entries, one
    count entry per distinct category among the file's issues, under the key
    made of the category in lower case with underscores and the suffix
    [_count]: [duplication_count], [unused_import_count], [long_method_count],
    [dead_code_count] and [potential_bug_count], each there when its category
    has an issue and then the number of the issues of that category.  The
    metrics hold no other key, and the sum of the count entries is the number
    of issues of the file. *)
Theorem category_counts_sum (content : list str) (file_path : str) :
  exists fa,
    analyze_file content file_path = Ok fa /\
    (forall cat key,
       In (cat, key)
          [(py "Duplication", py "duplication_count");
           (py "Unused Import", py "unused_import_count");
           (py "Long Method", py "long_method_count");
           (py "Dead Code", py "dead_code_count");
           (py "Potential Bug", py "potential_bug_count")] ->
       dict_get key (metrics fa) =
       if issues_of_type cat (issues fa) =? 0 then None
       else Some (Int (issues_of_type cat (issues fa)))) /\
    (forall key v,
       dict_get key (metrics fa) = Some v ->
       In key [py "total_lines"; py "code_lines"; py "comment_lines";
               py "comment_density";
               py "duplication_count"; py "unused_import_count";
               py "long_method_count"; py "dead_code_count";
               py "potential_bug_count"]) /\
    zsum (map (fun key => match dict_get key (metrics fa) with
                          | Some (Int n) => n
                          | _ => 0
                          end)
              [py "duplication_count"; py "unused_import_count";
               py "long_method_count"; py "dead_code_count";
               py "potential_bug_count"])
      = len (issues fa) /\
    sum_category_counts (metrics fa) (present_categories (issues fa))
      = Some (len (issues fa)) /\
    len (metrics fa) = 4 + len (present_categories (issues fa)).
Proof.
  destruct (analyze_file_of_file content file_path) as [fa [Hfa [_ [Hm Hall]]]].
  exists fa. split; [assumption|].
  pose proof (category_entry content (issues fa) (metrics fa)) as Hentry.
  specialize (fun cat => Hentry cat Hall Hm).
  assert (Hlit : forall cat key,
            In (cat, key)
               [(py "Duplication", py "duplication_count");
                (py "Unused Import", py "unused_import_count");
                (py "Long Method", py "long_method_count");
                (py "Dead Code", py "dead_code_count");
                (py "Potential Bug", py "potential_bug_count")] ->
            In cat issue_types /\ key = count_key cat).
  { intros cat key Hin. simpl in Hin.
    destruct Hin as [E|[E|[E|[E|[E|[]]]]]]; injection E as <- <-;
      (split; [unfold issue_types; simpl; tauto|vm_compute; reflexivity]). }
  assert (Hfive : forall cat key,
            In (cat, key)
               [(py "Duplication", py "duplication_count");
                (py "Unused Import", py "unused_import_count");
                (py "Long Method", py "long_method_count");
                (py "Dead Code", py "dead_code_count");
                (py "Potential Bug", py "potential_bug_count")] ->
            dict_get key (metrics fa) =
            if issues_of_type cat (issues fa) =? 0 then None
            else Some (Int (issues_of_type cat (issues fa)))).
  { intros cat key Hin. destruct (Hlit cat key Hin) as [Hcat ->].
    now apply Hentry. }
  assert (Hsum :
            zsum (map (fun key => match dict_get key (metrics fa) with
                                  | Some (Int n) => n
                                  | _ => 0
                                  end)
                      [py "duplication_count"; py "unused_import_count";
                       py "long_method_count"; py "dead_code_count";
                       py "potential_bug_count"])
            = len (issues fa)).
  { cbn [map].
    rewrite (Hfive (py "Duplication") (py "duplication_count")) by (simpl; tauto).
    rewrite (Hfive (py "Unused Import") (py "unused_import_count")) by (simpl; tauto).
    rewrite (Hfive (py "Long Method") (py "long_method_count")) by (simpl; tauto).
    rewrite (Hfive (py "Dead Code") (py "dead_code_count")) by (simpl; tauto).
    rewrite (Hfive (py "Potential Bug") (py "potential_bug_count")) by (simpl; tauto).
    rewrite !entry_value.
    rewrite <- (issues_of_type_sum_over issue_types (issues fa)).
    - reflexivity.
    - unfold issue_types. repeat constructor; simpl; intuition discriminate.
    - apply (issue_types_of_file content (issues fa) Hall).
  }
  destruct (count_issues_spec (issues fa)) as [Hnd [Hkeys Hvals]].
  assert (Hty : forall a, In a (map fst (count_issues (issues fa))) ->
                          In a issue_types).
  { intros a Ha. apply (issue_types_of_file content (issues fa) Hall).
    now apply Hkeys. }
  assert (Honly : forall key v,
            dict_get key (metrics fa) = Some v ->
            In key [py "total_lines"; py "code_lines"; py "comment_lines";
                    py "comment_density";
                    py "duplication_count"; py "unused_import_count";
                    py "long_method_count"; py "dead_code_count";
                    py "potential_bug_count"]).
  { intros key v Hget. pose proof Hm as Em.
    rewrite _calculate_metrics_eq in Em. injection Em as Em.
    rewrite <- Em in Hget. apply dict_get_in, (in_map fst) in Hget.
    cbn [fst] in Hget. apply add_issue_counts_key_set in Hget.
    destruct Hget as [Hbase|Hcount].
    - cbn [map fst] in Hbase. simpl In in *. tauto.
    - apply in_map_iff in Hcount. destruct Hcount as [t [<- Ht]].
      apply Hty in Ht. unfold issue_types in Ht. simpl in Ht.
      destruct Ht as [<-|[<-|[<-|[<-|[<-|[]]]]]]; vm_compute; tauto. }
  split; [exact Hfive|]. split; [exact Honly|]. split; [exact Hsum|].
  clear Hentry Hlit Hfive Honly Hsum.
  rewrite _calculate_metrics_eq in Hm. inversion Hm as [Em]. clear Hm.
  split.
  - rewrite <- issues_of_type_sum. apply sum_category_counts_eq.
    intros c Hc. unfold present_categories in Hc. apply nodup_In, Hkeys in Hc.
    apply in_map_iff in Hc. destruct Hc as [[c' v] [E Hin]]. simpl in E. subst c'.
    unfold category_count.
    rewrite (add_issue_counts_get _ _ c v Hnd Hty Hin).
    now rewrite (Hvals c v Hin).
  - unfold len. rewrite <- (length_map fst), add_issue_counts_keys.
    + rewrite length_app, !length_map. simpl List.length.
      assert (P : Permutation (map fst (count_issues (issues fa)))
                              (present_categories (issues fa))).
      { apply NoDup_Permutation; [assumption|apply NoDup_nodup|].
        intros t. rewrite Hkeys. unfold present_categories.
        now rewrite nodup_In. }
      apply Permutation_length in P. rewrite length_map in P. lia.
    + apply NoDup_app.
      * simpl. repeat constructor; simpl; intuition discriminate.
      * apply NoDup_map_on; [|assumption].
        intros a b Ha Hb. apply count_key_injective; auto.
      * intros k Hbase Hcount. apply in_map_iff in Hcount.
        destruct Hcount as [t [<- _]].
        destruct (count_key_not_base t) as [H1 [H2 [H3 H4]]].
        simpl in Hbase. intuition congruence.
Qed.

Example category_counts_example :
  (fa <- analyze_file
           [ln "import 'dart:io';"; ln "void _unused() {"; ln "}";
            ln "if (x != null) { }"; ln "catch (e) { }"]
           (py "lib/main.dart") ;;
   Ok (map (category_count (metrics fa))
         [py "Unused Import"; py "Dead Code"; py "Potential Bug"],
       len (issues fa)))
  = Ok ([Some 1; Some 1; Some 2], 4).
Proof. vm_compute. reflexivity. Qed.

(** * Further properties *)

(** ** Unused imports: the issues, exactly *)

Lemma flat_map_flat_map {A B C} (f : A -> list B) (g : B -> list C) (l : list A) :
  flat_map g (flat_map f l) = flat_map (fun x => flat_map g (f x)) l.
Proof.
  induction l as [|x l IH]; simpl; [reflexivity|].
  now rewrite flat_map_app, IH.
Qed.

Lemma collect_imports_flat_map content :
  collect_imports content =
  flat_map (fun il : Z * str =>
              match re_match import_pattern (strip (snd il)) with
              | Some m => [(fst il + 1, group 1 m)]
              | None => []
              end)
           (enumerate content).
Proof.
  unfold collect_imports. rewrite fold_left_appends with
    (f := fun il : Z * str =>
            match re_match import_pattern (strip (snd il)) with
            | Some m => [(fst il + 1, group 1 m)]
            | None => []
            end); [reflexivity|].
  intros acc [i line]. simpl.
  destruct (re_match import_pattern (strip line)); [reflexivity|].
  now rewrite app_nil_r.
Qed.

(** On an import that was collected, the step appends what it emits from
    nothing. *)
Lemma unused_import_step_appends content acc i line m :
  In (i, line) (enumerate content) ->
  re_match import_pattern (strip line) = Some m ->
  exists path name,
    group 1 m = Some path /\ import_name path = Ok name /\
    unused_import_step content acc (i + 1, group 1 m) =
    Ok (acc ++ if import_used name content then []
               else [mkCodeIssue (i + 1) (py "Unused Import")
                       (py "Unused import: " ++ path) (strip line)]).
Proof.
  intros Hil Hm.
  destruct (import_match _ _ Hm) as [sp [q1 [path [q2 [_ [Hg _]]]]]].
  destruct (import_name_total path) as [name Hname].
  exists path, name. split; [assumption|]. split; [assumption|].
  unfold unused_import_step. rewrite Hg, Hname. unfold bind at 1.
  destruct (import_used name content); cbn [negb].
  - now rewrite app_nil_r.
  - replace (i + 1 - 1) with i by lia.
    now rewrite (getitem_enumerate _ _ _ Hil).
Qed.

Lemma unused_import_issues_eq content i line m :
  In (i, line) (enumerate content) ->
  re_match import_pattern (strip line) = Some m ->
  exists path name,
    group 1 m = Some path /\ import_name path = Ok name /\
    unused_import_issues content (i, line) =
    if import_used name content then []
    else [mkCodeIssue (i + 1) (py "Unused Import")
            (py "Unused import: " ++ path) (strip line)].
Proof.
  intros Hil Hm.
  destruct (unused_import_step_appends content [] i line m Hil Hm)
    as [path [name [Hg [Hn Hstep]]]].
  exists path, name. split; [assumption|]. split; [assumption|].
  unfold unused_import_issues. simpl fst. simpl snd. now rewrite Hm, Hstep.
Qed.

Lemma _detect_unused_imports_flat_map content :
  _detect_unused_imports content =
  Ok (flat_map (unused_import_issues content) (enumerate content)).
Proof.
  change (_detect_unused_imports content)
    with (for_each (collect_imports content) (unused_import_step content) []).
  rewrite for_each_appends with
    (g := fun e => match unused_import_step content [] e with
                   | Ok l => l
                   | Raise _ => []
                   end).
  - rewrite collect_imports_flat_map, flat_map_flat_map. simpl. f_equal.
    apply flat_map_ext_on. intros [i line] Hil. unfold unused_import_issues.
    simpl fst. simpl snd.
    destruct (re_match import_pattern (strip line)); simpl; [|reflexivity].
    now rewrite app_nil_r.
  - intros acc [n o] Hin. apply collect_imports_spec in Hin.
    destruct Hin as [i [line [m [Hil [Hm [-> ->]]]]]].
    destruct (unused_import_step_appends content acc i line m Hil Hm)
      as [path [name [Hg [Hn ->]]]].
    destruct (unused_import_step_appends content [] i line m Hil Hm)
      as [path' [name' [Hg' [Hn' ->]]]].
    assert (path' = path) by congruence. subst path'.
    assert (name' = name) by congruence. subst name'.
    reflexivity.
Qed.

Lemma unused_import_issues_line content i line iss :
  In (i, line) (enumerate content) ->
  In iss (unused_import_issues content (i, line)) -> line_number iss = i + 1.
Proof.
  intros Hil Hin.
  destruct (re_match import_pattern (strip line)) as [m|] eqn:Hm.
  - destruct (unused_import_issues_eq content i line m Hil Hm)
      as [path [name [_ [_ E]]]].
    rewrite E in Hin. destruct (import_used name content); [contradiction|].
    now destruct Hin as [<-|[]].
  - unfold unused_import_issues in Hin. simpl snd in Hin. now rewrite Hm in Hin.
Qed.

Lemma unused_import_issues_short content i line :
  In (i, line) (enumerate content) ->
  (List.length (unused_import_issues content (i, line)) <= 1)%nat.
Proof.
  intros Hil.
  destruct (re_match import_pattern (strip line)) as [m|] eqn:Hm.
  - destruct (unused_import_issues_eq content i line m Hil Hm)
      as [path [name [_ [_ ->]]]].
    destruct (import_used name content); simpl; lia.
  - unfold unused_import_issues. simpl snd. rewrite Hm. simpl. lia.
Qed.

(** X1.  The Unused-Import pass never raises, and its issues are exactly
    these: for every line whose trimmed text matches the import pattern, with
    the quoted path as group 1 and the name derived from the path, one issue
    at that line when neither the name followed by a dot nor a space, the
    name and an opening parenthesis occurs in any line of the file.  No line
    gets two issues. *)
Theorem unused_import_findings (content : list str) :
  exists out,
    _detect_unused_imports content = Ok out /\
    (forall iss,
       In iss out <->
       exists (k : nat) (line : str) (m : mstate) (path name : str),
         nth_error content k = Some line /\
         re_match import_pattern (strip line) = Some m /\
         group 1 m = Some path /\
         import_name path = Ok name /\
         (forall other, In other content ->
            contains (name ++ py ".") other = false /\
            contains (py " " ++ name ++ py "(") other = false) /\
         iss = mkCodeIssue (Z.of_nat k + 1) (py "Unused Import")
                 (py "Unused import: " ++ path) (strip line)) /\
    NoDup (map line_number out).
Proof.
  exists (flat_map (unused_import_issues content) (enumerate content)).
  split; [apply _detect_unused_imports_flat_map|].
  assert (Hused : forall name,
            import_used name content = false <->
            forall other, In other content ->
              contains (name ++ py ".") other = false /\
              contains (py " " ++ name ++ py "(") other = false).
  { intros name. unfold import_used. split.
    - intros H other Hin. apply orb_false_iff.
      destruct (contains (name ++ py ".") other
                || contains (py " " ++ name ++ py "(") other) eqn:E;
        [|reflexivity].
      rewrite <- H. symmetry. apply existsb_exists. eauto.
    - intros H. apply not_true_is_false. intros Hex.
      apply existsb_exists in Hex. destruct Hex as [other [Hin Hc]].
      destruct (H other Hin) as [H1 H2]. rewrite H1, H2 in Hc. discriminate. }
  split.
  - intros iss. rewrite in_flat_map_iff. split.
    + intros [[i line] [Hil Hin]].
      destruct (re_match import_pattern (strip line)) as [m|] eqn:Hm.
      * destruct (unused_import_issues_eq content i line m Hil Hm)
          as [path [name [Hg [Hn E]]]].
        rewrite E in Hin.
        destruct (import_used name content) eqn:Hu; [contradiction|].
        destruct Hin as [<-|[]]. apply in_enumerate in Hil.
        destruct Hil as [Hi Hnth].
        exists (Z.to_nat i), line, m, path, name.
        rewrite Z2Nat.id by assumption.
        repeat split; try assumption; now apply Hused.
      * unfold unused_import_issues in Hin. simpl snd in Hin.
        now rewrite Hm in Hin.
    + intros [k [line [m [path [name [Hk [Hm [Hg [Hn [Hu ->]]]]]]]]]].
      pose proof (in_enumerate_nat _ _ _ Hk) as Hil.
      exists (Z.of_nat k, line). split; [assumption|].
      destruct (unused_import_issues_eq content _ line m Hil Hm)
        as [path' [name' [Hg' [Hn' E]]]].
      assert (path' = path) by congruence. subst path'.
      assert (name' = name) by congruence. subst name'.
      rewrite E. apply Hused in Hu. rewrite Hu. now left.
  - rewrite map_flat_map. apply NoDup_flat_map.
    + apply enumerate_from_nodup.
    + intros [i line] Hil. apply NoDup_short. rewrite length_map.
      now apply unused_import_issues_short.
    + intros [i1 l1] [i2 l2] n H1 H2 Hn1 Hn2.
      apply in_map_iff in Hn1, Hn2.
      destruct Hn1 as [x1 [E1 Hx1]], Hn2 as [x2 [E2 Hx2]].
      apply (unused_import_issues_line content i1 l1 x1 H1) in Hx1.
      apply (unused_import_issues_line content i2 l2 x2 H2) in Hx2.
      assert (i2 = i1) by lia. subst i2.
      now rewrite (in_enumerate_fun _ _ _ _ H1 H2).
Qed.

(** An import of a library without a file extension is reported when nothing
    on any line uses its name. *)
Example unused_import_dart_io_example :
  _detect_unused_imports [ln "import 'dart:io';"; ln "void main() {}"]
  = Ok [mkCodeIssue 1 (py "Unused Import") (py "Unused import: dart:io")
          (py "import 'dart:io';")].
Proof. vm_compute. reflexivity. Qed.

(** ** Long methods: what is reported *)

Lemma long_method_issue_shape content iss :
  long_method_issue content iss ->
  exists (k : nat) (sig : str) (n : Z),
    nth_error content k = Some sig /\
    found (re_match method_pattern (strip sig)) = true /\
    brace_delta (strip sig) > 0 /\
    20 < n /\ Z.of_nat k + 1 + n <= len content /\
    iss = mkCodeIssue (Z.of_nat k + 1) (py "Long Method")
            (py "Method is too long (" ++ of_int n ++ py " lines)") (strip sig).
Proof.
  intros [start [close [first [[sig [Hil [Hm Hd]]] [Hfirst [Hclose [Hlen ->]]]]]]].
  pose proof (in_enumerate_fun _ _ _ _ Hil Hfirst). subst first.
  apply in_enumerate in Hil. destruct Hil as [H0 Hnth].
  exists (Z.to_nat (start - 1)), sig, (method_length (close - 1) start).
  rewrite Z2Nat.id by assumption. replace (start - 1 + 1) with start by lia.
  unfold method_length in *. repeat split; try assumption; lia.
Qed.

(** X2.  The Long-Method pass never raises, and every issue it returns is
    anchored at a line that matches the signature pattern and has more
    opening than closing braces; the length in its description is more than
    20, and the line that many lines further down is still in the file. *)
Theorem long_method_findings_shape (content : list str) :
  exists out,
    _detect_long_methods content = Ok out /\
    forall iss, In iss out ->
      exists (k : nat) (sig : str) (n : Z),
        nth_error content k = Some sig /\
        found (re_match method_pattern (strip sig)) = true /\
        brace_delta (strip sig) > 0 /\
        20 < n /\ Z.of_nat k + 1 + n <= len content /\
        iss = mkCodeIssue (Z.of_nat k + 1) (py "Long Method")
                (py "Method is too long (" ++ of_int n ++ py " lines)")
                (strip sig).
Proof.
  destruct (_detect_long_methods_spec content) as [out [Hout Hall]].
  exists out. split; [assumption|]. intros iss Hin.
  rewrite Forall_forall in Hall. now apply long_method_issue_shape, Hall.
Qed.

(** X3.  A file of at most 21 lines has no Long-Method issue, whatever it
    holds. *)
Theorem short_file_has_no_long_method (content : list str) :
  len content <= 21 -> _detect_long_methods content = Ok [].
Proof.
  intros Hlen. destruct (_detect_long_methods_spec content) as [out [Hout Hall]].
  rewrite Hout. f_equal. destruct out as [|iss out]; [reflexivity|].
  exfalso. inversion Hall as [|? ? Hiss _]; subst.
  apply long_method_issue_shape in Hiss.
  destruct Hiss as [k [sig [n [_ [_ [_ [Hn [Hb _]]]]]]]]. lia.
Qed.

Lemma short_file_has_no_long_method_witness :
  _detect_long_methods
    (ln "void run() {" :: repeat (ln "  step();") 19 ++ [ln "}"]) = Ok [].
Proof.
  apply (short_file_has_no_long_method
           (ln "void run() {" :: repeat (ln "  step();") 19 ++ [ln "}"])).
  vm_compute. discriminate.
Defined.

(** ** Long methods: the order of the issues *)

Lemma StronglySorted_snoc {A} (R : A -> A -> Prop) (l : list A) (x : A) :
  StronglySorted R l -> Forall (fun a => R a x) l -> StronglySorted R (l ++ [x]).
Proof.
  induction 1 as [|a l Hl IH Ha]; intros Hx; simpl.
  - repeat constructor.
  - inversion Hx; subst. constructor; [now apply IH|].
    apply Forall_app. split; [assumption|now constructor].
Qed.

Lemma StronglySorted_impl {A} (R S : A -> A -> Prop) (l : list A) :
  (forall a b, R a b -> S a b) -> StronglySorted R l -> StronglySorted S l.
Proof.
  intros H. induction 1 as [|a l _ IH Ha]; constructor; [assumption|].
  eapply Forall_impl; [|exact Ha]. intros b. apply H.
Qed.

Lemma long_method_scan_invariant content (I : Z -> scan -> Prop) :
  (forall i line s, In (i, line) (enumerate content) -> I i s ->
     exists s', long_method_step content s (i, line) = Ok s' /\ I (i + 1) s') ->
  forall suffix prefix s,
    content = prefix ++ suffix -> I (len prefix) s ->
    exists s', long_method_scan content (enumerate_from (len prefix) suffix) s
               = Ok s' /\ I (len content) s'.
Proof.
  intros Hstep. unfold long_method_scan.
  induction suffix as [|line suffix IH]; intros prefix s E Hinv.
  - simpl. exists s. split; [reflexivity|]. rewrite app_nil_r in E. now subst.
  - cbn [enumerate_from for_each].
    assert (Hil : In (len prefix, line) (enumerate content)).
    { apply in_enumerate. unfold len. split; [lia|].
      rewrite Nat2Z.id, E, nth_error_app2, Nat.sub_diag by lia. reflexivity. }
    destruct (Hstep _ _ _ Hil Hinv) as [s1 [-> H1]]. unfold bind.
    replace (len prefix + 1) with (len (prefix ++ [line])) in *
      by (unfold len; rewrite length_app; simpl; lia).
    apply (IH (prefix ++ [line]) s1); [|assumption].
    rewrite E. now rewrite <- app_assoc.
Qed.

Lemma closed_by_mono k k' iss : k <= k' -> closed_by k iss -> closed_by k' iss.
Proof. intros Hle [n [Hd [Hn Hk]]]. exists n. repeat split; try assumption; lia. Qed.

Lemma long_method_step_order content s i line :
  In (i, line) (enumerate content) ->
  long_method_inv content i s /\ long_method_order i s ->
  exists s', long_method_step content s (i, line) = Ok s' /\
             long_method_inv content (i + 1) s' /\ long_method_order (i + 1) s'.
Proof.
  intros Hil [Hinv [Hsorted [Hbelow Hstart]]].
  destruct (long_method_step_inv content s i line Hil Hinv) as [s' [Hs' Hinv']].
  exists s'. split; [assumption|]. split; [assumption|].
  assert (Hclose : forall issues start bc first,
            getitem content (start - 1) = Ok first ->
            start <= i + 1 ->
            StronglySorted apart issues ->
            (forall iss, In iss issues -> closed_by (start - 1) iss) ->
            (forall iss, In iss issues -> closed_by i iss) ->
            long_method_order (i + 1)
              (mkScan
                 (if method_length i start >? 20
                  then issues ++ [mkCodeIssue start (py "Long Method")
                                    (long_method_description (method_length i start))
                                    (strip first)]
                  else issues) None bc)).
  { intros issues start bc first _ Hle Hs Hst Hb. unfold long_method_order.
    cbn [scan_issues method_start].
    destruct (method_length i start >? 20) eqn:Hlen.
    - unfold method_length in Hlen. split; [|split; [|discriminate]].
      + apply StronglySorted_snoc; [assumption|].
        apply Forall_forall. intros iss Hin. unfold apart. simpl. now apply Hst.
      + intros iss Hin. apply in_app_iff in Hin. destruct Hin as [Hin|[<-|[]]].
        * eapply closed_by_mono; [|exact (Hb iss Hin)]. lia.
        * exists (method_length i start). unfold method_length. simpl.
          repeat split; lia.
    - split; [assumption|]. split; [|discriminate].
      intros iss Hin. eapply closed_by_mono; [|exact (Hb iss Hin)]. lia. }
  destruct s as [issues [start|] bc]; cbn [method_start scan_issues] in *.
  - destruct (Hstart start eq_refl) as [Hle Habove].
    destruct Hinv as [Hopen _]. destruct (Hopen start eq_refl) as [_ [first [Hfirst _]]].
    destruct (Z_le_gt_dec (bc + brace_delta (strip line)) 0) as [Hc|Hc].
    + rewrite (long_method_step_close content issues start bc i line first Hc
                 (getitem_enumerate _ _ _ Hfirst)) in Hs'.
      inversion Hs'; subst s'.
      apply Hclose with (first := first); auto;
        [now apply getitem_enumerate|lia].
    + rewrite long_method_step_open in Hs' by lia. inversion Hs'; subst s'.
      split; [assumption|]. cbn [scan_issues method_start]. split.
      * intros iss Hin. eapply closed_by_mono; [|exact (Hbelow iss Hin)]. lia.
      * intros st E. inversion E; subst st. split; [lia|assumption].
  - rewrite long_method_step_idle in Hs'.
    destruct (found (re_match method_pattern (strip line))) eqn:Hm.
    + assert (Hline : getitem content (i + 1 - 1) = Ok line).
      { replace (i + 1 - 1) with i by lia. now apply getitem_enumerate. }
      destruct (Z_le_gt_dec (0 + brace_delta (strip line)) 0) as [Hc|Hc].
      * rewrite (long_method_step_close content issues (i + 1) 0 i line line Hc Hline)
          in Hs'.
        inversion Hs'; subst s'.
        apply Hclose with (first := line); auto; try lia.
        intros iss Hin. eapply closed_by_mono; [|exact (Hbelow iss Hin)]. lia.
      * rewrite long_method_step_open in Hs' by lia. inversion Hs'; subst s'.
        split; [assumption|]. cbn [scan_issues method_start]. split.
        -- intros iss Hin. eapply closed_by_mono; [|exact (Hbelow iss Hin)]. lia.
        -- intros st E. inversion E; subst st. split; [lia|].
           intros iss Hin. eapply closed_by_mono; [|exact (Hbelow iss Hin)]. lia.
    + inversion Hs'; subst s'. split; [assumption|].
      cbn [scan_issues method_start]. split; [|discriminate].
      intros iss Hin. eapply closed_by_mono; [|exact (Hbelow iss Hin)]. lia.
Qed.

(** X4.  The issues of the Long-Method pass come in the order of the file
    and their methods do not overlap: an issue anchored at line [s] whose
    description gives the length [n] is of a method that the loop closed on
    line [s + n], and every later issue is anchored below that line.  While a
    method is tracked no other one is started, so a method that starts inside
    the lines of a reported one is never reported too. *)
Theorem long_method_findings_apart (content : list str) :
  exists out,
    _detect_long_methods content = Ok out /\
    StronglySorted
      (fun a b =>
         exists n,
           description a = py "Method is too long (" ++ of_int n ++ py " lines)" /\
           20 < n /\ line_number a + n < line_number b)
      out.
Proof.
  unfold _detect_long_methods, enumerate.
  destruct (long_method_scan_invariant content
              (fun k s => long_method_inv content k s /\ long_method_order k s)
              (fun i line s => long_method_step_order content s i line)
              content [] (mkScan [] None 0) eq_refl)
    as [s [Hs [_ [Hsorted _]]]].
  - split; [split; [discriminate|constructor]|].
    split; [constructor|]. split; [intros iss []|discriminate].
  - change (len []) with 0 in Hs. rewrite Hs. unfold bind.
    exists (scan_issues s). split; [reflexivity|].
    eapply StronglySorted_impl; [|exact Hsorted].
    intros a b [n [Hd [Hn Hk]]]. exists n. repeat split; try assumption. lia.
Qed.

(** ** Long methods: where a method closes *)

Lemma for_each_app {A S} (body : S -> A -> result S) (xs ys : list A) (s : S) :
  for_each (xs ++ ys) body s = (s' <- for_each xs body s ;; for_each ys body s').
Proof.
  revert s. induction xs as [|x xs IH]; intros s; simpl; [reflexivity|].
  destruct (body s x); simpl; [apply IH|reflexivity].
Qed.

Lemma enumerate_from_app {A} (xs ys : list A) (k : Z) :
  enumerate_from k (xs ++ ys) =
  enumerate_from k xs ++ enumerate_from (k + len xs) ys.
Proof.
  revert k. induction xs as [|x xs IH]; intros k; simpl.
  - unfold len. simpl. now rewrite Z.add_0_r.
  - rewrite IH. do 3 f_equal. unfold len. simpl List.length. lia.
Qed.

Lemma running_braces_cons line lines :
  running_braces (line :: lines) = brace_delta (strip line) + running_braces lines.
Proof. reflexivity. Qed.

Lemma running_braces_app xs ys :
  running_braces (xs ++ ys) = running_braces xs + running_braces ys.
Proof.
  induction xs as [|x xs IH]; [reflexivity|].
  simpl app. rewrite !running_braces_cons, IH. lia.
Qed.

(** While the counter stays positive, tracking goes on and nothing is
    reported. *)
Lemma long_method_scan_tracking content start issues : forall body i bc,
  (forall n, (1 <= n <= List.length body)%nat ->
             0 < bc + running_braces (firstn n body)) ->
  long_method_scan content (enumerate_from i body) (mkScan issues (Some start) bc)
  = Ok (mkScan issues (Some start) (bc + running_braces body)).
Proof.
  unfold long_method_scan.
  induction body as [|line body IH]; intros i bc Hpos.
  - simpl. unfold running_braces. simpl. now rewrite Z.add_0_r.
  - cbn [enumerate_from for_each].
    rewrite long_method_step_open.
    + unfold bind. rewrite IH.
      * rewrite running_braces_cons. do 2 f_equal. lia.
      * intros n Hn. specialize (Hpos (S n)). simpl firstn in Hpos.
        rewrite running_braces_cons in Hpos. simpl List.length in Hpos.
        rewrite <- Z.add_assoc. apply Hpos. lia.
    + specialize (Hpos 1%nat). simpl firstn in Hpos.
      rewrite running_braces_cons in Hpos. unfold running_braces in Hpos.
      simpl in Hpos. simpl List.length in Hpos.
      rewrite Z.add_0_r in Hpos. apply Hpos. lia.
Qed.

(** X5.  From a line that matches the signature pattern while no method is
    tracked, tracking lasts as long as the braces counted from that line on
    stay positive, and ends at the first line where the count is zero or
    less.  One issue is appended for the signature line when that closing
    line is more than 20 lines below it, and none otherwise; its description
    holds the distance between the two lines. *)
Theorem long_method_closes_at_first_balance
    (content : list str) (k : nat) (sig : str) (body : list str)
    (closing : str) (issues : list CodeIssue) (bc : Z) :
  nth_error content k = Some sig ->
  found (re_match method_pattern (strip sig)) = true ->
  (forall n, (n <= List.length body)%nat ->
             0 < running_braces (sig :: firstn n body)) ->
  running_braces (sig :: body ++ [closing]) <= 0 ->
  long_method_scan content
    (enumerate_from (Z.of_nat k) (sig :: body ++ [closing]))
    (mkScan issues None bc)
  = Ok (mkScan
          (if len body + 1 >? 20
           then issues ++
                [mkCodeIssue (Z.of_nat k + 1) (py "Long Method")
                   (py "Method is too long (" ++ of_int (len body + 1)
                      ++ py " lines)")
                   (strip sig)]
           else issues)
          None (running_braces (sig :: body ++ [closing]))).
Proof.
  intros Hk Hm Hpos Hclose.
  pose proof (in_enumerate_nat _ _ _ Hk) as Hil.
  assert (Hsig : 0 < brace_delta (strip sig)).
  { specialize (Hpos 0%nat). simpl firstn in Hpos.
    rewrite running_braces_cons in Hpos. unfold running_braces in Hpos at 1.
    simpl in Hpos. rewrite Z.add_0_r in Hpos. apply Hpos. lia. }
  unfold long_method_scan. cbn [enumerate_from for_each].
  rewrite long_method_step_idle, Hm, long_method_step_open by lia.
  unfold bind at 1. rewrite enumerate_from_app, for_each_app.
  fold (long_method_scan content
          (enumerate_from (Z.of_nat k + 1) body)
          (mkScan issues (Some (Z.of_nat k + 1)) (0 + brace_delta (strip sig)))).
  rewrite long_method_scan_tracking.
  - unfold bind. cbn [enumerate_from for_each].
    rewrite running_braces_cons, running_braces_app in Hclose.
    rewrite (long_method_step_close content issues (Z.of_nat k + 1)
               (0 + brace_delta (strip sig) + running_braces body)
               (Z.of_nat k + 1 + len body) closing sig).
    + unfold bind, method_length, long_method_description.
      replace (Z.of_nat k + 1 + len body + 1 - (Z.of_nat k + 1))
        with (len body + 1) by lia.
      rewrite running_braces_cons, running_braces_app.
      do 2 f_equal. unfold running_braces at 3. simpl. lia.
    + unfold running_braces in Hclose at 2. simpl in Hclose. lia.
    + replace (Z.of_nat k + 1 - 1) with (Z.of_nat k) by lia.
      now apply getitem_enumerate.
  - intros n Hn. specialize (Hpos n). rewrite running_braces_cons in Hpos.
    rewrite Z.add_0_l. apply Hpos. lia.
Qed.

Lemma long_method_closes_at_first_balance_witness :
  long_method_scan
    (ln "void run() {" :: repeat (ln "  if (a) { b(); }") 20 ++ [ln "}"])
    (enumerate_from (Z.of_nat 0)
       (ln "void run() {" :: repeat (ln "  if (a) { b(); }") 20 ++ [ln "}"]))
    (mkScan [] None 0)
  = Ok (mkScan
          (if len (repeat (ln "  if (a) { b(); }") 20) + 1 >? 20
           then [] ++
                [mkCodeIssue (Z.of_nat 0 + 1) (py "Long Method")
                   (py "Method is too long ("
                      ++ of_int (len (repeat (ln "  if (a) { b(); }") 20) + 1)
                      ++ py " lines)")
                   (strip (ln "void run() {"))]
           else [])
          None
          (running_braces
             (ln "void run() {" :: repeat (ln "  if (a) { b(); }") 20 ++ [ln "}"]))).
Proof.
  apply (long_method_closes_at_first_balance
           (ln "void run() {" :: repeat (ln "  if (a) { b(); }") 20 ++ [ln "}"])
           0%nat (ln "void run() {") (repeat (ln "  if (a) { b(); }") 20)
           (ln "}") [] 0).
  - reflexivity.
  - vm_compute. reflexivity.
  - intros n Hn. rewrite running_braces_cons.
    assert (H : forall m j, running_braces (firstn m (repeat (ln "  if (a) { b(); }") j)) = 0).
    { intros m j. revert m. induction j as [|j IH]; intros [|m]; try reflexivity.
      simpl firstn. rewrite running_braces_cons, IH. vm_compute. reflexivity. }
    rewrite H. vm_compute. reflexivity.
  - vm_compute. discriminate.
Defined.

(** ** Duplication: the count an issue cites *)

Lemma group_issues_snippet cl iss :
  In iss (group_issues cl) -> code_snippet iss = fst cl.
Proof.
  unfold group_issues. destruct (_ && _); [|contradiction].
  intros H. apply in_map_iff in H. now destruct H as [n [<- _]].
Qed.

Lemma group_issues_with_text (d : dict (list Z)) (code : str) :
  NoDup (map fst d) ->
  List.length (filter (fun other => Str.eqb (code_snippet other) code)
                      (flat_map group_issues d)) =
  match dict_get code d with
  | Some lines => List.length (group_issues (code, lines))
  | None => 0%nat
  end.
Proof.
  induction d as [|[c l] d IH]; intros Hnd; [reflexivity|].
  simpl flat_map. rewrite filter_app, length_app. simpl dict_get.
  inversion Hnd as [|? ? Hc Hd]; subst. rewrite (IH Hd).
  destruct (Str.eqb c code) eqn:E.
  - apply str_eqb_eq in E. subst c.
    rewrite filter_all.
    + replace (dict_get code d) with (@None (list Z)); [lia|].
      symmetry. now apply dict_get_none.
    + intros x Hx. apply group_issues_snippet in Hx. simpl in Hx.
      now apply str_eqb_eq.
  - rewrite filter_none; [reflexivity|].
    intros x Hx. apply group_issues_snippet in Hx. simpl in Hx.
    apply str_eqb_neq. apply str_eqb_neq in E. congruence.
Qed.

(** X6.  The count in the description of a Duplication issue is at least 2,
    and it is the number of Duplication issues of the file that show the same
    text: an issue never stands alone. *)
Theorem duplication_count_is_number_of_issues
    (content : list str) (file_path : str) (iss : CodeIssue) :
  In iss (_detect_duplicate_code content file_path) ->
  exists n,
    2 <= n /\
    description iss
      = py "Duplicate code found (appears " ++ of_int n ++ py " times)" /\
    len (filter (fun other => Str.eqb (code_snippet other) (code_snippet iss))
                (_detect_duplicate_code content file_path)) = n.
Proof.
  rewrite duplicate_code_groups. intros Hin.
  apply in_flat_map_iff in Hin. destruct Hin as [[code lines] [Hb Hin]].
  pose proof (group_issues_snippet _ _ Hin) as Hs. simpl in Hs.
  pose proof (collect_blocks_nodup content) as Hnd.
  exists (len lines). unfold len.
  rewrite (group_issues_with_text _ (code_snippet iss) Hnd), Hs.
  rewrite (dict_in_get _ _ _ Hnd Hb).
  unfold group_issues in *. simpl fst in *. simpl snd in *.
  destruct ((len lines >? 1) && (len code >? 20)) eqn:Hc; [|contradiction].
  apply andb_true_iff in Hc. destruct Hc as [Hc _].
  apply in_map_iff in Hin. destruct Hin as [n [<- _]].
  rewrite length_map. unfold len in Hc. split; [lia|]. split; reflexivity.
Qed.

Lemma duplication_count_is_number_of_issues_witness :
  exists n,
    2 <= n /\
    description
      (mkCodeIssue 3 (py "Duplication")
         (py "Duplicate code found (appears 2 times)")
         (py "foo.bar(baz, qux, quux);"))
      = py "Duplicate code found (appears " ++ of_int n ++ py " times)" /\
    len (filter
           (fun other =>
              Str.eqb (code_snippet other)
                (code_snippet
                   (mkCodeIssue 3 (py "Duplication")
                      (py "Duplicate code found (appears 2 times)")
                      (py "foo.bar(baz, qux, quux);"))))
           (_detect_duplicate_code
              [ln "  foo.bar(baz, qux, quux);"; ln "x";
               ln "  foo.bar(baz, qux, quux);"]
              (py "lib/main.dart"))) = n.
Proof.
  apply (duplication_count_is_number_of_issues
           [ln "  foo.bar(baz, qux, quux);"; ln "x"; ln "  foo.bar(baz, qux, quux);"]
           (py "lib/main.dart")).
  vm_compute. right. left. reflexivity.
Defined.

(** ** Dead code: the name that is looked for *)

(** X7.  On a line that matches the private-member shape the name the
    Dead-Code pass looks for is the identifier in front of the first
    parenthesis, never a type or a modifier: the line is some text without a
    parenthesis, a white-space character, an underscore followed by one or
    more letters, white space if any, and the parenthesis, and the name is
    that underscore with its letters. *)
Theorem method_name_is_private (line_text : str) :
  found (re_match private_method_pattern line_text) = true ->
  exists before sp letters gap rest,
    line_text = before ++ sp :: (ch "_" :: letters) ++ gap ++ ch "(" :: rest /\
    ~ In (ch "(") before /\ isspace sp = true /\
    letters <> [] /\ Forall (fun c => is_alpha c = true) letters /\
    blank gap /\
    method_name line_text = Ok (ch "_" :: letters).
Proof. apply method_name_token. Qed.

Lemma method_name_is_private_witness :
  exists before sp letters gap rest,
    py "int _countItems (List items) {"
      = before ++ sp :: (ch "_" :: letters) ++ gap ++ ch "(" :: rest /\
    ~ In (ch "(") before /\ isspace sp = true /\
    letters <> [] /\ Forall (fun c => is_alpha c = true) letters /\
    blank gap /\
    method_name (py "int _countItems (List items) {") = Ok (ch "_" :: letters).
Proof.
  apply (method_name_is_private (py "int _countItems (List items) {")).
  vm_compute. reflexivity.
Defined.

Example method_name_example :
  method_name (py "int _countItems (List items) {") = Ok (py "_countItems")
  /\ method_name (py "static int _total(int a) => f(a);") = Ok (py "_total").
Proof. split; vm_compute; reflexivity. Qed.

(** ** Metrics: the size entries and the keys *)

Lemma comment_line_not_blank line :
  is_comment_line line = true -> truthy (strip line) = true.
Proof.
  unfold is_comment_line. destruct (strip line); [discriminate|reflexivity].
Qed.

Lemma filter_three_way {A} (p q r : A -> bool) (l : list A) :
  (forall x, (p x = true /\ q x = false /\ r x = false) \/
             (p x = false /\ q x = true /\ r x = false) \/
             (p x = false /\ q x = false /\ r x = true)) ->
  (List.length (filter p l) + List.length (filter q l)
   + List.length (filter r l) = List.length l)%nat.
Proof.
  intros H. induction l as [|x l IH]; [reflexivity|]. simpl.
  destruct (H x) as [[-> [-> ->]]|[[-> [-> ->]]|[-> [-> ->]]]]; simpl; lia.
Qed.

Lemma lines_partition content :
  len content = code_lines content + comment_lines content + blank_lines content.
Proof.
  unfold code_lines, comment_lines, blank_lines, len.
  rewrite <- (filter_three_way is_code_line is_comment_line
                (fun line => negb (truthy (strip line))) content); [lia|].
  intros line. pose proof (comment_line_not_blank line) as Hc.
  unfold is_code_line, is_comment_line in *.
  destruct (startswith (strip line) comment_markers).
  - rewrite (Hc eq_refl). simpl. tauto.
  - destruct (truthy (strip line)); simpl; tauto.
Qed.

Lemma size_metric content issues key :
  In key size_keys ->
  forall metrics, _calculate_metrics content issues = Ok metrics ->
  dict_get key metrics =
  dict_get key
    [(py "total_lines", Int (len content));
     (py "code_lines", Int (code_lines content));
     (py "comment_lines", Int (comment_lines content));
     (py "comment_density",
      if code_lines content =? 0 then Int 0
      else Float (PrimFloat.mul
                    (PrimFloat.div (float_of_int (comment_lines content))
                                   (float_of_int (code_lines content)))
                    (float_of_int 100)))].
Proof.
  intros Hkey metrics. rewrite _calculate_metrics_eq. intros H.
  injection H as <-.
  apply add_issue_counts_other. intros c v _ E.
  destruct (count_key_not_base c) as [N1 [N2 [N3 N4]]].
  unfold size_keys in Hkey. simpl in Hkey.
  destruct Hkey as [<-|[<-|[<-|[<-|[]]]]]; contradiction.
Qed.

(** X8.  Every line of a file is a code line, a comment line or a blank
    line, and only one of the three: the metrics [total_lines], [code_lines]
    and [comment_lines] are integers with
    [total_lines = code_lines + comment_lines + blank lines], whatever the
    issues counted next to them. *)
Theorem size_metrics_partition (content : list str) (issues : list CodeIssue) :
  exists metrics,
    _calculate_metrics content issues = Ok metrics /\
    dict_get (py "total_lines") metrics = Some (Int (len content)) /\
    dict_get (py "code_lines") metrics = Some (Int (code_lines content)) /\
    dict_get (py "comment_lines") metrics = Some (Int (comment_lines content)) /\
    len content = code_lines content + comment_lines content + blank_lines content /\
    0 <= code_lines content /\ 0 <= comment_lines content /\
    0 <= blank_lines content.
Proof.
  eexists. split; [apply _calculate_metrics_eq|].
  repeat split;
    try (erewrite size_metric;
         [reflexivity|unfold size_keys; simpl; tauto|apply _calculate_metrics_eq]).
  - apply lines_partition.
  - unfold code_lines, len. lia.
  - unfold comment_lines, len. lia.
  - unfold blank_lines, len. lia.
Qed.

Lemma count_key_format t :
  count_key t =
  map (fun c => if (c =? ch " ")%N then ch "_"
                else if (ch "A" <=? c)%N && (c <=? ch "Z")%N then (c + 32)%N
                     else c) t
  ++ py "_count".
Proof.
  unfold count_key, replace, lower. rewrite map_map. f_equal.
  apply map_ext. intros c. unfold in_range.
  change (ch " ") with 32%N. change (ch "_") with 95%N.
  change (ch "A") with 65%N. change (ch "Z") with 90%N.
  destruct ((65 <=? c)%N && (c <=? 90)%N) eqn:E.
  - apply andb_true_iff in E. destruct E as [E1 E2].
    apply N.leb_le in E1, E2.
    destruct (N.eqb_spec (c + 32) 32), (N.eqb_spec c 32); lia.
  - reflexivity.
Qed.

(** X9.  For issues whose types are written in ASCII, the keys of the metrics
    are the four size keys and, for every issue type that occurs among the
    issues, the type with its capitals [A] to [Z] in lower case and its
    spaces replaced by underscores, followed by [_count]; there is no other
    key: a category without an issue has no entry (not an entry of zero).
    Outside ASCII the lower case of a type is a matter of the Unicode
    tables, which [lower] leaves out. *)
Theorem metrics_keys (content : list str) (issues : list CodeIssue) :
  (forall iss, In iss issues ->
     Forall (fun c => (c < 128)%N) (issue_type iss)) ->
  exists metrics,
    _calculate_metrics content issues = Ok metrics /\
    forall key,
      (exists v, dict_get key metrics = Some v) <->
      In key [py "total_lines"; py "code_lines"; py "comment_lines";
              py "comment_density"] \/
      exists iss,
        In iss issues /\
        key = map (fun c => if (c =? ch " ")%N then ch "_"
                            else if (ch "A" <=? c)%N && (c <=? ch "Z")%N
                                 then (c + 32)%N
                                 else c)
                  (issue_type iss)
              ++ py "_count".
Proof.
  intros _. eexists. split; [apply _calculate_metrics_eq|]. intros key.
  destruct (count_issues_spec issues) as [_ [Hkeys _]].
  transitivity (In key (map fst
    (add_issue_counts (count_issues issues)
       [(py "total_lines", Int (len content));
        (py "code_lines", Int (code_lines content));
        (py "comment_lines", Int (comment_lines content));
        (py "comment_density",
         if code_lines content =? 0 then Int 0
         else Float (PrimFloat.mul
                       (PrimFloat.div (float_of_int (comment_lines content))
                                      (float_of_int (code_lines content)))
                       (float_of_int 100)))]))).
  - split.
    + intros [v Hv]. apply dict_get_in in Hv. apply (in_map fst) in Hv. exact Hv.
    + intros Hin. destruct (dict_get key _) as [v|] eqn:E; [eauto|].
      apply dict_get_none in E. contradiction.
  - rewrite add_issue_counts_key_set. apply or_iff_compat_l. split.
    + intros H. apply in_map_iff in H. destruct H as [t [<- Ht]].
      apply Hkeys, in_map_iff in Ht. destruct Ht as [iss [<- Hiss]].
      exists iss. split; [assumption|apply count_key_format].
    + intros [iss [Hiss ->]]. rewrite <- count_key_format.
      apply in_map, Hkeys. now apply in_map.
Qed.

Lemma metrics_keys_witness :
  exists metrics,
    _calculate_metrics [ln "x = 1;"]
      [mkCodeIssue 1 (py "Dead Code") [] [];
       mkCodeIssue 1 (py "Unused Import") [] []] = Ok metrics /\
    forall key,
      (exists v, dict_get key metrics = Some v) <->
      In key [py "total_lines"; py "code_lines"; py "comment_lines";
              py "comment_density"] \/
      exists iss,
        In iss [mkCodeIssue 1 (py "Dead Code") [] [];
                mkCodeIssue 1 (py "Unused Import") [] []] /\
        key = map (fun c => if (c =? ch " ")%N then ch "_"
                            else if (ch "A" <=? c)%N && (c <=? ch "Z")%N
                                 then (c + 32)%N
                                 else c)
                  (issue_type iss)
              ++ py "_count".
Proof.
  apply (metrics_keys [ln "x = 1;"]
           [mkCodeIssue 1 (py "Dead Code") [] [];
            mkCodeIssue 1 (py "Unused Import") [] []]).
  intros iss [<-|[<-|[]]]; vm_compute; repeat constructor.
Defined.

Example metrics_keys_example :
  (m <- _calculate_metrics [ln "x = 1;"]
          [mkCodeIssue 1 (py "Dead Code") [] []] ;;
   Ok (dict_get (py "dead_code_count") m, dict_get (py "duplication_count") m))
  = Ok (Some (Int 1), None).
Proof. vm_compute. reflexivity. Qed.

(** ** The project: errors and entries *)

Lemma analyze_flutter_project_eq fs file_paths :
  analyze_flutter_project fs file_paths = for_each file_paths (project_step fs) [].
Proof. reflexivity. Qed.

Lemma analyze_file_path content p fa :
  analyze_file content p = Ok fa -> file_path fa = p.
Proof.
  unfold analyze_file. destruct (detect_all content p); [|discriminate].
  unfold bind. destruct (_calculate_metrics content a); [|discriminate].
  intros H. inversion H. reflexivity.
Qed.

Lemma project_step_ok fs results p content :
  fs p = Ok content ->
  exists fa, analyze_file content p = Ok fa /\
             project_step fs results p = Ok (dict_set p fa results).
Proof.
  intros Hc. destruct (analyze_file_of_file content p) as [fa [Hfa _]].
  exists fa. split; [assumption|]. unfold project_step. rewrite Hc.
  unfold bind. now rewrite Hfa.
Qed.

Lemma project_readable fs : forall paths acc,
  (forall q, In q paths -> exists content, fs q = Ok content) ->
  exists results, for_each paths (project_step fs) acc = Ok results.
Proof.
  induction paths as [|p paths IH]; intros acc H; simpl; [eauto|].
  destruct (H p (or_introl eq_refl)) as [content Hc].
  destruct (project_step_ok fs acc p content Hc) as [fa [_ ->]]. simpl.
  apply IH. intros q Hq. apply H. now right.
Qed.

(** X10.  The analysis of a project stops at the first file that cannot be
    read and raises the error of that read: no result is returned for the
    files before it, and the files after it are not looked at. *)
Theorem unreadable_file_aborts_project
    (fs : filesystem) (readable : list str) (p : str) (rest : list str)
    (e : exn) :
  (forall q, In q readable -> exists content, fs q = Ok content) ->
  fs p = Raise e ->
  analyze_flutter_project fs (readable ++ p :: rest) = Raise e.
Proof.
  intros Hr Hp. rewrite analyze_flutter_project_eq, for_each_app.
  destruct (project_readable fs readable [] Hr) as [results ->].
  simpl. unfold project_step at 1. now rewrite Hp.
Qed.

Lemma unreadable_file_aborts_project_witness :
  analyze_flutter_project
    (fun p => if Str.eqb p (py "lib/main.dart")
              then Ok [ln "void main() {}"]
              else Raise OSError)
    ([py "lib/main.dart"] ++ py "lib/gone.dart" :: [py "lib/main.dart"])
  = Raise OSError.
Proof.
  apply (unreadable_file_aborts_project
           (fun p => if Str.eqb p (py "lib/main.dart")
                     then Ok [ln "void main() {}"]
                     else Raise OSError)
           [py "lib/main.dart"] (py "lib/gone.dart") [py "lib/main.dart"] OSError).
  - intros q [<-|[]]. eexists. reflexivity.
  - reflexivity.
Defined.

Lemma project_entries fs : forall paths acc results,
  for_each paths (project_step fs) acc = Ok results ->
  NoDup (map fst acc) ->
  NoDup (map fst results) /\
  (forall p, In p (map fst results) <-> In p (map fst acc) \/ In p paths) /\
  (forall p fa, dict_get p results = Some fa ->
     dict_get p acc = Some fa \/
     (In p paths /\ exists content, fs p = Ok content /\
                                    analyze_file content p = Ok fa)).
Proof.
  induction paths as [|q paths IH]; intros acc results H Hnd.
  - simpl in H. inversion H; subst. split; [assumption|].
    split; [simpl; tauto|auto].
  - cbn [for_each] in H.
    destruct (fs q) as [content|e] eqn:Hq;
      [|unfold project_step in H; rewrite Hq in H; discriminate].
    destruct (project_step_ok fs acc q content Hq) as [fa [Hfa Hstep]].
    rewrite Hstep in H. unfold bind in H.
    destruct (IH _ _ H (dict_set_nodup q fa acc Hnd)) as [H1 [H2 H3]].
    split; [assumption|]. split.
    + intros p. rewrite H2, dict_set_keys. simpl.
      destruct (dict_get q acc) eqn:E.
      * apply dict_get_in in E. apply (in_map fst) in E. simpl in E.
        split; [tauto|]. intros [Hp|[<-|Hp]]; auto.
      * rewrite in_app_iff. simpl. tauto.
    + intros p fa' Hget. destruct (H3 p fa' Hget) as [Hacc|[Hin Hex]].
      * destruct (list_eq_dec N.eq_dec q p) as [<-|Hne].
        -- rewrite dict_get_set_eq in Hacc. inversion Hacc; subst fa'.
           right. split; [now left|eauto].
        -- rewrite dict_get_set_neq in Hacc by assumption. now left.
      * right. split; [now right|assumption].
Qed.

(** X11.  When the analysis of a project returns, its result has one entry
    for every path of the list and no other, a path that is listed twice
    having one entry; the entry of a path holds that path and the analysis of
    the lines read from it. *)
Theorem project_result_entries
    (fs : filesystem) (file_paths : list str) (results : dict FileAnalysis) :
  analyze_flutter_project fs file_paths = Ok results ->
  NoDup (map fst results) /\
  (forall p, (exists fa, dict_get p results = Some fa) <-> In p file_paths) /\
  (forall p fa, dict_get p results = Some fa ->
     file_path fa = p /\
     exists content, fs p = Ok content /\ analyze_file content p = Ok fa).
Proof.
  rewrite analyze_flutter_project_eq. intros H.
  destruct (project_entries fs file_paths [] results H) as [H1 [H2 H3]];
    [constructor|].
  split; [assumption|]. split.
  - intros p. split.
    + intros [fa Hfa]. apply dict_get_in in Hfa. apply (in_map fst) in Hfa.
      apply H2 in Hfa. simpl in Hfa. tauto.
    + intros Hin. destruct (dict_get p results) as [fa|] eqn:E; [eauto|].
      apply dict_get_none in E. exfalso. apply E, H2. now right.
  - intros p fa Hfa. destruct (H3 p fa Hfa) as [Habs|[_ [content [Hc Ha]]]];
      [discriminate|].
    split; [now apply (analyze_file_path content)|eauto].
Qed.

Lemma project_result_entries_witness :
  exists results,
    analyze_flutter_project
      (fun p => Ok [ln "import 'dart:io';"; p])
      [py "lib/a.dart"; py "lib/b.dart"; py "lib/a.dart"] = Ok results /\
    len results = 2 /\
    NoDup (map fst results) /\
    (forall p, (exists fa, dict_get p results = Some fa) <->
               In p [py "lib/a.dart"; py "lib/b.dart"; py "lib/a.dart"]) /\
    (forall p fa, dict_get p results = Some fa ->
       file_path fa = p /\
       exists content, Ok [ln "import 'dart:io';"; p] = Ok content /\
                       analyze_file content p = Ok fa).
Proof.
  eexists. split; [vm_compute; reflexivity|]. split; [reflexivity|].
  apply (project_result_entries
           (fun p => Ok [ln "import 'dart:io';"; p])
           [py "lib/a.dart"; py "lib/b.dart"; py "lib/a.dart"]).
  vm_compute. reflexivity.
Defined.

(** ** The summary of the report *)

Lemma summary_step_fold : forall l total types,
  fold_left summary_step l (total, types) =
  (total + len l, fold_left count_step l types).
Proof.
  induction l as [|iss l IH]; intros total types; cbn [fold_left].
  - unfold len. simpl. now rewrite Z.add_0_r.
  - unfold summary_step at 2. rewrite IH. f_equal.
    unfold len. simpl List.length. lia.
Qed.

Lemma summary_file_fold : forall results total types,
  fold_left summary_file_step results (total, types) =
  (total + len (all_issues results),
   fold_left count_step (all_issues results) types).
Proof.
  induction results as [|[p fa] results IH]; intros total types; cbn [fold_left].
  - unfold len. simpl. now rewrite Z.add_0_r.
  - unfold summary_file_step at 2. simpl snd. rewrite summary_step_fold, IH.
    unfold all_issues. simpl flat_map. rewrite fold_left_app. f_equal.
    unfold len. rewrite length_app. lia.
Qed.

Lemma _prepare_summary_data_eq results :
  _prepare_summary_data results =
  mkSummary (len results) (len (all_issues results))
            (count_issues (all_issues results)).
Proof.
  unfold _prepare_summary_data. now rewrite summary_file_fold.
Qed.

Lemma dict_set_sum (d : dict Z) k v :
  zsum (map snd (dict_set k v d)) =
  zsum (map snd d) - dict_get_default 0 k d + v.
Proof.
  unfold dict_get_default. induction d as [|[k' v'] d IH]; simpl.
  - lia.
  - destruct (Str.eqb k' k); simpl; lia.
Qed.

Lemma count_fold_sum : forall l d,
  zsum (map snd (fold_left count_step l d)) = zsum (map snd d) + len l.
Proof.
  intros l. induction l as [|iss l IH]; intros d; cbn [fold_left].
  - unfold len. simpl. lia.
  - rewrite IH. unfold count_step. rewrite dict_set_sum.
    unfold len. simpl List.length. lia.
Qed.

Lemma len_all_issues results :
  len (all_issues results) =
  zsum (map (fun entry => len (issues (snd entry))) results).
Proof.
  unfold all_issues, len. induction results as [|e results IH]; [reflexivity|].
  simpl. rewrite length_app. lia.
Qed.

Lemma issues_of_type_app t l1 l2 :
  issues_of_type t (l1 ++ l2) = issues_of_type t l1 + issues_of_type t l2.
Proof.
  unfold issues_of_type. rewrite map_app, count_occ_app. apply Nat2Z.inj_add.
Qed.

Lemma issues_of_type_all t results :
  issues_of_type t (all_issues results) =
  zsum (map (fun entry => issues_of_type t (issues (snd entry))) results).
Proof.
  unfold all_issues. induction results as [|e results IH]; [reflexivity|].
  simpl. now rewrite issues_of_type_app, IH.
Qed.

(** X12.  The summary of a result counts the files, and counts the issues of
    all files together: [total_issues] is the sum of the numbers of issues of
    the files, and also the sum of the entries of [issue_types]; the entry of
    a type is the number of issues of that type over all files, and a type
    without issue has no entry. *)
Theorem summary_totals (analysis_results : dict FileAnalysis) :
  total_files (_prepare_summary_data analysis_results) = len analysis_results /\
  total_issues (_prepare_summary_data analysis_results) =
    zsum (map (fun entry => len (issues (snd entry))) analysis_results) /\
  zsum (map snd (summary_issue_types (_prepare_summary_data analysis_results))) =
    total_issues (_prepare_summary_data analysis_results) /\
  forall t,
    dict_get t (summary_issue_types (_prepare_summary_data analysis_results)) =
    if zsum (map (fun entry => issues_of_type t (issues (snd entry)))
                 analysis_results) =? 0
    then None
    else Some (zsum (map (fun entry => issues_of_type t (issues (snd entry)))
                         analysis_results)).
Proof.
  rewrite _prepare_summary_data_eq. cbn [total_files total_issues summary_issue_types].
  split; [reflexivity|]. split; [apply len_all_issues|]. split.
  - unfold count_issues. rewrite count_fold_sum. simpl. lia.
  - intros t. rewrite <- issues_of_type_all.
    destruct (count_issues_spec (all_issues analysis_results)) as [Hnd [Hkeys Hvals]].
    destruct (dict_get t (count_issues (all_issues analysis_results))) as [v|] eqn:E.
    + pose proof (dict_get_in _ _ _ E) as Hin.
      rewrite (Hvals t v Hin) in *.
      assert (Ht : In t (map issue_type (all_issues analysis_results))).
      { apply Hkeys. change t with (fst (t, v)). now apply in_map. }
      apply (count_occ_In (list_eq_dec N.eq_dec)) in Ht.
      assert (Hpos : 0 < issues_of_type t (all_issues analysis_results))
        by (unfold issues_of_type; lia).
      destruct (Z.eqb_spec (issues_of_type t (all_issues analysis_results)) 0);
        [lia|reflexivity].
    + apply dict_get_none in E.
      assert (Ht : ~ In t (map issue_type (all_issues analysis_results))).
      { intros H. apply E. now apply Hkeys. }
      apply (count_occ_not_In (list_eq_dec N.eq_dec)) in Ht.
      unfold issues_of_type. now rewrite Ht.
Qed.

Example summary_example :
  (results <- analyze_flutter_project
                (fun p => Ok [ln "import 'dart:io';"; ln "void _unused() {"; ln "}"])
                [py "lib/a.dart"; py "lib/b.dart"] ;;
   Ok (_prepare_summary_data results))
  = Ok (mkSummary 2 4 [(py "Unused Import", 2); (py "Dead Code", 2)]).
Proof. vm_compute. reflexivity. Qed.

(** ** The rows of the report *)

Lemma getkey_value {V} (d : dict V) key v :
  getkey d key = Value v <-> dict_get key d = Some v.
Proof.
  unfold getkey. destruct (dict_get key d); split; intros H;
    inversion H; subst; reflexivity.
Qed.

(** What a row holds when the four look-ups succeed. *)
Lemma file_metric_value p fa row :
  file_metric p fa = Value row ->
  fm_file_name row = basename p /\ fm_file_path row = p /\
  dict_get (py "total_lines") (metrics fa) = Some (fm_total_lines row) /\
  dict_get (py "code_lines") (metrics fa) = Some (fm_code_lines row) /\
  dict_get (py "comment_lines") (metrics fa) = Some (fm_comment_lines row) /\
  dict_get (py "comment_density") (metrics fa) = Some (fm_comment_density row) /\
  fm_issues row = len (issues fa) /\
  fm_issue_types row = issue_type_set (issues fa).
Proof.
  unfold file_metric, getkey.
  destruct (dict_get (py "total_lines") (metrics fa)); [|discriminate].
  destruct (dict_get (py "code_lines") (metrics fa)); [|discriminate].
  destruct (dict_get (py "comment_lines") (metrics fa)); [|discriminate].
  destruct (dict_get (py "comment_density") (metrics fa)); [|discriminate].
  simpl. intros H. inversion H; subst. simpl. auto 10.
Qed.

Lemma file_metric_total e :
  has_size_metrics e -> exists row, file_metric (fst e) (snd e) = Value row.
Proof.
  intros H. unfold file_metric, getkey.
  destruct (H (py "total_lines")) as [v1 ->]; [unfold size_keys; simpl; tauto|].
  destruct (H (py "code_lines")) as [v2 ->]; [unfold size_keys; simpl; tauto|].
  destruct (H (py "comment_lines")) as [v3 ->]; [unfold size_keys; simpl; tauto|].
  destruct (H (py "comment_density")) as [v4 ->]; [unfold size_keys; simpl; tauto|].
  simpl. eauto.
Qed.

Lemma _prepare_file_metrics_from_value : forall entries acc out,
  _prepare_file_metrics_from entries acc = Value out ->
  exists rows,
    out = acc ++ rows /\
    Forall2 (fun e row => file_metric (fst e) (snd e) = Value row) entries rows.
Proof.
  induction entries as [|[p fa] entries IH]; intros acc out H; simpl in H.
  - inversion H; subst. exists []. split; [now rewrite app_nil_r|constructor].
  - destruct (file_metric p fa) as [row|key] eqn:E; [|discriminate]. simpl in H.
    destruct (IH _ _ H) as [rows [-> Hrows]].
    exists (row :: rows). split; [now rewrite <- app_assoc|].
    constructor; assumption.
Qed.

Lemma _prepare_file_metrics_from_total : forall entries acc,
  Forall has_size_metrics entries ->
  exists out, _prepare_file_metrics_from entries acc = Value out.
Proof.
  induction entries as [|[p fa] entries IH]; intros acc H; simpl; [eauto|].
  inversion H as [|? ? He Hrest]; subst.
  destruct (file_metric_total _ He) as [row Hrow]. simpl in Hrow.
  rewrite Hrow. simpl. now apply IH.
Qed.

(** X13.  When the rows of the report can be built there is one row per
    file, in the order of the result and under the path of the file, and the
    numbers of issues of the rows add up to the [total_issues] of the
    summary. *)
Theorem rows_agree_with_summary
    (analysis_results : dict FileAnalysis) (rows : list FileMetric) :
  _prepare_file_metrics analysis_results = Value rows ->
  map fm_file_path rows = map fst analysis_results /\
  len rows = total_files (_prepare_summary_data analysis_results) /\
  zsum (map fm_issues rows) =
    total_issues (_prepare_summary_data analysis_results).
Proof.
  unfold _prepare_file_metrics. intros H.
  apply _prepare_file_metrics_from_value in H. destruct H as [rows' [-> H]].
  simpl app. rewrite _prepare_summary_data_eq, len_all_issues.
  cbn [total_files total_issues]. unfold len.
  induction H as [|[p fa] row entries rows' Hrow _ IH]; [auto|].
  apply file_metric_value in Hrow.
  destruct Hrow as [_ [Hp [_ [_ [_ [_ [Hi _]]]]]]]. simpl in Hi.
  destruct IH as [IH1 [IH2 IH3]]. simpl. rewrite Hp, Hi, IH1, IH3.
  repeat split. unfold len in *. lia.
Qed.

Lemma rows_agree_with_summary_witness :
  map fm_file_path
    [mkFileMetric (py "a.dart") (py "lib/a.dart") (Int 3) (Int 2) (Int 1)
       (Float 50%float) 1 [py "Dead Code"]]
  = map fst
      [(py "lib/a.dart",
        mkFileAnalysis (py "lib/a.dart")
          [mkCodeIssue 2 (py "Dead Code") [] []]
          [(py "total_lines", Int 3); (py "code_lines", Int 2);
           (py "comment_lines", Int 1); (py "comment_density", Float 50%float)])]
  /\ len [mkFileMetric (py "a.dart") (py "lib/a.dart") (Int 3) (Int 2) (Int 1)
            (Float 50%float) 1 [py "Dead Code"]]
     = total_files
         (_prepare_summary_data
            [(py "lib/a.dart",
              mkFileAnalysis (py "lib/a.dart")
                [mkCodeIssue 2 (py "Dead Code") [] []]
                [(py "total_lines", Int 3); (py "code_lines", Int 2);
                 (py "comment_lines", Int 1);
                 (py "comment_density", Float 50%float)])])
  /\ zsum (map fm_issues
             [mkFileMetric (py "a.dart") (py "lib/a.dart") (Int 3) (Int 2) (Int 1)
                (Float 50%float) 1 [py "Dead Code"]])
     = total_issues
         (_prepare_summary_data
            [(py "lib/a.dart",
              mkFileAnalysis (py "lib/a.dart")
                [mkCodeIssue 2 (py "Dead Code") [] []]
                [(py "total_lines", Int 3); (py "code_lines", Int 2);
                 (py "comment_lines", Int 1);
                 (py "comment_density", Float 50%float)])]).
Proof.
  apply (rows_agree_with_summary
           [(py "lib/a.dart",
             mkFileAnalysis (py "lib/a.dart")
               [mkCodeIssue 2 (py "Dead Code") [] []]
               [(py "total_lines", Int 3); (py "code_lines", Int 2);
                (py "comment_lines", Int 1);
                (py "comment_density", Float 50%float)])]).
  vm_compute. reflexivity.
Defined.

Lemma Forall2_impl_in {A B} (P Q : A -> B -> Prop) (l : list A) (l' : list B) :
  Forall2 P l l' ->
  (forall x y, In x l -> P x y -> Q x y) ->
  Forall2 Q l l'.
Proof.
  induction 1 as [|x y l l' Hxy _ IH]; intros H; constructor.
  - apply H; [now left|assumption].
  - apply IH. intros a b Ha. apply H. now right.
Qed.

(** The metrics of an entry of a project result are those of its file. *)
Lemma project_entry_metrics fs file_paths results p fa :
  analyze_flutter_project fs file_paths = Ok results ->
  In (p, fa) results ->
  exists content,
    fs p = Ok content /\
    _calculate_metrics content (issues fa) = Ok (metrics fa).
Proof.
  rewrite analyze_flutter_project_eq. intros H Hin.
  destruct (project_entries fs file_paths [] results H) as [Hnd [_ H3]];
    [constructor|].
  apply (dict_in_get _ _ _ Hnd) in Hin.
  destruct (H3 p fa Hin) as [Habs|[_ [content [Hc Ha]]]]; [discriminate|].
  exists content. split; [assumption|].
  destruct (analyze_file_of_file content p) as [fa' [Hfa' [_ [Hm _]]]].
  assert (fa' = fa) by congruence. now subst fa'.
Qed.

(** X14.  On the result of a project analysis the rows of the report are
    built without a missing key: one row per entry, with the path of the
    file, its base name, the number of its issues, and for [total_lines],
    [code_lines] and [comment_lines] the integers counted on the lines read
    from the file. *)
Theorem report_rows_of_project
    (fs : filesystem) (file_paths : list str) (results : dict FileAnalysis) :
  analyze_flutter_project fs file_paths = Ok results ->
  exists rows,
    _prepare_file_metrics results = Value rows /\
    Forall2
      (fun entry row =>
         fm_file_path row = fst entry /\
         fm_file_name row = basename (fst entry) /\
         fm_issues row = len (issues (snd entry)) /\
         exists content,
           fs (fst entry) = Ok content /\
           fm_total_lines row = Int (len content) /\
           fm_code_lines row = Int (code_lines content) /\
           fm_comment_lines row = Int (comment_lines content))
      results rows.
Proof.
  intros H.
  assert (Hsize : Forall has_size_metrics results).
  { apply Forall_forall. intros [p fa] Hin key Hkey.
    destruct (project_entry_metrics fs file_paths results p fa H Hin)
      as [content [_ Hm]].
    simpl snd. rewrite (size_metric content (issues fa) key Hkey _ Hm).
    unfold size_keys in Hkey. simpl in Hkey.
    destruct Hkey as [<-|[<-|[<-|[<-|[]]]]]; eexists; reflexivity. }
  destruct (_prepare_file_metrics_from_total results [] Hsize) as [out Hout].
  exists out. split; [exact Hout|].
  apply _prepare_file_metrics_from_value in Hout.
  destruct Hout as [rows [-> Hrows]]. simpl app.
  apply (Forall2_impl_in _ _ _ _ Hrows). intros [p fa] row Hin Hrow.
  simpl fst in *. simpl snd in *.
  apply file_metric_value in Hrow.
  destruct Hrow as [Hn [Hp [Ht [Hc [Hm [_ [Hi _]]]]]]].
  destruct (project_entry_metrics fs file_paths results p fa H Hin)
    as [content [Hfs Hmet]].
  repeat split; try assumption. exists content. split; [assumption|].
  rewrite (size_metric content (issues fa) _ (or_introl eq_refl) _ Hmet) in Ht.
  rewrite (size_metric content (issues fa) _ (or_intror (or_introl eq_refl)) _ Hmet)
    in Hc.
  rewrite (size_metric content (issues fa) _
             (or_intror (or_intror (or_introl eq_refl))) _ Hmet) in Hm.
  simpl in Ht, Hc, Hm. inversion Ht. inversion Hc. inversion Hm. auto.
Qed.

Lemma report_rows_of_project_witness :
  exists rows,
    _prepare_file_metrics
      [(py "lib/a.dart",
        mkFileAnalysis (py "lib/a.dart") []
          [(py "total_lines", Int 1); (py "code_lines", Int 1);
           (py "comment_lines", Int 0); (py "comment_density", Float 0%float)])]
    = Value rows /\
    Forall2
      (fun entry row =>
         fm_file_path row = fst entry /\
         fm_file_name row = basename (fst entry) /\
         fm_issues row = len (issues (snd entry)) /\
         exists content,
           (fun _ : str => Ok [ln "x = 1;"]) (fst entry) = Ok content /\
           fm_total_lines row = Int (len content) /\
           fm_code_lines row = Int (code_lines content) /\
           fm_comment_lines row = Int (comment_lines content))
      [(py "lib/a.dart",
        mkFileAnalysis (py "lib/a.dart") []
          [(py "total_lines", Int 1); (py "code_lines", Int 1);
           (py "comment_lines", Int 0); (py "comment_density", Float 0%float)])]
      rows.
Proof.
  apply (report_rows_of_project (fun _ => Ok [ln "x = 1;"]) [py "lib/a.dart"]).
  vm_compute. reflexivity.
Defined.

(** X15.  When the metrics of a file lack [total_lines], and the files
    before it have their four size entries, no row is returned: building the
    rows fails with the missing key [total_lines]. *)
Theorem missing_metric_is_a_key_error
    (before : dict FileAnalysis) (p : str) (fa : FileAnalysis)
    (after : dict FileAnalysis) :
  Forall has_size_metrics before ->
  dict_get (py "total_lines") (metrics fa) = None ->
  _prepare_file_metrics (before ++ (p, fa) :: after)
    = KeyError (py "total_lines").
Proof.
  unfold _prepare_file_metrics. generalize (@nil FileMetric).
  induction before as [|[q fb] before IH]; intros acc Hb Hnone; simpl.
  - unfold file_metric, getkey. now rewrite Hnone.
  - inversion Hb as [|? ? He Hrest]; subst.
    destruct (file_metric_total _ He) as [row Hrow]. simpl in Hrow.
    rewrite Hrow. simpl. now apply IH.
Qed.

Lemma missing_metric_is_a_key_error_witness :
  _prepare_file_metrics
    ([] ++ (py "lib/a.dart", mkFileAnalysis (py "lib/a.dart") [] []) :: [])
  = KeyError (py "total_lines").
Proof.
  apply (missing_metric_is_a_key_error [] (py "lib/a.dart")
           (mkFileAnalysis (py "lib/a.dart") [] []) []).
  - constructor.
  - reflexivity.
Defined.

Example basename_examples :
  basename (py "lib/widgets/button.dart") = py "button.dart"
  /\ basename (py "main.dart") = py "main.dart"
  /\ basename (py "lib/") = [].
Proof. repeat split; vm_compute; reflexivity. Qed.

(** ** The files of a project *)

Lemma flat_map_filter_map {A B} (p : A -> bool) (g : A -> B) (l : list A) :
  flat_map (fun x => if p x then [g x] else []) l = map g (filter p l).
Proof.
  induction l as [|x l IH]; [reflexivity|]. simpl.
  destruct (p x); simpl; now rewrite IH.
Qed.

Lemma project_files_step_eq acc root dirs files :
  project_files_step acc (root, dirs, files) = acc ++ dart_files_of root files.
Proof.
  unfold project_files_step, dart_files_of.
  destruct (skipped_root root); [now rewrite app_nil_r|].
  rewrite fold_left_appends with
    (f := fun file => if endswith file DART_EXTENSIONS
                      then [path_join root file] else []).
  - f_equal. apply (flat_map_filter_map
                      (fun file => endswith file DART_EXTENSIONS) (path_join root)).
  - intros a f. destruct (endswith f DART_EXTENSIONS); [reflexivity|].
    now rewrite app_nil_r.
Qed.

Lemma project_files_fold entries :
  fold_left project_files_step entries [] =
  flat_map (fun e => dart_files_of (fst (fst e)) (snd e)) entries.
Proof.
  rewrite fold_left_appends with
    (f := fun e : str * list str * list str => dart_files_of (fst (fst e)) (snd e));
    [reflexivity|].
  intros acc [[root dirs] files]. apply project_files_step_eq.
Qed.

Lemma walk_eq top subdirs files :
  walk top (Dir subdirs files) =
  (top, map fst subdirs, files)
  :: flat_map (fun nd => if is_link (snd nd) then []
                         else walk (path_join top (fst nd)) (snd nd)) subdirs.
Proof.
  cbn [walk]. f_equal. induction subdirs as [|[n sub] subdirs IH]; [reflexivity|].
  cbn [flat_map fst snd]. rewrite <- IH. now destruct sub.
Qed.

Lemma project_files_directory_eq top subdirs files :
  get_flutter_project_files top (Some (Dir subdirs files)) =
  dart_files_of top files
  ++ flat_map
       (fun nd => if is_link (snd nd) then []
                  else get_flutter_project_files (path_join top (fst nd))
                         (Some (snd nd)))
       subdirs.
Proof.
  unfold get_flutter_project_files, os_walk.
  rewrite project_files_fold, walk_eq. simpl flat_map. f_equal.
  rewrite flat_map_flat_map. apply flat_map_ext_on. intros [n sub] _.
  cbn [fst snd]. destruct (is_link sub); [reflexivity|].
  now rewrite project_files_fold.
Qed.

Example project_files_example :
  get_flutter_project_files (py "app")
    (Some (Dir [(py "lib", Dir [(py "src", Dir [] [py "a.dart"; py "a.txt"])]
                               [py "main.dart"]);
                (py ".git", Dir [] [py "hook.dart"]);
                (py "build", Dir [(py "out", Dir [] [py "gen.dart"])] [])]
               [py "README.md"; py ".hidden.dart"]))
  = [py "app/.hidden.dart"; py "app/lib/main.dart"; py "app/lib/src/a.dart"]
  /\ get_flutter_project_files (py "./app")
       (Some (Dir [] [py "main.dart"])) = []
  /\ get_flutter_project_files (py "app") None = [].
Proof. repeat split; vm_compute; reflexivity. Qed.

(** A sub-directory that is a symbolic link is not searched; a project path
    that is one is. *)
Example symlinked_directory_example :
  get_flutter_project_files (py "app")
    (Some (Dir [(py "vendor", Symlink (Dir [] [py "dep.dart"]));
                (py "lib", Dir [] [py "main.dart"])]
               []))
  = [py "app/lib/main.dart"]
  /\ get_flutter_project_files (py "app")
       (Some (Symlink (Dir [] [py "main.dart"]))) = [py "app/main.dart"].
Proof. split; vm_compute; reflexivity. Qed.

Lemma dir_induction (P : dir -> Prop) :
  (forall subdirs files,
     Forall (fun nd => P (snd nd)) subdirs -> P (Dir subdirs files)) ->
  (forall target, P target -> P (Symlink target)) ->
  forall d, P d.
Proof.
  intros H HL. fix F 1. intros [subdirs files|target].
  - apply H. induction subdirs as [|[n sub] subdirs IH]; constructor.
    + apply F.
    + apply IH.
  - apply HL, F.
Qed.

Lemma names_ok_eq subdirs files :
  names_ok (Dir subdirs files) =
  forallb (fun nd => negb (is_prefix [sep] (fst nd)) && names_ok (snd nd)) subdirs.
Proof.
  simpl. induction subdirs as [|[n sub] subdirs IH]; [reflexivity|].
  simpl. now rewrite IH.
Qed.

Lemma split_app_sep c a b : split c (a ++ c :: b) = split c a ++ split c b.
Proof.
  induction a as [|d a IH]; simpl.
  - now rewrite N.eqb_refl.
  - rewrite IH. destruct (d =? c)%N; [reflexivity|].
    destruct (split c a) as [|w ws] eqn:E; [|reflexivity].
    exfalso. eapply split_nonempty; eauto.
Qed.

Lemma is_suffix_sep a : is_suffix [sep] a = true -> exists t, a = t ++ [sep].
Proof.
  unfold is_suffix. simpl rev. intros H. apply is_prefix_spec in H.
  destruct H as [r Hr]. exists (rev r).
  rewrite <- (rev_involutive a), Hr. reflexivity.
Qed.

(** Joining a name to a path keeps the components of the path, a trailing
    empty one apart. *)
Lemma path_join_keeps_parts top name part :
  is_prefix [sep] name = false -> part <> [] ->
  In part (split sep top) -> In part (split sep (path_join top name)).
Proof.
  intros Hname Hne Hin. unfold path_join. rewrite Hname.
  destruct top as [|c top]; [simpl in Hin; intuition congruence|].
  cbn [truthy negb orb].
  destruct (is_suffix [sep] (c :: top)) eqn:Hs.
  - apply is_suffix_sep in Hs. destruct Hs as [t Ht]. rewrite Ht in *.
    rewrite <- app_assoc. simpl app.
    rewrite split_app_sep in *. apply in_app_iff in Hin. apply in_app_iff.
    destruct Hin as [Hin|Hin]; [now left|].
    simpl in Hin. intuition congruence.
  - simpl app. change (c :: top ++ sep :: name) with ((c :: top) ++ sep :: name).
    rewrite split_app_sep. apply in_app_iff. now left.
Qed.

Lemma skipped_part_nonempty part : skipped_part part = true -> part <> [].
Proof. intros H ->. vm_compute in H. discriminate. Qed.

Lemma skipped_root_join top name :
  is_prefix [sep] name = false -> skipped_root top = true ->
  skipped_root (path_join top name) = true.
Proof.
  unfold skipped_root. intros Hname H. apply existsb_exists in H.
  destruct H as [part [Hin Hp]]. apply existsb_exists. exists part.
  split; [|assumption].
  apply path_join_keeps_parts; auto using skipped_part_nonempty.
Qed.

Lemma walk_all_skipped : forall d top,
  names_ok d = true -> skipped_root top = true ->
  Forall (fun e => skipped_root (fst (fst e)) = true) (walk top d).
Proof.
  intros d. induction d as [subdirs files IH|target IH] using dir_induction;
    [|intros top Hn Hs; now apply IH].
  intros top Hn Hs. rewrite walk_eq. constructor; [assumption|].
  rewrite names_ok_eq in Hn. rewrite forallb_forall in Hn.
  apply Forall_forall. intros e He. apply in_flat_map_iff in He.
  destruct He as [[n sub] [Hin He]]. cbn [fst snd] in He.
  destruct (is_link sub); [contradiction|].
  rewrite Forall_forall in IH. specialize (IH _ Hin (path_join top n)).
  specialize (Hn _ Hin). simpl in Hn, IH. apply andb_true_iff in Hn.
  destruct Hn as [Hn1 Hn2]. apply negb_true_iff in Hn1.
  rewrite Forall_forall in IH. apply IH; auto using skipped_root_join.
Qed.

Lemma skipped_top_finds_nothing top d :
  names_ok d = true -> skipped_root top = true ->
  get_flutter_project_files top (Some d) = [].
Proof.
  intros Hn Hs. unfold get_flutter_project_files, os_walk.
  rewrite project_files_fold.
  pose proof (walk_all_skipped d top Hn Hs) as H.
  induction H as [|e l He _ IH]; [reflexivity|].
  simpl. rewrite IH. unfold dart_files_of. now rewrite He.
Qed.

(** X17.  When a component of the project path itself starts with a dot or
    is [build] (a path such as [./app], [../app] or [/home/me/build/app]),
    no file is found, whatever the directory holds. *)
Theorem project_path_with_skipped_part_finds_nothing
    (project_path : str) (root : dir) :
  names_ok root = true ->
  skipped_root project_path = true ->
  get_flutter_project_files project_path (Some root) = [].
Proof. apply skipped_top_finds_nothing. Qed.

Lemma project_path_with_skipped_part_finds_nothing_witness :
  get_flutter_project_files (py "./app")
    (Some (Dir [(py "lib", Dir [] [py "widget.dart"])] [py "main.dart"])) = [].
Proof.
  apply (project_path_with_skipped_part_finds_nothing (py "./app")
           (Dir [(py "lib", Dir [] [py "widget.dart"])] [py "main.dart"])).
  - reflexivity.
  - reflexivity.
Defined.

Lemma split_no_sep c s : ~ In c s -> split c s = [s].
Proof.
  induction s as [|d s IH]; intros H; [reflexivity|]. simpl.
  destruct (d =? c)%N eqn:E.
  - apply N.eqb_eq in E. exfalso. apply H. now left.
  - rewrite IH; [reflexivity|]. intros Hin. apply H. now right.
Qed.

Lemma no_sep_not_prefix name : ~ In sep name -> is_prefix [sep] name = false.
Proof.
  intros H. destruct name as [|c name]; [reflexivity|].
  change (is_prefix [sep] (c :: name)) with ((sep =? c)%N && true).
  destruct (N.eqb_spec sep c) as [E|E]; [|reflexivity].
  exfalso. apply H. now left.
Qed.

(** A name joined to a path is the last component of the joined path. *)
Lemma path_join_last_part top name :
  ~ In sep name -> In name (split sep (path_join top name)).
Proof.
  intros Hname. unfold path_join. rewrite (no_sep_not_prefix _ Hname).
  destruct top as [|c top].
  - simpl. rewrite (split_no_sep _ _ Hname). now left.
  - cbn [truthy negb orb]. destruct (is_suffix [sep] (c :: top)) eqn:Hs.
    + apply is_suffix_sep in Hs. destruct Hs as [t ->].
      rewrite <- app_assoc. simpl app. rewrite split_app_sep.
      apply in_app_iff. right. rewrite (split_no_sep _ _ Hname). now left.
    + simpl app. change (c :: top ++ sep :: name) with ((c :: top) ++ sep :: name).
      rewrite split_app_sep. apply in_app_iff. right.
      rewrite (split_no_sep _ _ Hname). now left.
Qed.

(** X18.  A sub-directory whose name starts with a dot or is [build] adds
    nothing to the files found, at any depth below it: the result is the one
    for the tree without that sub-directory. *)
Theorem skipped_directory_is_ignored
    (top : str) (before : list (str * dir)) (name : str) (sub : dir)
    (after : list (str * dir)) (files : list str) :
  ~ In sep name ->
  names_ok sub = true ->
  skipped_part name = true ->
  get_flutter_project_files top
    (Some (Dir (before ++ (name, sub) :: after) files))
  = get_flutter_project_files top (Some (Dir (before ++ after) files)).
Proof.
  intros Hname Hn Hs. rewrite !project_files_directory_eq. f_equal.
  rewrite !flat_map_app. f_equal. cbn [flat_map fst snd].
  destruct (is_link sub); [reflexivity|].
  rewrite skipped_top_finds_nothing; [reflexivity|assumption|].
  unfold skipped_root. apply existsb_exists. exists name.
  split; [now apply path_join_last_part|assumption].
Qed.

Lemma skipped_directory_is_ignored_witness :
  get_flutter_project_files (py "app")
    (Some (Dir ([(py "lib", Dir [] [py "main.dart"])]
                ++ (py "build", Dir [(py "gen", Dir [] [py "out.dart"])]
                                    [py "cache.dart"])
                   :: [(py "test", Dir [] [py "main_test.dart"])])
               []))
  = get_flutter_project_files (py "app")
      (Some (Dir ([(py "lib", Dir [] [py "main.dart"])]
                  ++ [(py "test", Dir [] [py "main_test.dart"])])
                 [])).
Proof.
  apply (skipped_directory_is_ignored (py "app")
           [(py "lib", Dir [] [py "main.dart"])] (py "build")
           (Dir [(py "gen", Dir [] [py "out.dart"])] [py "cache.dart"])
           [(py "test", Dir [] [py "main_test.dart"])] []).
  - vm_compute. intuition discriminate.
  - reflexivity.
  - reflexivity.
Defined.

Lemma in_project_files path top root :
  In path (get_flutter_project_files top root) <->
  exists dirpath dirs files file,
    In (dirpath, dirs, files) (os_walk top root) /\
    skipped_root dirpath = false /\
    In file files /\ endswith file DART_EXTENSIONS = true /\
    path = path_join dirpath file.
Proof.
  unfold get_flutter_project_files. rewrite project_files_fold, in_flat_map_iff.
  split.
  - intros [[[dirpath dirs] files] [He Hin]]. unfold dart_files_of in Hin.
    simpl in Hin. destruct (skipped_root dirpath) eqn:Hs; [contradiction|].
    apply in_map_iff in Hin. destruct Hin as [file [<- Hf]].
    apply filter_In in Hf. destruct Hf as [Hf Hext].
    exists dirpath, dirs, files, file. auto.
  - intros [dirpath [dirs [files [file [He [Hs [Hf [Hext ->]]]]]]]].
    exists (dirpath, dirs, files). split; [assumption|].
    unfold dart_files_of. simpl. rewrite Hs. apply in_map.
    apply filter_In. auto.
Qed.

Lemma path_join_app a b : exists pre, path_join a b = pre ++ b.
Proof.
  unfold path_join. destruct (is_prefix [sep] b); [now exists []|].
  destruct (negb (truthy a) || is_suffix [sep] a); [now exists a|].
  exists (a ++ [sep]). now rewrite <- app_assoc.
Qed.

Lemma is_suffix_app p pre b :
  is_suffix p b = true -> is_suffix p (pre ++ b) = true.
Proof.
  unfold is_suffix. rewrite !is_prefix_spec, rev_app_distr.
  intros [t ->]. exists (t ++ rev pre). now rewrite app_assoc.
Qed.

Lemma entered_walk d names d' :
  entered d names d' ->
  forall top subdirs files, d' = Dir subdirs files ->
    In (fold_left path_join names top, map fst subdirs, files) (walk top d).
Proof.
  induction 1 as [subdirs0 files0|subdirs0 files0 name sub names d' Hin Hl _ IH
                  |target names d' _ IH];
    intros top subdirs files E.
  - injection E as -> ->. rewrite walk_eq. now left.
  - rewrite walk_eq. right. apply in_flat_map_iff. exists (name, sub).
    split; [assumption|]. cbn [fst snd]. rewrite Hl.
    apply (IH (path_join top name) subdirs files E).
  - apply (IH top subdirs files E).
Qed.

Lemma walk_entered : forall d top dirpath dirs files,
  In (dirpath, dirs, files) (walk top d) ->
  exists names subdirs,
    entered d names (Dir subdirs files) /\
    dirpath = fold_left path_join names top /\ dirs = map fst subdirs.
Proof.
  intros d. induction d as [subdirs0 files0 IH|target IH] using dir_induction;
    intros top dirpath dirs files Hin.
  - rewrite walk_eq in Hin. destruct Hin as [E|Hin].
    + injection E as <- <- <-. exists [], subdirs0.
      repeat split. constructor.
    + apply in_flat_map_iff in Hin. destruct Hin as [[n sub] [Hsub Hin]].
      cbn [fst snd] in Hin. destruct (is_link sub) eqn:Hl; [contradiction|].
      rewrite Forall_forall in IH.
      destruct (IH _ Hsub (path_join top n) dirpath dirs files Hin)
        as [names [subdirs [He [-> ->]]]].
      exists (n :: names), subdirs. repeat split.
      now apply (entered_sub subdirs0 files0 n sub).
  - destruct (IH top dirpath dirs files Hin) as [names [subdirs [He [-> ->]]]].
    exists names, subdirs. repeat split. now constructor.
Qed.

(** X16.  A path is found exactly when it is the joined path of a directory
    and of one of its files whose name ends in [.dart], where the directory
    is the project directory or is reached from it through sub-directories
    none of which is a symbolic link, its path is the project path joined
    with the names on the way, and no component of that path starts with a
    dot or is [build]. *)
Theorem project_files_exactly
    (project_path : str) (root : dir) (path : str) :
  In path (get_flutter_project_files project_path (Some root)) <->
  exists (names : list str) (subdirs : list (str * dir)) (files : list str)
         (file : str),
    entered root names (Dir subdirs files) /\
    skipped_root (fold_left path_join names project_path) = false /\
    In file files /\ endswith file [py ".dart"] = true /\
    path = path_join (fold_left path_join names project_path) file.
Proof.
  rewrite in_project_files. cbn [os_walk]. split.
  - intros [dirpath [dirs [files [file [He [Hs [Hf [Hext ->]]]]]]]].
    destruct (walk_entered _ _ _ _ _ He) as [names [subdirs [Hen [-> ->]]]].
    exists names, subdirs, files, file. auto.
  - intros [names [subdirs [files [file [Hen [Hs [Hf [Hext ->]]]]]]]].
    exists (fold_left path_join names project_path), (map fst subdirs), files, file.
    repeat split; try assumption.
    now apply (entered_walk root names (Dir subdirs files)).
Qed.

(** X19.  Every path that is found ends in [.dart]. *)
Theorem project_files_are_dart_files
    (project_path : str) (root : option dir) (path : str) :
  In path (get_flutter_project_files project_path root) ->
  endswith path [py ".dart"] = true.
Proof.
  intros H. apply in_project_files in H.
  destruct H as [dirpath [dirs [files [file [_ [_ [_ [Hext ->]]]]]]]].
  destruct (path_join_app dirpath file) as [pre ->].
  unfold endswith, DART_EXTENSIONS in *. simpl existsb in *.
  rewrite orb_false_r in *. now apply is_suffix_app.
Qed.

Lemma project_files_are_dart_files_witness :
  endswith (py "app/lib/main.dart") [py ".dart"] = true.
Proof.
  apply (project_files_are_dart_files (py "app")
           (Some (Dir [(py "lib", Dir [] [py "main.dart"; py "notes.txt"])] []))
           (py "app/lib/main.dart")).
  vm_compute. left. reflexivity.
Defined.

Lemma file_names_ok_eq subdirs files :
  file_names_ok (Dir subdirs files) =
  forallb (fun file => negb (is_prefix [sep] file)) files
  && forallb (fun nd => file_names_ok (snd nd)) subdirs.
Proof.
  simpl. f_equal. induction subdirs as [|[n sub] subdirs IH]; [reflexivity|].
  simpl. now rewrite IH.
Qed.

Lemma is_prefix_refl s : is_prefix s s = true.
Proof. apply is_prefix_spec. exists []. now rewrite app_nil_r. Qed.

Lemma is_prefix_trans a b c :
  is_prefix a b = true -> is_prefix b c = true -> is_prefix a c = true.
Proof.
  rewrite !is_prefix_spec. intros [t ->] [u ->]. exists (t ++ u).
  now rewrite app_assoc.
Qed.

Lemma path_join_prefix top name :
  is_prefix [sep] name = false -> is_prefix top (path_join top name) = true.
Proof.
  intros H. unfold path_join. rewrite H. apply is_prefix_spec.
  destruct (negb (truthy top) || is_suffix [sep] top); eauto.
Qed.

Lemma walk_under_top : forall d top,
  names_ok d = true -> file_names_ok d = true ->
  Forall (fun e => is_prefix top (fst (fst e)) = true /\
                   forall file, In file (snd e) -> is_prefix [sep] file = false)
         (walk top d).
Proof.
  intros d. induction d as [subdirs files IH|target IH] using dir_induction;
    [|intros top Hn Hf; now apply IH].
  intros top Hn Hf. rewrite walk_eq.
  rewrite names_ok_eq in Hn. rewrite file_names_ok_eq in Hf.
  apply andb_true_iff in Hf. destruct Hf as [Hf1 Hf2].
  rewrite forallb_forall in Hn, Hf1, Hf2. constructor.
  - simpl. split; [apply is_prefix_refl|].
    intros file Hin. now apply negb_true_iff, Hf1.
  - apply Forall_forall. intros e He. apply in_flat_map_iff in He.
    destruct He as [[n sub] [Hin He]]. cbn [fst snd] in He.
    destruct (is_link sub); [contradiction|].
    rewrite Forall_forall in IH. specialize (IH _ Hin (path_join top n)).
    specialize (Hn _ Hin). specialize (Hf2 _ Hin). simpl in Hn, Hf2, IH.
    apply andb_true_iff in Hn. destruct Hn as [Hn1 Hn2].
    apply negb_true_iff in Hn1.
    rewrite Forall_forall in IH. destruct (IH Hn2 Hf2 e He) as [Hp Hfiles].
    split; [|assumption].
    eapply is_prefix_trans; [|exact Hp]. now apply path_join_prefix.
Qed.

(** X20.  When the names in the directory are plain names (none starts with
    the separator), every path that is found starts with the project path. *)
Theorem project_files_are_under_project_path
    (project_path : str) (root : dir) (path : str) :
  names_ok root = true -> file_names_ok root = true ->
  In path (get_flutter_project_files project_path (Some root)) ->
  is_prefix project_path path = true.
Proof.
  intros Hn Hf H. apply in_project_files in H.
  destruct H as [dirpath [dirs [files [file [He [_ [Hfile [_ ->]]]]]]]].
  simpl in He. pose proof (walk_under_top root project_path Hn Hf) as Hall.
  rewrite Forall_forall in Hall. destruct (Hall _ He) as [Hp Hfiles].
  simpl in Hp, Hfiles.
  eapply is_prefix_trans; [exact Hp|]. apply path_join_prefix. now apply Hfiles.
Qed.

Lemma project_files_are_under_project_path_witness :
  is_prefix (py "app") (py "app/lib/main.dart") = true.
Proof.
  apply (project_files_are_under_project_path (py "app")
           (Dir [(py "lib", Dir [] [py "main.dart"; py "notes.txt"])] [])
           (py "app/lib/main.dart")).
  - reflexivity.
  - reflexivity.
  - vm_compute. left. reflexivity.
Defined.

(** ** Lines that are not code *)

Lemma Matches_star_inv g r w :
  Matches (Star g r) w ->
  w = [] \/ exists w1 w2, w = w1 ++ w2 /\ w1 <> [] /\ Matches r w1.
Proof.
  intros M. inversion M; subst; [now left|]. right. eauto.
Qed.

(** A line that starts tracking starts with white space, an [@] or a
    letter. *)
Lemma method_pattern_head s :
  found (re_match method_pattern s) = true ->
  exists c t, s = c :: t /\
              (isspace c = true \/ c = ch "@" \/ is_alpha c = true).
Proof.
  unfold method_pattern. cbn [seq]. rewrite re_match_bol.
  destruct (re_match _ s) as [m|] eqn:Hm; [intros _|discriminate].
  apply re_match_sound in Hm. destruct Hm as [w [Es M]].
  apply Matches_cat_inv in M. destruct M as [ws [w' [-> [Mws M]]]].
  apply Matches_cat_inv in M. destruct M as [ats [w'' [-> [Mats M]]]].
  apply Matches_cat_inv in M. destruct M as [name [w3 [-> [Mname _]]]].
  apply Matches_star_cls in Mws.
  apply (proj1 (Matches_plus_cls _ _ _)) in Mname.
  destruct Mname as [c [t [-> [Hc _]]]].
  destruct ws as [|sp ws].
  - apply Matches_star_inv in Mats. destruct Mats as [->|[w1 [w2 [-> [Hne M1]]]]].
    + eexists c, _. rewrite Es. simpl. split; [reflexivity|auto].
    + apply Matches_cat_inv in M1. destruct M1 as [a [b [-> [Ma _]]]].
      apply Matches_chr in Ma. subst a.
      eexists (ch "@"), _. rewrite Es. simpl. split; [reflexivity|auto].
  - apply Forall_inv in Mws. eexists sp, _. rewrite Es. simpl.
    split; [reflexivity|auto].
Qed.

Lemma comment_line_head line :
  is_comment_line line = true ->
  exists c t, strip line = c :: t /\ (c = ch "/" \/ c = ch "*").
Proof.
  unfold is_comment_line, startswith. intros H. apply existsb_exists in H.
  destruct H as [p [Hp H]]. apply is_prefix_spec in H. destruct H as [t ->].
  unfold comment_markers in Hp. simpl in Hp.
  destruct Hp as [<-|[<-|[<-|[]]]]; eexists _, _; (split; [reflexivity|auto]).
Qed.

Lemma duplicate_issue_line content file_path iss k line :
  In iss (_detect_duplicate_code content file_path) ->
  nth_error content k = Some line -> line_number iss = Z.of_nat k + 1 ->
  is_code_line line = true.
Proof.
  rewrite duplicate_code_groups. intros Hin Hk Hline.
  apply in_flat_map_iff in Hin. destruct Hin as [[code lines] [Hb Hin]].
  apply collect_blocks_spec in Hb. destruct Hb as [-> _].
  unfold group_issues in Hin. destruct (_ && _); [|contradiction].
  apply in_map_iff in Hin. destruct Hin as [n [<- Hn]]. simpl in Hn, Hline.
  apply in_positions in Hn. destruct Hn as [i [l [Hil [Hcode [_ ->]]]]].
  assert (i = Z.of_nat k) by lia. subst i.
  now rewrite (in_enumerate_fun _ _ _ _ (in_enumerate_nat _ _ _ Hk) Hil).
Qed.

Lemma unused_import_issue_line content out iss k line :
  _detect_unused_imports content = Ok out -> In iss out ->
  nth_error content k = Some line -> line_number iss = Z.of_nat k + 1 ->
  exists tl, strip line = py "import" ++ tl.
Proof.
  rewrite _detect_unused_imports_flat_map. intros H Hin Hk Hline.
  inversion H; subst out. apply in_flat_map_iff in Hin.
  destruct Hin as [[i l] [Hil Hin]].
  pose proof (unused_import_issues_line content i l iss Hil Hin) as E.
  assert (i = Z.of_nat k) by lia. subst i.
  rewrite (in_enumerate_fun _ _ _ _ (in_enumerate_nat _ _ _ Hk) Hil) in *.
  unfold unused_import_issues in Hin. simpl snd in Hin.
  destruct (re_match import_pattern (strip l)) as [m|] eqn:Hm; [|contradiction].
  destruct (import_match _ _ Hm) as [sp [q1 [path [q2 [Es _]]]]]. eauto.
Qed.

Lemma long_method_issue_line content out iss k line :
  _detect_long_methods content = Ok out -> In iss out ->
  nth_error content k = Some line -> line_number iss = Z.of_nat k + 1 ->
  found (re_match method_pattern (strip line)) = true.
Proof.
  intros H Hin Hk Hline.
  destruct (_detect_long_methods_spec content) as [out' [H' Hall]].
  assert (out' = out) by congruence. subst out'.
  rewrite Forall_forall in Hall.
  destruct (Hall _ Hin) as [start [close [first [[l [Hil [Hm _]]] [_ [_ [_ ->]]]]]]].
  simpl in Hline. subst start.
  replace (Z.of_nat k + 1 - 1) with (Z.of_nat k) in Hil by lia.
  now rewrite (in_enumerate_fun _ _ _ _ (in_enumerate_nat _ _ _ Hk) Hil).
Qed.

Lemma dead_code_issue_line content out iss k line :
  _detect_dead_code content = Ok out -> In iss out ->
  nth_error content k = Some line -> line_number iss = Z.of_nat k + 1 ->
  found (re_match private_method_pattern (strip line)) = true.
Proof.
  rewrite _detect_dead_code_spec. intros H Hin Hk Hline.
  inversion H; subst out. apply in_flat_map_iff in Hin.
  destruct Hin as [[i l] [Hil Hin]].
  pose proof (dead_code_issues_line _ _ _ _ Hin) as E.
  assert (i = Z.of_nat k) by lia. subst i.
  rewrite (in_enumerate_fun _ _ _ _ (in_enumerate_nat _ _ _ Hk) Hil) in *.
  destruct (found (re_match private_method_pattern (strip l))) eqn:Hm;
    [reflexivity|].
  now rewrite dead_code_issues_unmatched in Hin.
Qed.

(** X21.  A comment line (trimmed text starting with [//], [/*] or [*]) is
    never reported by the Duplication, Unused-Import, Long-Method or
    Dead-Code pass: none of their issues is at its line number. *)
Theorem comment_line_is_not_reported
    (content : list str) (file_path : str) (k : nat) (line : str) :
  nth_error content k = Some line ->
  is_comment_line line = true ->
  exists unused long dead,
    _detect_unused_imports content = Ok unused /\
    _detect_long_methods content = Ok long /\
    _detect_dead_code content = Ok dead /\
    forall iss,
      In iss (_detect_duplicate_code content file_path ++ unused ++ long ++ dead) ->
      line_number iss <> Z.of_nat k + 1.
Proof.
  intros Hk Hc.
  destruct (comment_line_head line Hc) as [c [t [Es Hhead]]].
  assert (Hnot : isspace c = false /\ c <> ch "@" /\ is_alpha c = false /\
                 is_word c = false /\ c <> ch "i").
  { destruct Hhead as [-> | ->]; repeat split; try reflexivity; discriminate. }
  destruct Hnot as [Hsp [Hat [Hal [Hwd Hi]]]].
  destruct (_detect_unused_imports_spec content) as [unused [Hu _]].
  destruct (_detect_long_methods_spec content) as [long [Hl _]].
  destruct (dead_code_of_file content) as [dead [Hd _]].
  exists unused, long, dead. repeat split; try assumption.
  intros iss Hin Hline. repeat (apply in_app_iff in Hin; destruct Hin as [Hin|Hin]).
  - pose proof (duplicate_issue_line _ _ _ _ _ Hin Hk Hline) as H.
    unfold is_code_line, is_comment_line in *. rewrite Hc in H.
    now rewrite andb_false_r in H.
  - destruct (unused_import_issue_line _ _ _ _ _ Hu Hin Hk Hline) as [tl H].
    rewrite Es in H. inversion H. contradiction.
  - pose proof (long_method_issue_line _ _ _ _ _ Hl Hin Hk Hline) as H.
    apply method_pattern_head in H. destruct H as [c' [t' [E H]]].
    rewrite Es in E. inversion E; subst c' t'.
    destruct H as [H|[H|H]]; congruence.
  - pose proof (dead_code_issue_line _ _ _ _ _ Hd Hin Hk Hline) as H.
    apply private_method_match_head in H.
    destruct H as [ws [c' [t' [E [Hws Hc']]]]]. rewrite Es in E.
    destruct ws as [|sp ws]; simpl in E; inversion E; subst.
    + congruence.
    + inversion Hws; subst. congruence.
Qed.

Lemma comment_line_is_not_reported_witness :
  exists unused long dead,
    _detect_unused_imports
      [ln "// void _old() {"; ln "// import 'dart:io';"] = Ok unused /\
    _detect_long_methods
      [ln "// void _old() {"; ln "// import 'dart:io';"] = Ok long /\
    _detect_dead_code
      [ln "// void _old() {"; ln "// import 'dart:io';"] = Ok dead /\
    forall iss,
      In iss (_detect_duplicate_code
                [ln "// void _old() {"; ln "// import 'dart:io';"]
                (py "lib/a.dart") ++ unused ++ long ++ dead) ->
      line_number iss <> Z.of_nat 0 + 1.
Proof.
  apply (comment_line_is_not_reported
           [ln "// void _old() {"; ln "// import 'dart:io';"]
           (py "lib/a.dart") 0%nat (ln "// void _old() {")).
  - reflexivity.
  - reflexivity.
Defined.

(** The Potential-Bug pass does read comment lines. *)
Example commented_null_check_is_reported :
  map line_number (_detect_potential_bugs [ln "// if (a != null) return;"])
  = [1].
Proof. vm_compute. reflexivity. Qed.

Lemma potential_bug_issue_line content iss k line :
  In iss (_detect_potential_bugs content) ->
  nth_error content k = Some line -> line_number iss = Z.of_nat k + 1 ->
  null_check_fires (strip line) = true \/ empty_catch_fires (strip line) = true.
Proof.
  rewrite _detect_potential_bugs_spec. intros Hin Hk Hline.
  apply in_flat_map_iff in Hin. destruct Hin as [[i l] [Hil Hin]].
  pose proof (potential_bug_issues_line _ _ _ Hin) as E.
  assert (i = Z.of_nat k) by lia. subst i.
  rewrite (in_enumerate_fun _ _ _ _ (in_enumerate_nat _ _ _ Hk) Hil) in *.
  rewrite potential_bug_issues_eq in Hin.
  destruct (null_check_fires (strip l)); [now left|].
  destruct (empty_catch_fires (strip l)); [now right|contradiction].
Qed.

(** X22.  A blank line (nothing but white space) is never reported: the five
    passes return no issue at its line number. *)
Theorem blank_line_is_not_reported
    (content : list str) (file_path : str) (k : nat) (line : str) :
  nth_error content k = Some line ->
  strip line = [] ->
  exists issues,
    detect_all content file_path = Ok issues /\
    forall iss, In iss issues -> line_number iss <> Z.of_nat k + 1.
Proof.
  intros Hk Hb. unfold detect_all.
  destruct (_detect_unused_imports_spec content) as [unused [Hu _]].
  destruct (_detect_long_methods_spec content) as [long [Hl _]].
  destruct (dead_code_of_file content) as [dead [Hd _]].
  rewrite Hu, Hl, Hd. unfold bind. eexists. split; [reflexivity|].
  intros iss Hin Hline. repeat (apply in_app_iff in Hin; destruct Hin as [Hin|Hin]).
  - pose proof (duplicate_issue_line _ _ _ _ _ Hin Hk Hline) as H.
    unfold is_code_line in H. rewrite Hb in H. discriminate.
  - destruct (unused_import_issue_line _ _ _ _ _ Hu Hin Hk Hline) as [tl H].
    rewrite Hb in H. discriminate.
  - pose proof (long_method_issue_line _ _ _ _ _ Hl Hin Hk Hline) as H.
    rewrite Hb in H. vm_compute in H. discriminate.
  - pose proof (dead_code_issue_line _ _ _ _ _ Hd Hin Hk Hline) as H.
    rewrite Hb in H. vm_compute in H. discriminate.
  - destruct (potential_bug_issue_line _ _ _ _ Hin Hk Hline) as [H|H];
      rewrite Hb in H; vm_compute in H; discriminate.
Qed.

Lemma blank_line_is_not_reported_witness :
  exists issues,
    detect_all [ln "void _old() {"; ln "   "; ln "}"] (py "lib/a.dart")
      = Ok issues /\
    forall iss, In iss issues -> line_number iss <> Z.of_nat 1 + 1.
Proof.
  apply (blank_line_is_not_reported
           [ln "void _old() {"; ln "   "; ln "}"] (py "lib/a.dart") 1%nat
           (ln "   ")).
  - reflexivity.
  - reflexivity.
Defined.
